(** * Pneumonia-detection REST API: a shallow embedding of [API_Rest/main.py]

  The development follows the layout of the Python module:
  - NumPy [float32] values and Python floats, as IEEE-754 binary32 and
    binary64 numbers of the Standard Library's [SpecFloat] ([F32], [F64]);
  - NumPy arrays as nested lists with a shape ([ndarray]);
  - section 3 of the module: model loading at start-up ([startup]);
  - section 4: the helpers [preprocess_image] and [make_prediction];
  - section 5: the endpoints [root], [health_check], [predict],
    [predict_base64];
  - the test client [API_Rest/test_api.py], run against these endpoints.

  Calls into libraries whose code is not part of the repository (Pillow,
  Keras, [base64], the file system) are the fields of the class [Lib];
  every theorem holds for all of its instances.  The handlers run in a
  state-and-exception monad [M] over the module's globals, the clock and a
  trace of the external calls made. *)

From Stdlib Require Import ZArith Lia List Bool String Ascii QArith Qabs Qpower.
From Stdlib Require Import Floats.SpecFloat.
Import ListNotations.

Local Open Scope Z_scope.

(** ** IEEE-754 numbers *)

(** The exact rational value of a finite float.  Infinities and NaN read
  as 0; [is_finite] excludes them wherever a value is used. *)
Definition SF2Q (x : spec_float) : Q :=
  match x with
  | S754_finite s m e => (inject_Z (cond_Zopp s (Zpos m)) * 2 ^ e)%Q
  | _ => 0%Q
  end.

Definition is_finite (x : spec_float) : bool :=
  match x with
  | S754_zero _ | S754_finite _ _ _ => true
  | _ => false
  end.

(** NumPy [float32]: binary32, 24 bits of precision, round to nearest even. *)
Module F32.
Definition prec : Z := 24.
Definition emax : Z := 128.
Definition t := spec_float.
Definition valid (x : t) : bool := valid_binary prec emax x.
Definition of_Z (n : Z) : t := binary_normalize prec emax n 0 false.
Definition sub (x y : t) : t := SFsub prec emax x y.
Definition div (x y : t) : t := SFdiv prec emax x y.
Definition ltb (x y : t) : bool := SFltb x y.
Definition leb (x y : t) : bool := SFleb x y.
Definition eqb (x y : t) : bool := SFeqb x y.
(** The constants of the source: [0.5], [1], [255.0], and [0.0]. *)
Definition half : t := S754_finite false 8388608 (-24).
Definition one : t := of_Z 1.
Definition c255 : t := of_Z 255.
Definition zero : t := S754_zero false.
End F32.

(** Python [float]: binary64. *)
Module F64.
Definition prec : Z := 53.
Definition emax : Z := 1024.
Definition t := spec_float.
Definition valid (x : t) : bool := valid_binary prec emax x.
Definition sub (x y : t) : t := SFsub prec emax x y.
Definition ltb (x y : t) : bool := SFltb x y.
Definition leb (x y : t) : bool := SFleb x y.
(** The constants [0.5] and [1.0]. *)
Definition half : t := S754_finite false 4503599627370496 (-53).
Definition one : t := S754_finite false 4503599627370496 (-52).
(** [float(x)] on a NumPy [float32]: the same number, in binary64. *)
Definition of_f32 (x : F32.t) : t :=
  match x with
  | S754_finite s m e => binary_normalize prec emax (cond_Zopp s (Zpos m)) e s
  | _ => x
  end.
(** Python's [max(a, b)]: [b] when [b > a], else [a]. *)
Definition max (a b : t) : t := if ltb a b then b else a.
End F64.

(** Notions used to reason on [SpecFloat]'s rounding, for any format. *)
Section FormatDefs.
Variables prec emax : Z.

(** The float built at the end of a rounding: overflow gives an infinity. *)
Definition mk (s : bool) (m : positive) (e : Z) : spec_float :=
  if e <=? emax - prec then S754_finite s m e else S754_infinity s.

(** The last step of [binary_round_aux]: renormalise a rounded mantissa. *)
Definition finish (s : bool) (m : Z) (e : Z) : spec_float :=
  let '(mrs, e') := shr_fexp prec emax m e loc_Exact in
  match shr_m mrs with
  | Z0 => S754_zero s
  | Zpos m => mk s m e'
  | Zneg _ => S754_nan
  end.

(** The value of a float in units of [2 ^ emin]: an integer for every
  valid number of the format. *)
Definition Zval (x : spec_float) : Z :=
  match x with
  | S754_finite s m e => cond_Zopp s (Zpos m * 2 ^ (e - emin prec emax))
  | _ => 0
  end.
End FormatDefs.

(** ** NumPy arrays *)

#[warnings="-register-all"]
Inductive ndarray (A : Type) : Type :=
| Scalar (a : A)
| Arr (items : list (ndarray A)).
Arguments Scalar {A} a.
Arguments Arr {A} items.


(** Element-wise operations ([astype], division by a scalar). *)
Fixpoint nd_map {A B : Type} (f : A -> B) (a : ndarray A) : ndarray B :=
  match a with
  | Scalar x => Scalar (f x)
  | Arr items => Arr (map (nd_map f) items)
  end.


(** [np.expand_dims(a, axis=0)] *)
Definition expand_dims0 {A : Type} (a : ndarray A) : ndarray A := Arr [a].

(** ** Exceptions, state and the monad of the handlers *)

Local Open Scope string_scope.

Definition bytes := list Byte.byte.

(** [fastapi.HTTPException] and every other Python exception, with its
  class name and [str(e)]. *)
Inductive exn : Type :=
| HTTPException (status_code : Z) (detail : string)
| PyError (cls : string) (msg : string).

Inductive outcome (A : Type) : Type :=
| Return (a : A)
| Raise (e : exn).
Arguments Return {A} a.
Arguments Raise {A} e.

(** A Pillow image: its mode, its size (width, height) and the pixel store
  of the library. *)
Record Image (Raster : Type) : Type := mkImage {
  mode : string;
  size : nat * nat;
  im : Raster
}.
Arguments mkImage {Raster} mode size im.
Arguments mode {Raster} i.
Arguments size {Raster} i.
Arguments im {Raster} i.

(** What NumPy makes of a [float32] scalar combined with a Python number:
  a [float32] since NumPy 2 (NEP 50), a [float64] before. *)
Inductive promotion : Type := NEP50 | Legacy.

(** The library functions the module calls.  A result [inl msg] is an
  exception of the library whose [str] is [msg]. *)
Class Lib : Type := {
  (** Pillow: the pixel store, [Image.open], the band conversion and the
    resampling behind [convert] and [resize], and the 8-bit band values
    that [np.array] reads. *)
  Raster : Type;
  Image_open : bytes -> string + Image Raster;
  raster_convert : string -> string -> Raster -> Raster;
  raster_resize : nat * nat -> nat * nat -> Raster -> Raster;
  raster_band : Raster -> nat -> nat -> nat -> Byte.byte;
  (** Keras: a loaded model, [load_model], and [predict(x, verbose=0)[0][0]]. *)
  Model : Type;
  load_model : string -> string + Model;
  model_predict : Model -> ndarray F32.t -> string + F32.t;
  (** [pathlib]: [Path(__file__).parent] and [Path.exists]. *)
  module_dir : string;
  path_exists : string -> bool;
  (** [base64.b64decode] and [base64.b64encode] on ASCII text. *)
  b64decode : string -> string + bytes;
  b64encode : bytes -> string;
  (** The scalar promotion of the installed NumPy. *)
  np_promotion : promotion
}.

Inductive level : Type := INFO | ERROR.

(** The messages the module logs, by their arguments. *)
Inductive log_msg : Type :=
| MsgModelLoaded (name : string)
| MsgModelLoadError (name err : string)
| MsgNoModel
| MsgApiReady (name : option string)
| MsgImage (filename : option string) (size : nat * nat)
| MsgImageBase64 (size : nat * nat)
| MsgPrediction (label : string) (confidence : F64.t)
| MsgError (err : string).

(** What a run does to the outside, in order. *)
Inductive event : Type :=
| EvPathExists (path : string)
| EvLoadModel (path : string)
| EvImageOpen
| EvModelPredict
| EvLog (lvl : level) (msg : log_msg).

Section Server.
Context {L : Lib}.

(** The globals [model] and [model_name], the reading of the clock, and
  the trace (most recent event first). *)
Record state : Type := mkState {
  g_model : option Model;
  g_model_name : option string;
  clock : string;
  trace : list event
}.

Definition M (A : Type) : Type := state -> outcome A * state.

Definition ret {A : Type} (a : A) : M A := fun st => (Return a, st).

Definition raise {A : Type} (e : exn) : M A := fun st => (Raise e, st).

Definition bind {A B : Type} (m : M A) (k : A -> M B) : M B :=
  fun st =>
    match m st with
    | (Return a, st') => k a st'
    | (Raise e, st') => (Raise e, st')
    end.

(** [try: m except ...: handler] *)
Definition try_except {A : Type} (m : M A) (handler : exn -> M A) : M A :=
  fun st =>
    match m st with
    | (Return a, st') => (Return a, st')
    | (Raise e, st') => handler e st'
    end.

Definition emit (ev : event) : M unit :=
  fun st => (Return tt, mkState (g_model st) (g_model_name st) (clock st) (ev :: trace st)).

Definition get_model : M (option Model) := fun st => (Return (g_model st), st).

Definition get_model_name : M (option string) := fun st => (Return (g_model_name st), st).

(** [model = ...; model_name = ...] at module level. *)
Definition set_model (m : Model) (name : string) : M unit :=
  fun st => (Return tt, mkState (Some m) (Some name) (clock st) (trace st)).

(** [datetime.now().isoformat()] *)
Definition datetime_now_isoformat : M string := fun st => (Return (clock st), st).

(** A library call: its event, then its result or its exception. *)
Definition call {A : Type} (ev : event) (cls : string) (r : string + A) : M A :=
  bind (emit ev) (fun _ =>
    match r with
    | inr a => ret a
    | inl msg => raise (PyError cls msg)
    end).

Definition logger_info (msg : log_msg) : M unit := emit (EvLog INFO msg).

Definition logger_error (msg : log_msg) : M unit := emit (EvLog ERROR msg).
End Server.

Declare Scope monad_scope.
Delimit Scope monad_scope with monad.
Notation "x <- m ;; k" := (bind m (fun x => k))
  (at level 61, m at next level, right associativity) : monad_scope.
Notation "m ;; k" := (bind m (fun _ => k))
  (at level 61, right associativity) : monad_scope.
Local Open Scope monad_scope.

(** ** Section 3 of the module: loading the model *)

Section Startup.
Context {L : Lib}.

(** [MODEL_DIR / filename], with [MODEL_DIR = Path(__file__).parent / "models"]. *)
Definition model_path (filename : string) : string :=
  module_dir ++ "/models/" ++ filename.

Definition IMG_SIZE : nat * nat := (224%nat, 224%nat).

Definition model_priority : list (string * string) :=
  [ ("vgg16_finetuned.h5", "VGG16 Fine-tuned");
    ("vgg16_best.h5", "VGG16 Best");
    ("baseline_best.h5", "CNN Baseline") ].

(** The [for filename, name in model_priority] loop: [break] ends the
  recursion, [continue] and a missing file go on with the next candidate. *)
Fixpoint load_first (candidates : list (string * string)) : M unit :=
  match candidates with
  | [] => ret tt
  | (filename, name) :: rest =>
      emit (EvPathExists (model_path filename)) ;;
      if path_exists (model_path filename) then
        emit (EvLoadModel (model_path filename)) ;;
        match load_model (model_path filename) with
        | inr m =>
            set_model m name ;;
            logger_info (MsgModelLoaded name)
        | inl e =>
            logger_error (MsgModelLoadError name e) ;;
            load_first rest
        end
      else load_first rest
  end.

Definition startup : M unit :=
  load_first model_priority ;;
  model <- get_model ;;
  match model with
  | None => logger_error MsgNoModel
  | Some _ => name <- get_model_name ;; logger_info (MsgApiReady name)
  end.

(** The state in which the module starts to run: [model = None],
  [model_name = None]. *)
Definition initial_state (now : string) : state := mkState None None now [].
End Startup.

(** ** Section 4 of the module: helpers *)

Section Helpers.
Context {L : Lib}.

(** [Image.convert(mode)] and [Image.resize(size)]: a new image with the
  mode, respectively the size, asked for. *)
Definition Image_convert (image : Image Raster) (new_mode : string) : Image Raster :=
  mkImage new_mode (size image) (raster_convert (mode image) new_mode (im image)).

Definition Image_resize (image : Image Raster) (new_size : nat * nat) : Image Raster :=
  mkImage (mode image) new_size (raster_resize (size image) new_size (im image)).

(** [len(Image.getbands())] for Pillow's modes. *)
Definition getbands (m : string) : nat :=
  if existsb (String.eqb m) ["RGB"; "YCbCr"; "LAB"; "HSV"] then 3
  else if existsb (String.eqb m) ["RGBA"; "CMYK"; "RGBX"; "RGBa"] then 4
  else if existsb (String.eqb m) ["LA"; "PA"; "La"] then 2
  else 1.

(** [np.array(image)] for the 8-bit modes: height rows of width pixels; a
  pixel of a multi-band image is the array of its bands. *)
Definition np_array (image : Image Raster) : ndarray Byte.byte :=
  let '(width, height) := size image in
  let pixel (x y : nat) : ndarray Byte.byte :=
    if Nat.eqb (getbands (mode image)) 1 then Scalar (raster_band (im image) x y 0)
    else Arr (map (fun c => Scalar (raster_band (im image) x y c))
                  (seq 0 (getbands (mode image)))) in
  Arr (map (fun y => Arr (map (fun x => pixel x y) (seq 0 width))) (seq 0 height)).

(** [uint8 -> float32] *)
Definition float32_of_uint8 (b : Byte.byte) : F32.t := F32.of_Z (Z.of_N (Byte.to_N b)).

Definition astype_float32 (a : ndarray Byte.byte) : ndarray F32.t :=
  nd_map float32_of_uint8 a.

Definition preprocess_image (image : Image Raster) : ndarray F32.t :=
  let image := if negb (String.eqb (mode image) "RGB") then Image_convert image "RGB" else image in
  let image := Image_resize image IMG_SIZE in
  let img_array := np_array image in
  let img_array := nd_map (fun v => F32.div v F32.c255) (astype_float32 img_array) in
  let img_array := expand_dims0 img_array in
  img_array.

(** The dictionary [make_prediction] returns. *)
Record prediction_result : Type := mkResult {
  r_prediction : string;
  r_confidence : F64.t;
  r_prob_normal : F64.t;
  r_prob_pneumonia : F64.t;
  r_model_used : option string;
  r_timestamp : string
}.

(** [prediction > 0.5] on the [float32] scalar the model returns. *)
Definition gt_half (prediction : F32.t) : bool :=
  match np_promotion with
  | NEP50 => F32.ltb F32.half prediction
  | Legacy => F64.ltb F64.half (F64.of_f32 prediction)
  end.

(** [float(1 - prediction)]: the subtraction is done in [float32] or in
  [float64], as NumPy promotes. *)
Definition float_one_minus (prediction : F32.t) : F64.t :=
  match np_promotion with
  | NEP50 => F64.of_f32 (F32.sub F32.one prediction)
  | Legacy => F64.sub F64.one (F64.of_f32 prediction)
  end.

Definition make_prediction (img_array : ndarray F32.t) : M prediction_result :=
  model <- get_model ;;
  match model with
  | None => raise (HTTPException 503 "Modelo no disponible. Verifica carpeta 'models/'")
  | Some m =>
      prediction <- call EvModelPredict "Exception" (model_predict m img_array) ;;
      let predicted_class := if gt_half prediction then "PNEUMONIA" else "NORMAL" in
      let confidence :=
        if gt_half prediction then F64.of_f32 prediction else float_one_minus prediction in
      name <- get_model_name ;;
      now <- datetime_now_isoformat ;;
      ret (mkResult predicted_class confidence
             (float_one_minus prediction)
             (F64.of_f32 prediction)
             name now)
  end.
End Helpers.

(** ** Section 5 of the module: endpoints *)

Section Endpoints.
Context {L : Lib}.

(** The body of [GET /health]. *)
Record health : Type := mkHealth {
  h_status : string;
  h_model_loaded : bool;
  h_model_name : option string;
  h_timestamp : string;
  h_message : string
}.

Definition is_some {A : Type} (o : option A) : bool :=
  match o with Some _ => true | None => false end.

Definition health_check : M health :=
  model <- get_model ;;
  name <- get_model_name ;;
  now <- datetime_now_isoformat ;;
  ret (mkHealth (if is_some model then "healthy" else "degraded")
         (is_some model)
         (if is_some model then name else Some "None")
         now
         (if is_some model then "API funcionando correctamente"
          else "API sin modelo cargado")).

(** [starlette.datastructures.UploadFile]: the part's declared content
  type may be missing. *)
Record UploadFile : Type := mkUpload {
  filename : option string;
  content_type : option string;
  contents : bytes
}.

(** [file.content_type.startswith('image/')] *)
Definition content_type_is_image (file : UploadFile) : M bool :=
  match content_type file with
  | Some ct => ret (String.prefix "image/" ct)
  | None => raise (PyError "AttributeError" "'NoneType' object has no attribute 'startswith'")
  end.

Definition str_of_option (o : option string) : string :=
  match o with Some s => s | None => "None" end.

Definition MAX_BYTES : Z := 10 * 1024 * 1024.

(** [JSONResponse(content=result)]: the body is rendered by [json.dumps]
  with [allow_nan=False], which refuses NaN and the infinities. *)
Definition JSONResponse (result : prediction_result) : M prediction_result :=
  if is_finite (r_confidence result) && is_finite (r_prob_normal result)
     && is_finite (r_prob_pneumonia result)
  then ret result
  else raise (PyError "ValueError" "Out of range float values are not JSON compliant").

(** The two [except] clauses shared by both handlers. *)
Definition except_clauses {A : Type} (e : exn) : M A :=
  match e with
  | HTTPException _ _ => raise e
  | PyError _ msg =>
      logger_error (MsgError msg) ;;
      raise (HTTPException 500 ("Error procesando imagen: " ++ msg))
  end.

Definition predict (file : UploadFile) : M prediction_result :=
  try_except
    (is_image <- content_type_is_image file ;;
     if negb is_image then
       raise (HTTPException 400
                ("Archivo debe ser imagen. Recibido: " ++ str_of_option (content_type file)))
     else
       let contents := contents file in
       if Z.of_nat (List.length contents) >? MAX_BYTES then
         raise (HTTPException 413 "Imagen muy grande. Máximo: 10 MB")
       else
         image <- call EvImageOpen "UnidentifiedImageError" (Image_open contents) ;;
         logger_info (MsgImage (filename file) (size image)) ;;
         let img_array := preprocess_image image in
         result <- make_prediction img_array ;;
         logger_info (MsgPrediction (r_prediction result) (r_confidence result)) ;;
         JSONResponse result)
    except_clauses.

(** A JSON value, and the [dict] FastAPI parses the body into. *)
#[warnings="-register-all"]
Inductive json : Type :=
| JNull
| JBool (b : bool)
| JNumber (n : Z)
| JString (s : string)
| JArray (items : list json)
| JObject (fields : list (string * json)).

Definition dict := list (string * json).

Fixpoint dict_get (d : dict) (key : string) : option json :=
  match d with
  | [] => None
  | (k, v) :: rest => if String.eqb k key then Some v else dict_get rest key
  end.

(** [base64.b64decode(v)]: a [TypeError] unless [v] is text. *)
Definition py_b64decode (v : json) : string + bytes :=
  match v with
  | JString s => b64decode s
  | _ => inl "argument should be a bytes-like object or ASCII string"
  end.

Definition dquote : string := String (Ascii.ascii_of_nat 34) EmptyString.

Definition predict_base64 (data : dict) : M prediction_result :=
  try_except
    (match dict_get data "image" with
     | None =>
         raise (HTTPException 400
                  ("Campo " ++ dquote ++ "image" ++ dquote ++ " requerido con string base64"))
     | Some v =>
         image_data <-
           match py_b64decode v with
           | inr bs => ret bs
           | inl e => raise (HTTPException 400 ("Error decodificando base64: " ++ e))
           end ;;
         image <- call EvImageOpen "UnidentifiedImageError" (Image_open image_data) ;;
         logger_info (MsgImageBase64 (size image)) ;;
         let img_array := preprocess_image image in
         result <- make_prediction img_array ;;
         logger_info (MsgPrediction (r_prediction result) (r_confidence result)) ;;
         JSONResponse result
     end)
    except_clauses.

(** The status line FastAPI answers with. *)
Definition status_of {A : Type} (o : outcome A) : Z :=
  match o with
  | Return _ => 200
  | Raise (HTTPException code _) => code
  | Raise (PyError _ _) => 500
  end.
End Endpoints.

(** ** The specification's view of the handlers *)

Section Classify.
Context {L : Lib}.

(** The dictionary built from a model output [p]. *)
Definition result_of (p : F32.t) (name : option string) (now : string) : prediction_result :=
  mkResult (if gt_half p then "PNEUMONIA" else "NORMAL")
    (if gt_half p then F64.of_f32 p else float_one_minus p)
    (float_one_minus p)
    (F64.of_f32 p)
    name now.

Definition json_compliant (r : prediction_result) : bool :=
  is_finite (r_confidence r) && is_finite (r_prob_normal r)
  && is_finite (r_prob_pneumonia r).

Definition processing_failure {A : Type} (msg : string) : outcome A :=
  Raise (HTTPException 500 ("Error procesando imagen: " ++ msg)).

(** What both endpoints answer once their own checks have passed, as a
  function of the globals, the clock and the image bytes. *)
Definition classify (model : option Model) (name : option string) (now : string)
    (raw : bytes) : outcome prediction_result :=
  match Image_open raw with
  | inl msg => processing_failure msg
  | inr image =>
      match model with
      | None => Raise (HTTPException 503 "Modelo no disponible. Verifica carpeta 'models/'")
      | Some m =>
          match model_predict m (preprocess_image image) with
          | inl msg => processing_failure msg
          | inr p =>
              if json_compliant (result_of p name now)
              then Return (result_of p name now)
              else processing_failure "Out of range float values are not JSON compliant"
          end
      end
  end.

(** Two answers that agree on everything but the timestamp. *)
Definition same_fields (o1 o2 : outcome prediction_result) : Prop :=
  match o1, o2 with
  | Return r1, Return r2 =>
      r_prediction r1 = r_prediction r2 /\
      r_confidence r1 = r_confidence r2 /\
      r_prob_normal r1 = r_prob_normal r2 /\
      r_prob_pneumonia r1 = r_prob_pneumonia r2 /\
      r_model_used r1 = r_model_used r2
  | Raise e1, Raise e2 => e1 = e2
  | _, _ => False
  end.

Definition same_globals (st1 st2 : state) : Prop :=
  g_model st1 = g_model st2 /\ g_model_name st1 = g_model_name st2.
End Classify.

(** ** The specification's view of start-up *)

Section StartupSpec.
Context {L : Lib}.

(** A candidate that exists and loads. *)
Definition loadable (c : string * string) : bool :=
  path_exists (model_path (fst c)) &&
  match load_model (model_path (fst c)) with inr _ => true | inl _ => false end.

(** The first candidate, in the order of the list, that exists and loads. *)
Fixpoint first_loadable (candidates : list (string * string)) : option (Model * string) :=
  match candidates with
  | [] => None
  | c :: rest =>
      if path_exists (model_path (fst c)) then
        match load_model (model_path (fst c)) with
        | inr m => Some (m, snd c)
        | inl _ => first_loadable rest
        end
      else first_loadable rest
  end.

(** The candidates up to and including the first loadable one. *)
Fixpoint attempted (candidates : list (string * string)) : list (string * string) :=
  match candidates with
  | [] => []
  | c :: rest => c :: (if loadable c then [] else attempted rest)
  end.

(** The paths probed with [exists], and those given to [load_model], most
  recent first as in the trace. *)
Definition probes (tr : list event) : list string :=
  flat_map (fun ev => match ev with EvPathExists p => [p] | _ => [] end) tr.

Definition loads (tr : list event) : list string :=
  flat_map (fun ev => match ev with EvLoadModel p => [p] | _ => [] end) tr.

(** The same, in the order in which they happened. *)
Definition probed (st : state) : list string := rev (probes (trace st)).

Definition loaded (st : state) : list string := rev (loads (trace st)).

Definition existing (c : string * string) : bool := path_exists (model_path (fst c)).

(** A candidate that is missing or fails to load. *)
Definition unloadable (c : string * string) : Prop :=
  path_exists (model_path (fst c)) = false \/
  exists e, load_model (model_path (fst c)) = inl e.

Definition candidate_path (c : string * string) : string := model_path (fst c).
End StartupSpec.

(** Symbolic execution of the monadic code. *)
Ltac run :=
  cbv beta iota zeta delta
    [predict predict_base64 make_prediction health_check JSONResponse except_clauses
     content_type_is_image try_except bind ret raise call emit logger_info logger_error
     get_model get_model_name datetime_now_isoformat negb].

(** ** A small instance of the libraries

  Used to run the handlers on concrete requests.  Its base64 codec follows
  RFC 4648 and, for decoding, the lenient reading of CPython's
  [binascii.a2b_base64]: characters outside the alphabet are skipped, and
  only missing data or padding is an error. *)

Definition b64_alphabet : string :=
  "ABCDEFGHIJKLMNOPQRSTUVWXYZabcdefghijklmnopqrstuvwxyz0123456789+/".

Fixpoint index_of (c : ascii) (s : string) (i : N) : option N :=
  match s with
  | EmptyString => None
  | String c' rest => if Ascii.eqb c c' then Some i else index_of c rest (N.succ i)
  end.

Definition sextet_of_ascii (c : ascii) : option N := index_of c b64_alphabet 0%N.

Definition ascii_of_sextet (n : N) : ascii :=
  match String.get (N.to_nat n) b64_alphabet with
  | Some c => c
  | None => "="%char
  end.

Definition byte_of_N (n : N) : Byte.byte :=
  match Byte.of_N n with Some b => b | None => Byte.x00 end.

Fixpoint demo_b64encode (raw : bytes) : string :=
  match raw with
  | [] => ""
  | [a] =>
      let a := Byte.to_N a in
      String (ascii_of_sextet (a / 4))
        (String (ascii_of_sextet ((a mod 4) * 16)) "==")
  | [a; b] =>
      let a := Byte.to_N a in
      let b := Byte.to_N b in
      String (ascii_of_sextet (a / 4))
        (String (ascii_of_sextet ((a mod 4) * 16 + b / 16))
           (String (ascii_of_sextet ((b mod 16) * 4)) "="))
  | a :: b :: c :: rest =>
      let a := Byte.to_N a in
      let b := Byte.to_N b in
      let c := Byte.to_N c in
      String (ascii_of_sextet (a / 4))
        (String (ascii_of_sextet ((a mod 4) * 16 + b / 16))
           (String (ascii_of_sextet ((b mod 16) * 4 + c / 64))
              (String (ascii_of_sextet (c mod 64)) (demo_b64encode rest))))
  end%N.

(** [quad_pos] counts the sextets of the current group, [leftchar] holds the
  bits not yet written, [pads] the padding characters just seen. *)
Fixpoint a2b_base64 (s : string) (quad_pos : nat) (leftchar : N) (pads : nat)
    (out : bytes) : string + bytes :=
  match s with
  | EmptyString =>
      match quad_pos with
      | O => inr (rev out)
      | S O => inl "Invalid base64-encoded string: number of data characters cannot be 1 more than a multiple of 4"
      | _ => inl "Incorrect padding"
      end
  | String c rest =>
      if Ascii.eqb c "="%char then
        if Nat.leb 2 quad_pos && Nat.leb 4 (quad_pos + S pads) then inr (rev out)
        else a2b_base64 rest quad_pos leftchar (S pads) out
      else
        match sextet_of_ascii c with
        | None => a2b_base64 rest quad_pos leftchar pads out
        | Some v =>
            match quad_pos with
            | 0%nat => a2b_base64 rest 1 v 0 out
            | 1%nat => a2b_base64 rest 2 (v mod 16)%N 0 (byte_of_N (leftchar * 4 + v / 16)%N :: out)
            | 2%nat => a2b_base64 rest 3 (v mod 4)%N 0 (byte_of_N (leftchar * 16 + v / 4)%N :: out)
            | _ => a2b_base64 rest 0 0%N 0 (byte_of_N (leftchar * 64 + v)%N :: out)
            end
        end
  end.

Definition demo_b64decode (s : string) : string + bytes := a2b_base64 s 0 0%N 0 [].

Definition bytes_of_string (s : string) : bytes := map byte_of_ascii (list_ascii_of_string s).

(** [Image.open] of the instance: the PNG signature decides; every image
  is a 2x2 grayscale one. *)
Definition png_signature : bytes := [Byte.x89; Byte.x50; Byte.x4e; Byte.x47].

Fixpoint starts_with (prefix raw : bytes) : bool :=
  match prefix, raw with
  | [], _ => true
  | p :: prefix', r :: raw' => Byte.eqb p r && starts_with prefix' raw'
  | _ :: _, [] => false
  end.

Definition demo_Image_open (raw : bytes) : string + Image unit :=
  if starts_with png_signature raw then inr (mkImage "L" (2%nat, 2%nat) tt)
  else inl "cannot identify image file".

(** A model of the instance is the score it gives to every input. *)
Definition demo_lib : Lib := {|
  Raster := unit;
  Image_open := demo_Image_open;
  raster_convert := fun _ _ r => r;
  raster_resize := fun _ _ r => r;
  raster_band := fun _ _ _ _ => Byte.x80;
  Model := F32.t;
  load_model := fun path =>
    if String.eqb path "/srv/api/models/vgg16_best.h5"
    then inr (S754_finite false 12582912 (-24))
    else inl "file signature not found";
  model_predict := fun m _ => inr m;
  module_dir := "/srv/api";
  path_exists := fun path =>
    String.eqb path "/srv/api/models/vgg16_finetuned.h5"
    || String.eqb path "/srv/api/models/vgg16_best.h5";
  b64decode := demo_b64decode;
  b64encode := demo_b64encode;
  np_promotion := NEP50
|}.

(** The same libraries with another NumPy. *)
Definition with_promotion (L : Lib) (pr : promotion) : Lib := {|
  Raster := @Raster L;
  Image_open := @Image_open L;
  raster_convert := @raster_convert L;
  raster_resize := @raster_resize L;
  raster_band := @raster_band L;
  Model := @Model L;
  load_model := @load_model L;
  model_predict := @model_predict L;
  module_dir := @module_dir L;
  path_exists := @path_exists L;
  b64decode := @b64decode L;
  b64encode := @b64encode L;
  np_promotion := pr
|}.

(** A payload one byte over the limit of [/predict]. *)
Definition oversized : bytes := repeat Byte.x00 (Z.to_nat (MAX_BYTES + 1)).

(** The states and requests the theorems are run on. *)
Definition demo_model : @Model demo_lib := S754_finite false 12582912 (-24).

Definition demo_state : state (L := demo_lib) :=
  mkState (Some demo_model) (Some "VGG16 Best")
    "2024-05-01T10:00:00" [].

Definition demo_degraded : state (L := demo_lib) :=
  mkState None None "2024-05-01T10:00:00" [].

Definition demo_png : bytes := (png_signature ++ [Byte.x0d; Byte.x0a; Byte.x1a; Byte.x0a])%list.

Definition text_upload : UploadFile :=
  mkUpload (Some "notes.txt") (Some "text/plain") (bytes_of_string "not an image").

Definition png_upload : UploadFile := mkUpload (Some "xray.png") (Some "image/png") demo_png.

Definition untyped_upload : UploadFile := mkUpload (Some "xray.png") None demo_png.

Definition oversized_png : bytes := (png_signature ++ oversized)%list.

Definition oversized_upload : UploadFile :=
  mkUpload (Some "big.png") (Some "image/png") oversized_png.

Definition octet_upload : UploadFile :=
  mkUpload (Some "xray.png") (Some "application/octet-stream") demo_png.

Definition oversized_text_upload : UploadFile :=
  mkUpload (Some "big.txt") (Some "text/plain") oversized_png.

(** ** The root endpoint *)

Section Root.
Context {L : Lib}.

(** The body of [GET /]. *)
Record root_info : Type := mkRoot {
  ro_message : string;
  ro_version : string;
  ro_status : string;
  ro_model : option string;
  ro_endpoints : list (string * string);
  ro_usage : list (string * string)
}.

Definition root : M root_info :=
  model <- get_model ;;
  name <- get_model_name ;;
  ret (mkRoot "API de Detección de Neumonía"
         "1.0.0"
         "online"
         (if is_some model then name else Some "No disponible")
         [ ("/", "Información general");
           ("/health", "Estado del sistema");
           ("/predict", "POST - Predicción con archivo");
           ("/predict_base64", "POST - Predicción con base64");
           ("/docs", "Documentación Swagger");
           ("/redoc", "Documentación ReDoc") ]
         [ ("example_curl",
            "curl -X POST " ++ dquote ++ "http://api-url/predict" ++ dquote
            ++ " -F " ++ dquote ++ "file=@xray.jpg" ++ dquote);
           ("example_python",
            "requests.post(" ++ dquote ++ "http://api-url/predict" ++ dquote
            ++ ", files={" ++ dquote ++ "file" ++ dquote ++ ": open(" ++ dquote
            ++ "xray.jpg" ++ dquote ++ ", " ++ dquote ++ "rb" ++ dquote ++ ")})") ]).
End Root.

(** ** Reading arrays and traces *)

(** [a[i0][i1]...]: [None] when an index is out of bounds or the array has
  fewer axes. *)
Fixpoint nd_index {A : Type} (a : ndarray A) (idx : list nat) : option (ndarray A) :=
  match idx with
  | [] => Some a
  | i :: rest =>
      match a with
      | Scalar _ => None
      | Arr items =>
          match nth_error items i with
          | Some a' => nd_index a' rest
          | None => None
          end
      end
  end.




(** The messages logged with [logger.error] in the handlers, most
  recent first. *)
Definition error_logs (tr : list event) : list string :=
  flat_map (fun ev => match ev with EvLog ERROR (MsgError msg) => [msg] | _ => [] end) tr.

(** Every logged line, most recent first. *)
Definition log_lines (tr : list event) : list (level * log_msg) :=
  flat_map (fun ev => match ev with EvLog lvl msg => [(lvl, msg)] | _ => [] end) tr.

(** [0 <= x <= 1] on Python floats. *)
Definition in_unit_interval (x : F64.t) : bool :=
  F64.leb (S754_zero false) x && F64.leb x F64.one.

(** ** The specification's view of what a request does *)

Section ClassifyEvents.
Context {L : Lib}.

(** The events of a request whose bytes reach [Image.open], most recent
  first; [opened] is the line logged once the image is open. *)
Definition classify_events (opened : nat * nat -> log_msg) (model : option Model)
    (name : option string) (now : string) (raw : bytes) : list event :=
  match Image_open raw with
  | inl msg => [EvLog ERROR (MsgError msg); EvImageOpen]
  | inr image =>
      match model with
      | None => [EvLog INFO (opened (size image)); EvImageOpen]
      | Some m =>
          match model_predict m (preprocess_image image) with
          | inl msg =>
              [EvLog ERROR (MsgError msg); EvModelPredict;
               EvLog INFO (opened (size image)); EvImageOpen]
          | inr p =>
              let r := result_of p name now in
              ((if json_compliant r then []
                else [EvLog ERROR
                        (MsgError "Out of range float values are not JSON compliant")])
               ++ [EvLog INFO (MsgPrediction (r_prediction r) (r_confidence r));
                   EvModelPredict; EvLog INFO (opened (size image)); EvImageOpen])%list
          end
      end
  end.

(** The three ways a prediction request ends: rejected by a check of its
  endpoint, failed on the request object itself, or classified. *)
Inductive handled (st : state) : outcome prediction_result * state -> Prop :=
| handled_rejected (code : Z) (detail : string) :
    code = 400 \/ code = 413 ->
    handled st (Raise (HTTPException code detail), st)
| handled_failed (msg : string) :
    handled st
      (processing_failure msg,
       mkState (g_model st) (g_model_name st) (clock st)
         (EvLog ERROR (MsgError msg) :: trace st))
| handled_classified (opened : nat * nat -> log_msg) (raw : bytes) :
    handled st
      (classify (g_model st) (g_model_name st) (clock st) raw,
       mkState (g_model st) (g_model_name st) (clock st)
         (classify_events opened (g_model st) (g_model_name st) (clock st) raw
          ++ trace st)%list).

(** Start-up: the candidates that exist and fail to load, with the error. *)
Definition load_failures (candidates : list (string * string)) : list (string * string) :=
  flat_map (fun c =>
              if existing c then
                match load_model (candidate_path c) with
                | inl e => [(snd c, e)]
                | inr _ => []
                end
              else []) candidates.
End ClassifyEvents.

(** The load errors logged, most recent first. *)
Definition load_error_logs (tr : list event) : list (string * string) :=
  flat_map (fun ev => match ev with
                      | EvLog ERROR (MsgModelLoadError name e) => [(name, e)]
                      | _ => []
                      end) tr.

Section Disciplines.
Context {L : Lib}.


(** How failures are reported: only [HTTPException] leaves a handler; an
  answer 500 carries the message of the exception that was caught, and
  this message is the last thing logged, at level ERROR; no other answer
  logs an error. *)
Definition error_discipline (st : state) (r : outcome prediction_result * state) : Prop :=
  exists new : list event,
    trace (snd r) = (new ++ trace st)%list /\
    match fst r with
    | Return _ => error_logs new = []
    | Raise (HTTPException code detail) =>
        if (code =? 500)%Z then
          exists msg, detail = "Error procesando imagen: " ++ msg /\
                      error_logs new = [msg] /\
                      hd_error new = Some (EvLog ERROR (MsgError msg))
        else error_logs new = []
    | Raise (PyError _ _) => False
    end.
End Disciplines.

(** ** More states of the instance *)

(** A model that answers NaN, and one that answers 1.5. *)
Definition demo_nan_state : state (L := demo_lib) :=
  mkState (Some (S754_nan : @Model demo_lib)) (Some "VGG16 Best")
    "2024-05-01T10:00:00" [].

Definition demo_overshoot_state : state (L := demo_lib) :=
  mkState (Some (S754_finite false 12582912 (-23) : @Model demo_lib)) (Some "VGG16 Best")
    "2024-05-01T10:00:00" [].

(** The scaled value of the byte [n], in units of [2 ^ -149]. *)
Definition scaled_Zval (n : nat) : Z :=
  Zval F32.prec F32.emax (F32.div (float32_of_uint8 (byte_of_N (N.of_nat n))) F32.c255).

(** * The test client [API_Rest/test_api.py]

  The script talks to the API over HTTP.  Here a request runs the handler
  of the server on the state of the server; what the script prints is
  kept line by line, every f-string as the list of its parts, and every
  request it sends is recorded. *)

(** ** Python values, responses and the console *)

(** The values found in the JSON bodies of the API. *)
#[warnings="-register-all"]
Inductive pyvalue : Type :=
| PNone
| PBool (b : bool)
| PInt (n : Z)
| PFloat (x : F64.t)
| PStr (s : string)
| PDict (items : list (string * pyvalue)).

Definition pydict := list (string * pyvalue).

(** [d.get(key, default)] *)
Fixpoint py_get (d : pydict) (key : string) (default : pyvalue) : pyvalue :=
  match d with
  | [] => default
  | (k, v) :: rest => if String.eqb k key then v else py_get rest key default
  end.

(** [bool(v)] *)
Definition truthy (v : pyvalue) : bool :=
  match v with
  | PNone => false
  | PBool b => b
  | PInt n => negb (n =? 0)%Z
  | PFloat x => match x with S754_zero _ => false | _ => true end
  | PStr s => negb (String.eqb s "")
  | PDict items => match items with [] => false | _ => true end
  end.

(** A response of [requests]: [response.status_code], and the body, which
  is JSON for every answer of a handler. *)
Inductive body : Type :=
| JsonBody (d : pydict)
| TextBody (s : string).

Record response : Type := mkResponse {
  status_code : Z;
  content : body
}.

(** The parts of an f-string: literal text or a [str], and the values that
  are formatted. *)
Inductive part : Type :=
| Text (s : string)
| Value (v : pyvalue)
| Percent (x : F64.t)
| ResponseText (b : body).

(** The exceptions of the script. *)
Inductive client_exn : Type :=
| ConnectionError (msg : string)
| OtherError (cls msg : string)
| SystemExit (code : Z).

Inductive client_outcome (A : Type) : Type :=
| Done (a : A)
| Thrown (e : client_exn).
Arguments Done {A} a.
Arguments Thrown {A} e.

(** What [requests] meets at [API_URL]: an API that answers, or an API
  that cannot be reached, with the exception that is raised then and
  whether it is a [requests.exceptions.ConnectionError]. *)
Inductive network : Type :=
| Up
| Down (connection_error : bool) (msg : string).

(** The machine the script runs on: the network and the files. *)
Class ClientEnv : Type := {
  net : network;
  (** [Path(p).exists()] *)
  file_exists : string -> bool;
  (** [open(p, 'rb').read()], or the message of the [OSError] *)
  file_read : string -> string + bytes;
  (** [Path(p).name] *)
  path_name : string -> string;
  (** [[str(q) for q in Path(d).glob(pattern)]] *)
  path_glob : string -> string -> list string
}.

(** The JSON bodies of the API. *)
Definition py_opt_str (o : option string) : pyvalue :=
  match o with Some s => PStr s | None => PNone end.

Definition health_body (h : health) : pydict :=
  [ ("status", PStr (h_status h));
    ("model_loaded", PBool (h_model_loaded h));
    ("model_name", py_opt_str (h_model_name h));
    ("timestamp", PStr (h_timestamp h));
    ("message", PStr (h_message h)) ].

Definition prediction_body (r : prediction_result) : pydict :=
  [ ("prediction", PStr (r_prediction r));
    ("confidence", PFloat (r_confidence r));
    ("probabilities",
     PDict [ ("NORMAL", PFloat (r_prob_normal r));
             ("PNEUMONIA", PFloat (r_prob_pneumonia r)) ]);
    ("model_used", py_opt_str (r_model_used r));
    ("timestamp", PStr (r_timestamp r)) ].

(** [s * n] *)
Fixpoint str_mul (s : string) (n : nat) : string :=
  match n with
  | O => ""
  | S n' => s ++ str_mul s n'
  end.

Definition newline : string := String (Ascii.ascii_of_nat 10) EmptyString.

Definition API_URL : string := "http://localhost:8000".

Module Colors.
Definition ESC : string := String (Ascii.ascii_of_nat 27) EmptyString.
Definition HEADER : string := ESC ++ "[95m".
Definition OKBLUE : string := ESC ++ "[94m".
Definition OKCYAN : string := ESC ++ "[96m".
Definition OKGREEN : string := ESC ++ "[92m".
Definition WARNING : string := ESC ++ "[93m".
Definition FAIL : string := ESC ++ "[91m".
Definition ENDC : string := ESC ++ "[0m".
Definition BOLD : string := ESC ++ "[1m".
End Colors.

(** [colors.get(status, default)] *)
Fixpoint str_get (d : list (string * string)) (key default : string) : string :=
  match d with
  | [] => default
  | (k, v) :: rest => if String.eqb k key then v else str_get rest key default
  end.

(** The results of [main]: the name of a test and [True], [False] or
  [None]. *)
Definition results := list (string * option bool).

(** [sum(1 for _, result in results if result is v)] *)
Definition count_results (v : option bool) (rs : results) : Z :=
  Z.of_nat (List.length
              (filter (fun r => match snd r, v with
                                | Some a, Some b => Bool.eqb a b
                                | None, None => true
                                | _, _ => false
                                end) rs)).

Section Client.
Context {L : Lib} {E : ClientEnv}.

(** The server process, the lines printed so far and the requests sent so
  far (method and URL), both most recent first. *)
Record world : Type := mkWorld {
  server : state;
  console : list (list part);
  sent : list (string * string)
}.

Definition C (A : Type) : Type := world -> client_outcome A * world.

Definition creturn {A : Type} (a : A) : C A := fun w => (Done a, w).

Definition throw {A : Type} (e : client_exn) : C A := fun w => (Thrown e, w).

Definition cbind {A B : Type} (m : C A) (k : A -> C B) : C B :=
  fun w =>
    match m w with
    | (Done a, w') => k a w'
    | (Thrown e, w') => (Thrown e, w')
    end.

(** [try: m except ...: handler] *)
Definition ctry {A : Type} (m : C A) (handler : client_exn -> C A) : C A :=
  fun w =>
    match m w with
    | (Done a, w') => (Done a, w')
    | (Thrown e, w') => handler e w'
    end.

(** [print(line)] *)
Definition print (line : list part) : C unit :=
  fun w => (Done tt, mkWorld (server w) (line :: console w) (sent w)).

(** What FastAPI answers for the outcome of a handler. *)
Definition to_response {A : Type} (to_body : A -> pydict) (o : outcome A) : response :=
  match o with
  | Return a => mkResponse 200 (JsonBody (to_body a))
  | Raise (HTTPException code detail) =>
      mkResponse code (JsonBody [("detail", PStr detail)])
  | Raise (PyError _ _) => mkResponse 500 (TextBody "Internal Server Error")
  end.

(** A request to the API: it is sent, and if the API answers the handler
  runs on the state of the server. *)
Definition request {A : Type} (method url : string) (handler : M A)
    (to_body : A -> pydict) : C response :=
  fun w =>
    let requests := (method, url) :: sent w in
    match net with
    | Down true msg =>
        (Thrown (ConnectionError msg), mkWorld (server w) (console w) requests)
    | Down false msg =>
        (Thrown (OtherError "RequestException" msg),
         mkWorld (server w) (console w) requests)
    | Up =>
        let '(o, st') := handler (server w) in
        (Done (to_response to_body o), mkWorld st' (console w) requests)
    end.

(** [response.json()] *)
Definition response_json (r : response) : C pydict :=
  match content r with
  | JsonBody d => creturn d
  | TextBody _ => throw (OtherError "JSONDecodeError" "Expecting value")
  end.

(** [f"{v:.2%}"]: only numbers have this format. *)
Definition percent (v : pyvalue) : C part :=
  match v with
  | PFloat x => creturn (Percent x)
  | PInt n => creturn (Value (PInt n))
  | PBool b => creturn (Value (PBool b))
  | PNone =>
      throw (OtherError "TypeError" "unsupported format string passed to NoneType.__format__")
  | PStr _ => throw (OtherError "ValueError" "Unknown format code '%' for object of type 'str'")
  | PDict _ =>
      throw (OtherError "TypeError" "unsupported format string passed to dict.__format__")
  end.

(** [v.get(key)] on a value that should be a dictionary. *)
Definition value_get (v : pyvalue) (key : string) : C pyvalue :=
  match v with
  | PDict d => creturn (py_get d key PNone)
  | _ => throw (OtherError "AttributeError" "object has no attribute 'get'")
  end.

(** [0 <= v <= 1] *)
Definition in_range_0_1 (v : pyvalue) : C bool :=
  match v with
  | PFloat x => creturn (in_unit_interval x)
  | PInt n => creturn ((0 <=? n)%Z && (n <=? 1)%Z)
  | PBool _ => creturn true
  | _ => throw (OtherError "TypeError" "'<=' not supported between instances")
  end.

(** [open(path, 'rb')] and [f.read()] *)
Definition open_rb (path : string) : C bytes :=
  match file_read path with
  | inr raw => creturn raw
  | inl msg => throw (OtherError "OSError" msg)
  end.
End Client.

Declare Scope client_scope.
Delimit Scope client_scope with client.
Notation "x <- m ;; k" := (cbind m (fun x => k))
  (at level 61, m at next level, right associativity) : client_scope.
Notation "m ;; k" := (cbind m (fun _ => k))
  (at level 61, right associativity) : client_scope.

Section ClientFunctions.
Context {L : Lib} {E : ClientEnv}.
Local Open Scope client_scope.

Definition print_test (message : list part) (status : string) : C unit :=
  let colors :=
    [ ("info", Colors.OKBLUE);
      ("success", Colors.OKGREEN);
      ("warning", Colors.WARNING);
      ("error", Colors.FAIL);
      ("header", Colors.HEADER) ] in
  let color := str_get colors status Colors.ENDC in
  print ([Text color] ++ message ++ [Text Colors.ENDC])%list.

(** [except Exception as e]: every exception of the script but
  [SystemExit], with [str(e)]. *)
Definition except_Exception {A : Type} (handler : string -> C A) (e : client_exn) : C A :=
  match e with
  | ConnectionError msg => handler msg
  | OtherError _ msg => handler msg
  | SystemExit _ => throw e
  end.

(** The requests of the script. *)
Definition get_health : C response :=
  request "GET" (API_URL ++ "/health") health_check health_body.

Definition post_predict (name : string) (raw : bytes) (ctype : string) : C response :=
  request "POST" (API_URL ++ "/predict")
    (predict (mkUpload (Some name) (Some ctype) raw)) prediction_body.

Definition post_predict_base64 (data : dict) : C response :=
  request "POST" (API_URL ++ "/predict_base64") (predict_base64 data) prediction_body.

Definition test_health : C bool :=
  print_test [Text (newline ++ str_mul "=" 70)] "header" ;;
  print_test [Text "TEST 1: HEALTH CHECK"] "header" ;;
  print_test [Text (str_mul "=" 70)] "header" ;;
  ctry
    (response <- get_health ;;
     if (status_code response =? 200)%Z then
       data <- response_json response ;;
       print_test [Text "✅ Status: "; Value (PInt (status_code response))] "success" ;;
       print_test [Text "✅ API Status: "; Value (py_get data "status" PNone)] "success" ;;
       print_test [Text "✅ Modelo cargado: "; Value (py_get data "model_loaded" PNone)]
         "success" ;;
       print_test [Text "✅ Modelo: "; Value (py_get data "model_name" PNone)] "success" ;;
       if negb (truthy (py_get data "model_loaded" PNone)) then
         print_test [Text "⚠️ ADVERTENCIA: Modelo no está cargado"] "warning" ;;
         creturn false
       else creturn true
     else
       print_test [Text "❌ Error: Status "; Value (PInt (status_code response))] "error" ;;
       creturn false)
    (fun e =>
       match e with
       | ConnectionError _ =>
           print_test [Text "❌ Error: No se pudo conectar a la API"] "error" ;;
           print_test [Text "   Verifica que esté corriendo en "; Text API_URL] "error" ;;
           creturn false
       | _ =>
           except_Exception
             (fun msg =>
                print_test [Text "❌ Error inesperado: "; Text msg] "error" ;;
                creturn false) e
       end).

Definition test_predict_file (image_path : string) : C bool :=
  print_test [Text (newline ++ str_mul "=" 70)] "header" ;;
  print_test [Text "TEST 2: PREDICCIÓN CON ARCHIVO - "; Text image_path] "header" ;;
  print_test [Text (str_mul "=" 70)] "header" ;;
  if negb (file_exists image_path) then
    print_test [Text "❌ Archivo no encontrado: "; Text image_path] "error" ;;
    creturn false
  else
    ctry
      (f <- open_rb image_path ;;
       response <- post_predict (path_name image_path) f "image/jpeg" ;;
       if (status_code response =? 200)%Z then
         data <- response_json response ;;
         print_test [Text "✅ Status: "; Value (PInt (status_code response))] "success" ;;
         print_test [Text "✅ Predicción: "; Value (py_get data "prediction" PNone)]
           "success" ;;
         confidence <- percent (py_get data "confidence" PNone) ;;
         print_test [Text "✅ Confianza: "; confidence] "success" ;;
         normal <- value_get (py_get data "probabilities" (PDict [])) "NORMAL" ;;
         normal <- percent normal ;;
         print_test [Text "✅ Prob NORMAL: "; normal] "success" ;;
         pneumonia <- value_get (py_get data "probabilities" (PDict [])) "PNEUMONIA" ;;
         pneumonia <- percent pneumonia ;;
         print_test [Text "✅ Prob PNEUMONIA: "; pneumonia] "success" ;;
         print_test [Text "✅ Modelo usado: "; Value (py_get data "model_used" PNone)]
           "success" ;;
         print_test [Text "✅ Timestamp: "; Value (py_get data "timestamp" PNone)]
           "success" ;;
         let confidence := py_get data "confidence" (PInt 0) in
         in_range <- in_range_0_1 confidence ;;
         (if negb in_range then
            print_test [Text "⚠️ Confianza fuera de rango [0, 1]"] "warning"
          else creturn tt) ;;
         creturn true
       else
         print_test [Text "❌ Error: Status "; Value (PInt (status_code response))] "error" ;;
         print_test [Text "   Detalle: "; ResponseText (content response)] "error" ;;
         creturn false)
      (except_Exception
         (fun msg => print_test [Text "❌ Error: "; Text msg] "error" ;; creturn false)).

Definition test_predict_base64 (image_path : string) : C bool :=
  print_test [Text (newline ++ str_mul "=" 70)] "header" ;;
  print_test [Text "TEST 3: PREDICCIÓN CON BASE64 - "; Text image_path] "header" ;;
  print_test [Text (str_mul "=" 70)] "header" ;;
  if negb (file_exists image_path) then
    print_test [Text "❌ Archivo no encontrado: "; Text image_path] "error" ;;
    creturn false
  else
    ctry
      (f <- open_rb image_path ;;
       let image_b64 := b64encode f in
       response <- post_predict_base64 [("image", JString image_b64)] ;;
       if (status_code response =? 200)%Z then
         data <- response_json response ;;
         print_test [Text "✅ Status: "; Value (PInt (status_code response))] "success" ;;
         print_test [Text "✅ Predicción: "; Value (py_get data "prediction" PNone)]
           "success" ;;
         confidence <- percent (py_get data "confidence" PNone) ;;
         print_test [Text "✅ Confianza: "; confidence] "success" ;;
         creturn true
       else
         print_test [Text "❌ Error: Status "; Value (PInt (status_code response))] "error" ;;
         print_test [Text "   Detalle: "; ResponseText (content response)] "error" ;;
         creturn false)
      (except_Exception
         (fun msg => print_test [Text "❌ Error: "; Text msg] "error" ;; creturn false)).

(** One of the three checks of [test_invalid_inputs]: the request must be
  answered 400; the result is the new value of [tests_passed]. *)
Definition expect_400 (send : C response) (tests_passed : Z) : C Z :=
  ctry
    (response <- send ;;
     if (status_code response =? 400)%Z then
       print_test [Text "✅ Error 400 retornado correctamente"] "success" ;;
       creturn (tests_passed + 1)%Z
     else
       print_test [Text "❌ Se esperaba 400, recibido ";
                   Value (PInt (status_code response))] "error" ;;
       creturn tests_passed)
    (except_Exception
       (fun msg => print_test [Text "❌ Error: "; Text msg] "error" ;;
                   creturn tests_passed)).

Definition test_invalid_inputs : C bool :=
  print_test [Text (newline ++ str_mul "=" 70)] "header" ;;
  print_test [Text "TEST 4: MANEJO DE ERRORES"] "header" ;;
  print_test [Text (str_mul "=" 70)] "header" ;;
  let tests_passed := 0%Z in
  let total_tests := 3%Z in
  print_test [Text (newline ++ "4.1 - Enviar archivo de texto (debe fallar):")] "info" ;;
  tests_passed <-
    expect_400 (post_predict "test.txt" (bytes_of_string "not an image") "text/plain")
      tests_passed ;;
  print_test [Text (newline ++ "4.2 - Enviar base64 inválido (debe fallar):")] "info" ;;
  tests_passed <-
    expect_400 (post_predict_base64 [("image", JString "invalid_base64!!!")])
      tests_passed ;;
  print_test [Text (newline ++ "4.3 - JSON sin campo 'image' (debe fallar):")] "info" ;;
  tests_passed <-
    expect_400 (post_predict_base64 [("wrong_field", JString "data")]) tests_passed ;;
  print_test [Text (newline ++ "✅ Tests de error pasados: "); Value (PInt tests_passed);
              Text "/"; Value (PInt total_tests)] "success" ;;
  creturn (tests_passed =? total_tests)%Z.

(** The lines of the summary, one per result. *)
Fixpoint print_results (rs : results) : C unit :=
  match rs with
  | [] => creturn tt
  | (test_name, result) :: rest =>
      match result with
      | Some true => print_test [Text "✅ "; Text test_name; Text ": PASSED"] "success"
      | Some false => print_test [Text "❌ "; Text test_name; Text ": FAILED"] "error"
      | None => print_test [Text "⊘  "; Text test_name; Text ": SKIPPED"] "warning"
      end ;;
      print_results rest
  end.

Definition main : C Z :=
  print_test [Text (newline ++ "╔" ++ str_mul "=" 68 ++ "╗")] "header" ;;
  print_test [Text ("║" ++ str_mul " " 20 ++ "TEST SUITE - API NEUMONÍA" ++ str_mul " " 23
                    ++ "║")] "header" ;;
  print_test [Text ("╚" ++ str_mul "=" 68 ++ "╝")] "header" ;;
  let results : results := [] in
  health <- test_health ;;
  let results := (results ++ [("Health Check", Some health)])%list in
  (if negb health then
     print_test [Text (newline ++ "❌ API no está disponible. Abortando tests.")] "error" ;;
     throw (SystemExit 1)
   else creturn tt) ;;
  let test_images_dir := "test_images" in
  results <-
    (if file_exists test_images_dir then
       let test_images :=
         (path_glob test_images_dir "*.jpeg" ++ path_glob test_images_dir "*.jpg"
          ++ path_glob test_images_dir "*.png")%list in
       match test_images with
       | test_image :: _ =>
           file <- test_predict_file test_image ;;
           let results := (results ++ [("Predict File", Some file)])%list in
           b64 <- test_predict_base64 test_image ;;
           creturn (results ++ [("Predict Base64", Some b64)])%list
       | [] =>
           print_test [Text (newline ++ "⚠️ No se encontraron imágenes de prueba")]
             "warning" ;;
           creturn (results ++ [("Predict File", None); ("Predict Base64", None)])%list
       end
     else
       print_test [Text (newline ++ "⚠️ Carpeta 'test_images/' no existe")] "warning" ;;
       print_test [Text "   Crea la carpeta y coloca imágenes de prueba"] "warning" ;;
       creturn (results ++ [("Predict File", None); ("Predict Base64", None)])%list) ;;
  errors <- test_invalid_inputs ;;
  let results := (results ++ [("Error Handling", Some errors)])%list in
  print_test [Text (newline ++ str_mul "=" 70)] "header" ;;
  print_test [Text "RESUMEN DE TESTS"] "header" ;;
  print_test [Text (str_mul "=" 70)] "header" ;;
  let passed := count_results (Some true) results in
  let failed := count_results (Some false) results in
  let skipped := count_results None results in
  let total := Z.of_nat (List.length results) in
  print_results results ;;
  print_test [Text (newline ++ str_mul "-" 70)] "info" ;;
  print_test [Text "Total: "; Value (PInt total); Text " | Passed: "; Value (PInt passed);
              Text " | Failed: "; Value (PInt failed); Text " | Skipped: ";
              Value (PInt skipped)] "info" ;;
  if (failed =? 0)%Z && (passed >? 0)%Z then
    print_test [Text (newline ++ "🎉 TODOS LOS TESTS PASARON")] "success" ;;
    creturn 0%Z
  else
    print_test [Text (newline ++ "⚠️ ALGUNOS TESTS FALLARON")] "warning" ;;
    creturn 1%Z.

(** [if __name__ == "__main__": sys.exit(main())]: the exit status of the
  process; an exception that nothing catches ends it with status 1. *)
Definition script (w : world) : Z * world :=
  match main w with
  | (Done code, w') => (code, w')
  | (Thrown (SystemExit code), w') => (code, w')
  | (Thrown _, w') => (1%Z, w')
  end.
End ClientFunctions.

(** ** The specification's view of the client *)

Section ClientSpec.
Context {L : Lib} {E : ClientEnv}.

(** The upload [test_predict_file] sends for a path, when the file can be
  read. *)
Definition file_upload (image_path : string) : option UploadFile :=
  if file_exists image_path then
    match file_read image_path with
    | inr raw => Some (mkUpload (Some (path_name image_path)) (Some "image/jpeg") raw)
    | inl _ => None
    end
  else None.

(** The body [test_predict_base64] sends for a path. *)
Definition file_body (image_path : string) : option dict :=
  if file_exists image_path then
    match file_read image_path with
    | inr raw => Some [("image", JString (b64encode raw))]
    | inl _ => None
    end
  else None.

Definition is_return {A : Type} (o : outcome A) : bool :=
  match o with Return _ => true | Raise _ => false end.

Definition is_inl {A B : Type} (s : A + B) : bool :=
  match s with inl _ => true | inr _ => false end.
End ClientSpec.

(** ** A machine for the client

  The API answers; the folder [test_images] holds one file, the PNG of the
  instance of the libraries. *)

(** [Path(p).name]: what follows the last slash. *)
Fixpoint basename (p acc : string) : string :=
  match p with
  | EmptyString => acc
  | String c rest =>
      if Ascii.eqb c "/"%char then basename rest ""
      else basename rest (acc ++ String c EmptyString)
  end.

Definition demo_client : ClientEnv := {|
  net := Up;
  file_exists := fun p =>
    String.eqb p "test_images" || String.eqb p "test_images/xray.png";
  file_read := fun p =>
    if String.eqb p "test_images/xray.png" then inr demo_png
    else inl "[Errno 2] No such file or directory";
  path_name := fun p => basename p "";
  path_glob := fun d pattern =>
    if String.eqb d "test_images" && String.eqb pattern "*.png"
    then ["test_images/xray.png"] else []
|}.

(** The same machine with the API switched off. *)
Definition demo_client_offline : ClientEnv := {|
  net := Down true "Connection refused";
  file_exists := @file_exists demo_client;
  file_read := @file_read demo_client;
  path_name := @path_name demo_client;
  path_glob := @path_glob demo_client
|}.

Definition demo_world : world (L := demo_lib) := mkWorld demo_state [] [].

Definition demo_world_degraded : world (L := demo_lib) := mkWorld demo_degraded [] [].

(** * Properties *)

(** ** Rounding in [SpecFloat] *)

Local Open Scope Z_scope.

Lemma digits2_pos_bounds (m : positive) :
  2 ^ (Zpos (digits2_pos m) - 1) <= Zpos m < 2 ^ Zpos (digits2_pos m).
Proof.
  induction m as [m IH | m IH |]; cbn [digits2_pos].
  - rewrite Pos2Z.inj_succ, Z.pow_succ_r by lia.
    replace (Z.succ (Zpos (digits2_pos m)) - 1) with (Z.succ (Zpos (digits2_pos m) - 1)) by lia.
    rewrite Z.pow_succ_r by lia. lia.
  - rewrite Pos2Z.inj_succ, Z.pow_succ_r by lia.
    replace (Z.succ (Zpos (digits2_pos m)) - 1) with (Z.succ (Zpos (digits2_pos m) - 1)) by lia.
    rewrite Z.pow_succ_r by lia. lia.
  - cbn. lia.
Qed.

Lemma digits2_pos_unique (m : positive) (k : Z) :
  2 ^ (k - 1) <= Zpos m < 2 ^ k -> Zpos (digits2_pos m) = k.
Proof.
  intros [Hlo Hhi]. pose proof (digits2_pos_bounds m) as [Dlo Dhi].
  set (d := Zpos (digits2_pos m)) in *.
  assert (0 < k).
  { destruct (Z_lt_le_dec 0 k) as [|Hk]; [assumption|].
    destruct (Z.eq_dec k 0) as [->|]; [cbn in Hhi; lia|].
    rewrite (Z.pow_neg_r 2 k) in Hhi by lia. lia. }
  destruct (Z.lt_trichotomy d k) as [L | [E | G]]; [ | assumption | ].
  - assert (2 ^ d <= 2 ^ (k - 1)) by (apply Z.pow_le_mono_r; lia). lia.
  - assert (2 ^ k <= 2 ^ (d - 1)) by (apply Z.pow_le_mono_r; lia). lia.
Qed.

Lemma iter_xO_spec (d m : positive) :
  Zpos (Pos.iter xO m d) = Zpos m * 2 ^ Zpos d.
Proof.
  revert m. induction d as [|d IH] using Pos.peano_ind; intros m.
  - cbn [Pos.iter]. rewrite Pos2Z.inj_xO. change (2 ^ 1) with 2. ring.
  - rewrite Pos.iter_succ, Pos2Z.inj_succ, Z.pow_succ_r by lia.
    change (Zpos (Pos.iter xO m d)~0) with (2 * Zpos (Pos.iter xO m d)).
    rewrite IH. ring.
Qed.

Lemma shr_1_m (mrs : shr_record) :
  0 <= shr_m mrs -> shr_m (shr_1 mrs) = shr_m mrs / 2.
Proof.
  destruct mrs as [m r s]; cbn [shr_m shr_1]. intros Hm.
  destruct m as [|[p|p|]|p]; cbn [shr_m]; try lia.
  - reflexivity.
  - rewrite Pos2Z.inj_xI. apply Z.div_unique with (r := 1); lia.
  - rewrite Pos2Z.inj_xO. apply Z.div_unique with (r := 0); lia.
  - reflexivity.
Qed.

Lemma iter_shr_1_m (n : positive) : forall mrs : shr_record,
  0 <= shr_m mrs ->
  shr_m (iter_pos shr_1 n mrs) = shr_m mrs / 2 ^ Zpos n.
Proof.
  assert (Hnn : forall mrs, 0 <= shr_m mrs -> 0 <= shr_m (shr_1 mrs)).
  { intros mrs H. rewrite shr_1_m by assumption. apply Z.div_pos; lia. }
  induction n as [n IH | n IH |]; intros mrs Hm; cbn [iter_pos].
  - rewrite IH by (rewrite IH by auto; apply Z.div_pos; [auto | lia]).
    rewrite IH by auto. rewrite shr_1_m by assumption.
    rewrite !Z.div_div by lia. f_equal.
    replace (Zpos n~1) with (1 + (Zpos n + Zpos n)) by lia.
    rewrite !Z.pow_add_r by lia. change (2 ^ 1) with 2. ring.
  - rewrite IH by (rewrite IH by auto; apply Z.div_pos; [auto | lia]).
    rewrite IH by auto.
    rewrite Z.div_div by lia. f_equal.
    replace (Zpos n~0) with (Zpos n + Zpos n) by lia.
    rewrite Z.pow_add_r by lia. reflexivity.
  - rewrite shr_1_m by assumption. reflexivity.
Qed.

Lemma round_nearest_even_cases (m : Z) (l : location) :
  round_nearest_even m l = m \/ round_nearest_even m l = m + 1.
Proof.
  destruct l as [|[ | | ]]; cbn [round_nearest_even]; auto.
  destruct (Z.even m); auto.
Qed.

Section FormatLemmas.
Variables prec emax : Z.
Hypothesis prec_pos : 0 < prec.

Local Abbreviation emin := (emin prec emax).
Local Abbreviation fexp := (fexp prec emax).



Lemma binary_round_aux_finish s mx ex lx :
  binary_round_aux prec emax s mx ex lx =
  let '(mrs, e') := shr_fexp prec emax mx ex lx in
  finish prec emax s (round_nearest_even (shr_m mrs) (loc_of_shr_record mrs)) e'.
Proof. reflexivity. Qed.

Lemma fexp_ge_emin e : emin <= fexp e.
Proof. unfold SpecFloat.fexp. lia. Qed.

Lemma finish_spec s m' E :
  emin <= E -> 0 <= m' <= 2 ^ prec ->
  (emin < E -> 2 ^ (prec - 1) <= m') ->
  (m' = 0 /\ finish prec emax s m' E = S754_zero s) \/
  (exists mr er, finish prec emax s m' E = mk prec emax s mr er /\
     canonical_mantissa prec emax mr er = true /\
     E <= er <= E + 1 /\ Zpos mr * 2 ^ (er - E) = m').
Proof.
  intros HE [Hlo Hhi] Hnorm. unfold finish, shr_fexp.
  destruct m' as [|mp|mp]; [left | right | lia].
  - split; [reflexivity|]. cbn [Zdigits2 shr_record_of_loc].
    assert (Hn : fexp (0 + E) - E <= 0) by (unfold SpecFloat.fexp; lia).
    unfold shr. destruct (fexp (0 + E) - E); [reflexivity | lia | reflexivity].
  - cbn [Zdigits2 shr_record_of_loc].
    pose proof (digits2_pos_bounds mp) as [Dlo Dhi].
    set (d := Zpos (digits2_pos mp)) in *.
    destruct (Z.eq_dec (Zpos mp) (2 ^ prec)) as [Heq | Hne].
    + (* the mantissa rounded up to 2^prec: one more shift *)
      assert (Hd : d = prec + 1).
      { apply digits2_pos_unique. rewrite Heq.
        replace (prec + 1 - 1) with prec by lia.
        split; [lia|]. apply Z.pow_lt_mono_r; lia. }
      assert (Hn : fexp (d + E) - E = 1) by (unfold SpecFloat.fexp; lia).
      rewrite Hn. cbn [shr iter_pos].
      assert (Hm : shr_m (shr_1 {| shr_m := Zpos mp; shr_r := false; shr_s := false |})
                   = 2 ^ (prec - 1)).
      { rewrite shr_1_m by (cbn; lia). cbn [shr_m]. rewrite Heq.
        replace prec with (Z.succ (prec - 1)) at 1 by lia.
        rewrite Z.pow_succ_r by lia. rewrite Z.mul_comm, Z.div_mul; lia. }
      assert (Hpos : 0 < 2 ^ (prec - 1)) by (apply Z.pow_pos_nonneg; lia).
      destruct (shr_m (shr_1 _)) as [|mr|mr] eqn:Hs; try lia.
      exists mr, (E + 1). split; [reflexivity|]. repeat split; try lia.
      * unfold canonical_mantissa.
        rewrite (digits2_pos_unique mr prec).
        -- apply Z.eqb_eq. unfold SpecFloat.fexp. lia.
        -- rewrite Hm. split; [lia|]. apply Z.pow_lt_mono_r; lia.
      * rewrite Hm, Heq. replace (E + 1 - E) with 1 by lia.
        replace prec with (Z.succ (prec - 1)) at 2 by lia.
        rewrite Z.pow_succ_r by lia. change (2 ^ 1) with 2. ring.
    + assert (Hdp : d <= prec).
      { destruct (Z_le_gt_dec d prec); [assumption|].
        assert (2 ^ prec <= 2 ^ (d - 1)) by (apply Z.pow_le_mono_r; lia). lia. }
      assert (Hn : fexp (d + E) - E <= 0) by (unfold SpecFloat.fexp; lia).
      assert (Hshr : shr {| shr_m := Zpos mp; shr_r := false; shr_s := false |} E
                       (fexp (d + E) - E)
                     = ({| shr_m := Zpos mp; shr_r := false; shr_s := false |}, E)).
      { unfold shr. destruct (fexp (d + E) - E); [reflexivity | lia | reflexivity]. }
      rewrite Hshr. cbn [shr_m].
      exists mp, E. split; [reflexivity|]. repeat split; try lia.
      * unfold canonical_mantissa. fold d. apply Z.eqb_eq.
        destruct (Z.eq_dec E emin) as [HEe | HEe].
        -- unfold SpecFloat.fexp. lia.
        -- assert (Hge : 2 ^ (prec - 1) <= Zpos mp) by (apply Hnorm; lia).
           assert (prec <= d).
           { destruct (Z_le_gt_dec prec d); [assumption|].
             assert (2 ^ d <= 2 ^ (prec - 1)) by (apply Z.pow_le_mono_r; lia). lia. }
           unfold SpecFloat.fexp. lia.
      * replace (E - E) with 0 by lia. cbn. lia.
Qed.

Lemma pow2_split (a b c : Z) : b <= a -> c <= b ->
  2 ^ (a - c) = 2 ^ (a - b) * 2 ^ (b - c).
Proof. intros. rewrite <- Z.pow_add_r by lia. f_equal. lia. Qed.

Theorem binary_round_correct s m e :
  emin <= e ->
  let E0 := fexp (Zpos (digits2_pos m) + e) in
  let V := Zpos m * 2 ^ (e - emin) in
  let U := 2 ^ (E0 - emin) in
  exists m', V / U <= m' <= V / U + 1 /\ (E0 <= e -> m' * U = V) /\
    ((m' = 0 /\ binary_round prec emax s m e = S754_zero s) \/
     (exists mr er, binary_round prec emax s m e = mk prec emax s mr er /\
        canonical_mantissa prec emax mr er = true /\
        E0 <= er <= E0 + 1 /\ Zpos mr * 2 ^ (er - emin) = m' * U)).
Proof.
  intros He E0 V U.
  pose proof (digits2_pos_bounds m) as [Dlo Dhi].
  set (d := Zpos (digits2_pos m)) in *.
  assert (HE0 : emin <= E0) by apply fexp_ge_emin.
  assert (HU : 0 < U) by (apply Z.pow_pos_nonneg; lia).
  assert (Hfin : forall m', emin <= E0 -> 0 <= m' <= 2 ^ prec ->
            (emin < E0 -> 2 ^ (prec - 1) <= m') ->
            (m' = 0 /\ finish prec emax s m' E0 = S754_zero s) \/
            (exists mr er, finish prec emax s m' E0 = mk prec emax s mr er /\
               canonical_mantissa prec emax mr er = true /\
               E0 <= er <= E0 + 1 /\ Zpos mr * 2 ^ (er - emin) = m' * U)).
  { intros m' H1 H2 H3.
    destruct (finish_spec s m' E0 H1 H2 H3) as [?|(mr & er & ? & ? & ? & Hv)]; [auto|].
    right. exists mr, er. repeat split; try tauto; try lia.
    unfold U. rewrite (pow2_split er E0 emin) by lia. rewrite <- Hv. ring. }
  unfold binary_round. fold d. fold E0. unfold shl_align.
  destruct (Z_lt_le_dec E0 e) as [Hlt | Hge].
  - (* the mantissa is shifted left, nothing is lost *)
    destruct (E0 - e) as [|k|k] eqn:Hk; try lia.
    set (m1 := Pos.iter xO m k).
    assert (Hm1 : Zpos m1 = Zpos m * 2 ^ Zpos k) by apply iter_xO_spec.
    assert (Hpk : 0 < 2 ^ Zpos k) by (apply Z.pow_pos_nonneg; lia).
    assert (Hd1 : Zpos (digits2_pos m1) = d + Zpos k).
    { apply digits2_pos_unique. rewrite Hm1.
      replace (d + Zpos k - 1) with ((d - 1) + Zpos k) by lia.
      rewrite !Z.pow_add_r by lia. nia. }
    rewrite binary_round_aux_finish. unfold shr_fexp.
    cbn [Zdigits2 shr_record_of_loc]. rewrite Hd1.
    replace (d + Zpos k + E0) with (d + e) by lia. fold E0.
    replace (E0 - E0) with 0 by lia. cbn [shr shr_m loc_of_shr_record round_nearest_even].
    assert (HVU : V = Zpos m1 * U).
    { unfold V, U. rewrite (pow2_split e E0 emin) by lia.
      rewrite Hm1. replace (e - E0) with (Zpos k) by lia. ring. }
    exists (Zpos m1). rewrite HVU, Z.div_mul by lia.
    split; [lia|]. split; [reflexivity|].
    apply Hfin; [lia | | ].
    + split; [lia|]. rewrite Hm1.
      assert (2 ^ (d + Zpos k) <= 2 ^ prec)
        by (apply Z.pow_le_mono_r; [lia | unfold E0, SpecFloat.fexp in *; lia]).
      rewrite Z.pow_add_r in * by lia. nia.
    + intros Hn. rewrite Hm1.
      assert (Hdk : d - 1 + Zpos k = prec - 1) by (unfold E0, SpecFloat.fexp in *; lia).
      rewrite <- Hdk, Z.pow_add_r by lia. nia.
  - assert (Hal : match E0 - e with Zneg d0 => (Pos.iter xO m d0, E0) | _ => (m, e) end = (m, e)).
    { destruct (E0 - e) eqn:Hx; try reflexivity; lia. }
    rewrite Hal. clear Hal.
    rewrite binary_round_aux_finish. unfold shr_fexp.
    cbn [Zdigits2 shr_record_of_loc]. fold d. fold E0. unfold shr.
    destruct (E0 - e) as [|n|n] eqn:Hn; try lia.
    + (* already aligned *)
      assert (E0 = e) by lia.
      cbn [shr_m loc_of_shr_record round_nearest_even].
      assert (HVU : V = Zpos m * U) by (unfold V, U; replace E0 with e by lia; reflexivity).
      exists (Zpos m). rewrite HVU, Z.div_mul by lia.
      split; [lia|]. split; [reflexivity|].
      replace e with E0 by lia.
      apply Hfin; [lia | | ].
      * split; [lia|].
        assert (2 ^ d <= 2 ^ prec)
          by (apply Z.pow_le_mono_r; [lia | unfold E0, SpecFloat.fexp in *; lia]).
        lia.
      * intros Hgt. assert (Hdk : d - 1 = prec - 1) by (unfold E0, SpecFloat.fexp in *; lia).
        rewrite <- Hdk. lia.
    + (* the low bits are shifted out and the mantissa rounded *)
      set (mrs := iter_pos shr_1 n _).
      assert (Hq : shr_m mrs = Zpos m / 2 ^ Zpos n)
        by (unfold mrs; rewrite iter_shr_1_m by (cbn; lia); reflexivity).
      assert (Hpn : 0 < 2 ^ Zpos n) by (apply Z.pow_pos_nonneg; lia).
      assert (HVU : V / U = Zpos m / 2 ^ Zpos n).
      { unfold V, U. rewrite (pow2_split E0 e emin) by lia.
        replace (E0 - e) with (Zpos n) by lia.
        apply Z.div_mul_cancel_r; [lia|].
        apply Z.pow_nonzero; lia. }
      set (q := Zpos m / 2 ^ Zpos n) in *.
      assert (Hq0 : 0 <= q) by (apply Z.div_pos; lia).
      assert (Hqhi : q < 2 ^ prec).
      { apply Z.div_lt_upper_bound; [lia|].
        rewrite <- Z.pow_add_r by lia.
        assert (2 ^ d <= 2 ^ (Zpos n + prec))
          by (apply Z.pow_le_mono_r; [lia | unfold E0, SpecFloat.fexp in *; lia]).
        lia. }
      replace (e + Zpos n) with E0 by lia.
      exists (round_nearest_even (shr_m mrs) (loc_of_shr_record mrs)).
      destruct (round_nearest_even_cases (shr_m mrs) (loc_of_shr_record mrs)) as [Hr | Hr];
        rewrite Hr, Hq, HVU; (split; [lia|]); (split; [lia|]);
        (apply Hfin; [lia | lia | ]); intros Hgt;
        (assert (Hlow : 2 ^ (prec - 1) <= q);
         [ apply Z.div_le_lower_bound; [lia|];
           rewrite <- Z.pow_add_r by lia;
           replace (Zpos n + (prec - 1)) with (d - 1)
             by (unfold E0, SpecFloat.fexp in *; lia); lia
         | lia ]).
Qed.



Lemma canonical_facts m e :
  canonical_mantissa prec emax m e = true ->
  emin <= e /\ Zpos (digits2_pos m) <= prec /\
  (emin < e -> Zpos (digits2_pos m) = prec).
Proof.
  unfold canonical_mantissa, SpecFloat.fexp. intros H%Z.eqb_eq. lia.
Qed.

Lemma canonical_lt m1 e1 m2 e2 :
  canonical_mantissa prec emax m1 e1 = true ->
  canonical_mantissa prec emax m2 e2 = true ->
  e1 < e2 ->
  Zpos m1 * 2 ^ (e1 - emin) < Zpos m2 * 2 ^ (e2 - emin).
Proof.
  intros (He1 & Hd1 & _)%canonical_facts (He2 & _ & Hd2)%canonical_facts Hlt.
  pose proof (digits2_pos_bounds m1) as [_ Hhi].
  pose proof (digits2_pos_bounds m2) as [Hlo _].
  rewrite Hd2 in Hlo by lia.
  assert (H1 : 2 ^ Zpos (digits2_pos m1) <= 2 ^ prec) by (apply Z.pow_le_mono_r; lia).
  rewrite (pow2_split e2 e1 emin) by lia.
  assert (HP : 0 < 2 ^ (e1 - emin)) by (apply Z.pow_pos_nonneg; lia).
  assert (H2 : 2 ^ 1 <= 2 ^ (e2 - e1)) by (apply Z.pow_le_mono_r; lia).
  change (2 ^ 1) with 2 in H2.
  assert (H3 : 2 ^ prec = 2 * 2 ^ (prec - 1)).
  { replace prec with (Z.succ (prec - 1)) at 1 by lia. apply Z.pow_succ_r. lia. }
  assert (H4 : 0 < 2 ^ (prec - 1)) by (apply Z.pow_pos_nonneg; lia).
  assert (Zpos m1 * 2 ^ (e1 - emin) < 2 ^ prec * 2 ^ (e1 - emin)) by nia.
  assert (2 ^ prec * 2 ^ (e1 - emin) <= Zpos m2 * (2 ^ (e2 - e1) * 2 ^ (e1 - emin))).
  { rewrite H3. 
    assert (2 * 2 ^ (prec - 1) <= Zpos m2 * 2 ^ (e2 - e1)) by nia.
    nia. }
  lia.
Qed.

Lemma canonical_compare m1 e1 m2 e2 :
  canonical_mantissa prec emax m1 e1 = true ->
  canonical_mantissa prec emax m2 e2 = true ->
  match e1 ?= e2 with
  | Lt => Lt
  | Gt => Gt
  | Eq => Pos.compare_cont Eq m1 m2
  end = (Zpos m1 * 2 ^ (e1 - emin) ?= Zpos m2 * 2 ^ (e2 - emin)).
Proof.
  intros C1 C2. destruct (Z.compare_spec e1 e2) as [-> | Hlt | Hgt].
  - pose proof (canonical_facts _ _ C2) as (He & _).
    assert (HP : 0 < 2 ^ (e2 - emin)) by (apply Z.pow_pos_nonneg; lia).
    change (Pos.compare_cont Eq m1 m2) with (Zpos m1 ?= Zpos m2).
    apply Zmult_compare_compat_r. lia.
  - symmetry. apply Z.compare_lt_iff. apply canonical_lt; assumption.
  - symmetry. apply Z.compare_gt_iff. apply canonical_lt; assumption.
Qed.

Lemma Zmag_pos m e : emin <= e -> 0 < Zpos m * 2 ^ (e - emin).
Proof. intros. assert (0 < 2 ^ (e - emin)) by (apply Z.pow_pos_nonneg; lia). nia. Qed.

Theorem SFcompare_Zval x y :
  valid_binary prec emax x = true -> valid_binary prec emax y = true ->
  is_finite x = true -> is_finite y = true ->
  SFcompare x y = Some (Zval prec emax x ?= Zval prec emax y).
Proof.
  destruct x as [sx | sx | | sx mx ex], y as [sy | sy | | sy my ey];
    cbn [is_finite valid_binary]; try discriminate; intros Vx Vy _ _.
  - reflexivity.
  - apply andb_prop in Vy as [Cy _].
    pose proof (canonical_facts _ _ Cy) as (Hy & _).
    pose proof (Zmag_pos my ey Hy).
    cbn [SFcompare Zval]. f_equal. symmetry.
    destruct sy; cbn [cond_Zopp]; [apply Z.compare_gt_iff | apply Z.compare_lt_iff]; lia.
  - apply andb_prop in Vx as [Cx _].
    pose proof (canonical_facts _ _ Cx) as (Hx & _).
    pose proof (Zmag_pos mx ex Hx).
    cbn [SFcompare Zval]. f_equal. symmetry.
    destruct sx; cbn [cond_Zopp]; [apply Z.compare_lt_iff | apply Z.compare_gt_iff]; lia.
  - apply andb_prop in Vx as [Cx _]. apply andb_prop in Vy as [Cy _].
    pose proof (canonical_facts _ _ Cx) as (Hx & _).
    pose proof (canonical_facts _ _ Cy) as (Hy & _).
    pose proof (Zmag_pos mx ex Hx). pose proof (Zmag_pos my ey Hy).
    cbn [SFcompare Zval]. f_equal.
    destruct sx, sy; cbn [cond_Zopp].
    + rewrite Z.compare_opp.
      rewrite <- (canonical_compare my ey mx ex Cy Cx).
      rewrite (Z.compare_antisym ex ey).
      destruct (ex ?= ey); cbn [CompOpp]; try reflexivity.
      apply (Pos.compare_cont_antisym mx my Eq).
    + symmetry. apply Z.compare_lt_iff. lia.
    + symmetry. apply Z.compare_gt_iff. lia.
    + apply canonical_compare; assumption.
Qed.
End FormatLemmas.

Section CompareLemmas.
Variables prec emax : Z.
Hypothesis prec_pos : 0 < prec.

Lemma SFltb_Zval x y :
  valid_binary prec emax x = true -> valid_binary prec emax y = true ->
  is_finite x = true -> is_finite y = true ->
  SFltb x y = (Zval prec emax x <? Zval prec emax y).
Proof.
  intros Vx Vy Fx Fy. unfold SFltb.
  rewrite (SFcompare_Zval prec emax prec_pos x y Vx Vy Fx Fy).
  unfold Z.ltb. destruct (Zval prec emax x ?= Zval prec emax y); reflexivity.
Qed.

Lemma SFleb_Zval x y :
  valid_binary prec emax x = true -> valid_binary prec emax y = true ->
  is_finite x = true -> is_finite y = true ->
  SFleb x y = (Zval prec emax x <=? Zval prec emax y).
Proof.
  intros Vx Vy Fx Fy. unfold SFleb.
  rewrite (SFcompare_Zval prec emax prec_pos x y Vx Vy Fx Fy).
  unfold Z.leb. destruct (Zval prec emax x ?= Zval prec emax y); reflexivity.
Qed.
End CompareLemmas.

(** ** binary32 *)

Abbreviation Zval32 := (Zval F32.prec F32.emax).
Abbreviation Zval64 := (Zval F64.prec F64.emax).

Lemma f32_prec_pos : 0 < F32.prec.
Proof. reflexivity. Qed.

Lemma f64_prec_pos : 0 < F64.prec.
Proof. reflexivity. Qed.

Lemma Zval32_one : Zval32 F32.one = 2 ^ 149.
Proof. reflexivity. Qed.

Lemma f32_unit_interval (p : F32.t) :
  F32.valid p = true ->
  F32.leb F32.zero p = true -> F32.leb p F32.one = true ->
  is_finite p = true /\ 0 <= Zval32 p <= 2 ^ 149.
Proof.
  intros Vp H0 H1.
  assert (Fp : is_finite p = true).
  { destruct p as [s|[|]| |s m e]; try reflexivity; discriminate. }
  split; [assumption|].
  unfold F32.leb in *.
  rewrite (SFleb_Zval F32.prec F32.emax f32_prec_pos) in H0, H1 by (assumption || reflexivity).
  apply Z.leb_le in H0, H1. rewrite Zval32_one in H1.
  change (Zval F32.prec F32.emax F32.zero) with 0 in H0. lia.
Qed.

(** Rounding to a grid of step [U]: the result stays within one step of the
  exact value, and on the same side of every grid point [W * U]. *)
Lemma grid_bounds (V U m' W B : Z) :
  0 < U -> U <= B -> V / U <= m' <= V / U + 1 ->
  V - B <= m' * U <= V + B /\
  (V < W * U -> m' * U <= W * U) /\
  (W * U <= V -> W * U <= m' * U).
Proof.
  intros HU HB [Hlo Hhi].
  pose proof (Z.mul_div_le V U HU) as H1.
  pose proof (Z.mul_succ_div_gt V U HU) as H2.
  set (q := V / U) in *.
  repeat split.
  - nia.
  - nia.
  - intros HV. assert (q < W) by (apply Z.div_lt_upper_bound; lia). nia.
  - intros HV. assert (W <= q) by (apply Z.div_le_lower_bound; lia). nia.
Qed.

Lemma emin32 : emin F32.prec F32.emax = -149.
Proof. reflexivity. Qed.

(** ** The subtraction [1 - x] *)

Section SubOne.
Variables prec emax : Z.
Hypothesis prec_pos : 0 < prec.
Hypothesis emax_big : 2 < emax.
Variable one_m : positive.
Hypothesis one_m_spec : Zpos one_m = 2 ^ (prec - 1).

Local Abbreviation emin := (emin prec emax).
Local Abbreviation one := (S754_finite false one_m (1 - prec)).

Lemma emin_lt : emin < 1 - prec.
Proof. unfold SpecFloat.emin. lia. Qed.

Lemma Zval_one : Zval prec emax one = 2 ^ (- emin).
Proof.
  pose proof emin_lt. cbn [Zval cond_Zopp]. rewrite one_m_spec.
  rewrite <- Z.pow_add_r by lia. f_equal. lia.
Qed.

Theorem sub_one_spec (x : spec_float) :
  valid_binary prec emax x = true -> is_finite x = true ->
  0 <= Zval prec emax x <= 2 ^ (- emin) ->
  let r := SFsub prec emax one x in
  let X := 2 ^ (- emin) - Zval prec emax x in
  valid_binary prec emax r = true /\ is_finite r = true /\
  X - 2 ^ (- prec - emin) <= Zval prec emax r <= X + 2 ^ (- prec - emin) /\
  (X < 2 ^ (-1 - emin) -> Zval prec emax r <= 2 ^ (-1 - emin)) /\
  (2 ^ (-1 - emin) <= X -> 2 ^ (-1 - emin) <= Zval prec emax r).
Proof.
  intros Vx Fx Hx r X. pose proof emin_lt as Hemin.
  assert (HB : 0 < 2 ^ (- prec - emin)) by (apply Z.pow_pos_nonneg; lia).
  assert (HH : 0 < 2 ^ (-1 - emin)) by (apply Z.pow_pos_nonneg; lia).
  assert (H1 : 2 ^ (- emin) = 2 * 2 ^ (-1 - emin)).
  { replace (- emin) with (Z.succ (-1 - emin)) by lia. apply Z.pow_succ_r. lia. }
  destruct x as [s| | |s m e]; try discriminate.
  - (* 1 - 0 = 1 *)
    assert (Hr : r = one) by (destruct s; reflexivity).
    unfold X. rewrite Hr, Zval_one. cbn [Zval valid_binary is_finite].
    split.
    { unfold bounded, canonical_mantissa.
      rewrite (digits2_pos_unique one_m prec).
      - apply andb_true_intro. split; [apply Z.eqb_eq | apply Z.leb_le].
        + unfold SpecFloat.fexp. lia.
        + lia.
      - rewrite one_m_spec. split; [lia|]. apply Z.pow_lt_mono_r; lia. }
    split; [reflexivity|]. lia.
  - cbn [valid_binary] in Vx. apply andb_prop in Vx as [Cx Bx].
    pose proof (canonical_facts prec emax m e Cx) as (He & Hd & Hn).
    pose proof (digits2_pos_bounds m) as [Dlo Dhi].
    set (d := Zpos (digits2_pos m)) in *.
    assert (HP : 0 < 2 ^ (e - emin)) by (apply Z.pow_pos_nonneg; lia).
    cbn [Zval] in Hx.
    destruct s; cbn [cond_Zopp] in Hx; [nia|].
    assert (Hmp : Zpos m < 2 ^ prec).
    { assert (2 ^ d <= 2 ^ prec) by (apply Z.pow_le_mono_r; lia). lia. }
    assert (He1 : e <= 1 - prec).
    { destruct (Z_le_gt_dec e (1 - prec)); [assumption|].
      assert (Hpe : 2 ^ (2 - prec - emin) <= 2 ^ (e - emin)) by (apply Z.pow_le_mono_r; lia).
      rewrite Hn in Dlo by lia.
      assert (Hprod : 2 ^ (prec - 1) * 2 ^ (2 - prec - emin) = 2 * 2 ^ (- emin)).
      { rewrite <- Z.pow_add_r by lia.
        replace (prec - 1 + (2 - prec - emin)) with (Z.succ (- emin)) by lia.
        apply Z.pow_succ_r. lia. }
      assert (0 < 2 ^ (prec - 1)) by (apply Z.pow_pos_nonneg; lia).
      assert (0 < 2 ^ (- emin)) by lia.
      assert (2 ^ (prec - 1) * 2 ^ (2 - prec - emin) <= Zpos m * 2 ^ (e - emin)) by nia.
      lia. }
    destruct (Z.eq_dec e (1 - prec)) as [Ee | Hne].
    + (* x = 1 *)
      rewrite Hn in Dlo by lia.
      assert (Hm : m = one_m).
      { assert (Hone : 2 ^ (- emin) = 2 ^ (prec - 1) * 2 ^ (e - emin)).
        { rewrite <- Z.pow_add_r by lia. f_equal. lia. }
        rewrite Hone in Hx. assert (Zpos m <= 2 ^ (prec - 1)) by nia. lia. }
      assert (Hr : r = S754_zero false).
      { unfold r, SFsub. cbv zeta. rewrite Hm, Ee, Z.min_id. unfold shl_align.
        replace (1 - prec - (1 - prec)) with 0 by lia. cbn [fst cond_Zopp].
        replace (Zpos one_m - Zpos one_m) with 0 by lia. reflexivity. }
      unfold X. rewrite Hr. cbn [Zval cond_Zopp valid_binary is_finite].
      split; [reflexivity|]. split; [reflexivity|].
      assert (Zpos m * 2 ^ (e - emin) = 2 ^ (- emin)).
      { rewrite Hm, one_m_spec, <- Z.pow_add_r by lia. f_equal. lia. }
      lia.
    + assert (He2 : e <= - prec) by lia.
      unfold r, SFsub. cbv zeta. rewrite Z.min_r by lia.
      unfold shl_align. replace (e - e) with 0 by lia.
      destruct (e - (1 - prec)) as [|k|k] eqn:Hk; try lia.
      cbn [fst cond_Zopp].
      assert (HA : Zpos (Pos.iter xO one_m k) = 2 ^ (- e)).
      { rewrite iter_xO_spec, one_m_spec.
        rewrite <- Z.pow_add_r by lia. f_equal. lia. }
      assert (Hpe : 2 ^ prec <= 2 ^ (- e)) by (apply Z.pow_le_mono_r; lia).
      destruct (Zpos (Pos.iter xO one_m k) - Zpos m) as [|M|M] eqn:HM; try lia.
      cbn [binary_normalize].
      destruct (binary_round_correct prec emax prec_pos false M e He)
        as (m' & Hbr & _ & Hres).
      pose proof (digits2_pos_bounds M) as [DMlo DMhi].
      set (dM := Zpos (digits2_pos M)) in *.
      set (E0 := SpecFloat.fexp prec emax (dM + e)) in *.
      assert (HdM : dM <= - e).
      { destruct (Z_le_gt_dec dM (- e)); [assumption|].
        assert (2 ^ (- e) <= 2 ^ (dM - 1)) by (apply Z.pow_le_mono_r; lia). lia. }
      assert (HE0 : emin <= E0 <= - prec).
      { unfold E0, SpecFloat.fexp. lia. }
      set (U := 2 ^ (E0 - emin)) in *.
      assert (HU : 0 < U) by (apply Z.pow_pos_nonneg; lia).
      assert (HUB : U <= 2 ^ (- prec - emin)) by (apply Z.pow_le_mono_r; lia).
      assert (HV : Zpos M * 2 ^ (e - emin) = 2 ^ (- emin) - Zpos m * 2 ^ (e - emin)).
      { rewrite <- HM, HA, Z.mul_sub_distr_r. rewrite <- Z.pow_add_r by lia.
        f_equal. f_equal. lia. }
      rewrite HV in Hbr.
      assert (HG : 2 ^ (-1 - emin) = 2 ^ (-1 - E0) * U).
      { unfold U. rewrite <- Z.pow_add_r by lia. f_equal. lia. }
      assert (Hval : Zval prec emax (binary_round prec emax false M e) = m' * U /\
              valid_binary prec emax (binary_round prec emax false M e) = true /\
              is_finite (binary_round prec emax false M e) = true).
      { destruct Hres as [[-> ->] | (mr & er & -> & Cr & Her & Hv)].
        - repeat split.
        - unfold mk.
          replace (er <=? emax - prec) with true by (symmetry; apply Z.leb_le; lia).
          cbn [Zval cond_Zopp is_finite valid_binary].
          split; [exact Hv|]. split; [|reflexivity].
          unfold bounded. rewrite Cr. apply Z.leb_le. lia. }
      destruct Hval as (-> & -> & ->).
      split; [reflexivity|]. split; [reflexivity|].
      unfold X. cbn [Zval cond_Zopp]. rewrite HG.
      apply grid_bounds; assumption.
Qed.
End SubOne.

Lemma f32_sub_one_spec (p : F32.t) :
  F32.valid p = true -> is_finite p = true -> 0 <= Zval32 p <= 2 ^ 149 ->
  let r := F32.sub F32.one p in
  let X := 2 ^ 149 - Zval32 p in
  F32.valid r = true /\ is_finite r = true /\
  X - 2 ^ 125 <= Zval32 r <= X + 2 ^ 125 /\
  (X < 2 ^ 148 -> Zval32 r <= 2 ^ 148) /\
  (2 ^ 148 <= X -> 2 ^ 148 <= Zval32 r).
Proof.
  exact (sub_one_spec F32.prec F32.emax f32_prec_pos eq_refl 8388608 eq_refl p).
Qed.

Lemma f64_sub_one_spec (x : F64.t) :
  F64.valid x = true -> is_finite x = true -> 0 <= Zval64 x <= 2 ^ 1074 ->
  let r := F64.sub F64.one x in
  let X := 2 ^ 1074 - Zval64 x in
  F64.valid r = true /\ is_finite r = true /\
  X - 2 ^ 1021 <= Zval64 r <= X + 2 ^ 1021 /\
  (X < 2 ^ 1073 -> Zval64 r <= 2 ^ 1073) /\
  (2 ^ 1073 <= X -> 2 ^ 1073 <= Zval64 r).
Proof.
  exact (sub_one_spec F64.prec F64.emax f64_prec_pos eq_refl 4503599627370496 eq_refl x).
Qed.

(** ** binary64 and the conversion [float(x)] *)

Lemma emin64 : emin F64.prec F64.emax = -1074.
Proof. reflexivity. Qed.

Lemma of_f32_spec (x : F32.t) :
  F32.valid x = true -> is_finite x = true ->
  F64.valid (F64.of_f32 x) = true /\ is_finite (F64.of_f32 x) = true /\
  Zval64 (F64.of_f32 x) = Zval32 x * 2 ^ 925.
Proof.
  intros Vx Fx. destruct x as [s| | |s m e]; try discriminate.
  - repeat split.
  - cbn [F32.valid valid_binary] in Vx. apply andb_prop in Vx as [Cx Bx].
    pose proof (canonical_facts F32.prec F32.emax m e Cx) as (He & Hd & _).
    rewrite emin32 in He. change F32.prec with 24 in Hd.
    apply Z.leb_le in Bx. change (F32.emax - F32.prec) with 104 in Bx.
    assert (Hbn : F64.of_f32 (S754_finite s m e) = binary_round F64.prec F64.emax s m e)
      by (destruct s; reflexivity).
    rewrite Hbn.
    destruct (binary_round_correct F64.prec F64.emax f64_prec_pos s m e)
      as (m' & _ & Hex & Hres); [rewrite emin64; lia|].
    rewrite emin64 in Hex, Hres.
    set (E0 := SpecFloat.fexp F64.prec F64.emax (Zpos (digits2_pos m) + e)) in *.
    assert (HE0 : -1074 <= E0 <= e).
    { unfold E0, SpecFloat.fexp. rewrite emin64. change F64.prec with 53. lia. }
    specialize (Hex (proj2 HE0)).
    assert (HP : 0 < 2 ^ (e - -1074)) by (apply Z.pow_pos_nonneg; lia).
    assert (HU : 0 < 2 ^ (E0 - -1074)) by (apply Z.pow_pos_nonneg; lia).
    destruct Hres as [[-> _] | (mr & er & -> & Cr & Her & Hv)]; [nia|].
    unfold mk. change (F64.emax - F64.prec) with 971.
    replace (er <=? 971) with true by (symmetry; apply Z.leb_le; lia).
    cbn [Zval cond_Zopp is_finite F64.valid valid_binary].
    rewrite emin64, emin32. split; [|split; [reflexivity|]].
    + unfold bounded. rewrite Cr. apply Z.leb_le.
      change (F64.emax - F64.prec) with 971. lia.
    + rewrite Hv, Hex.
      replace (e - -1074) with ((e - -149) + 925) by lia.
      rewrite Z.pow_add_r by lia.
      destruct s; cbn [cond_Zopp]; ring.
Qed.

Lemma of_f32_not_finite (x : F32.t) :
  is_finite x = false -> F64.of_f32 x = x.
Proof. destruct x; try discriminate; reflexivity. Qed.

Local Open Scope Q_scope.

Lemma Qpow2_shift (e k : Z) :
  (0 <= e + k)%Z -> 2 ^ e == inject_Z (2 ^ (e + k)) * 2 ^ (- k).
Proof.
  intros H. rewrite Zpower_Qpower by assumption.
  change (inject_Z 2) with 2. rewrite <- Qpower_plus by discriminate.
  replace (e + k + - k)%Z with e by lia. reflexivity.
Qed.

Lemma SF2Q_Zval (prec emax : Z) (x : spec_float) :
  valid_binary prec emax x = true ->
  SF2Q x == inject_Z (Zval prec emax x) * 2 ^ emin prec emax.
Proof.
  intros Vx. destruct x as [s| | |s m e]; cbn [SF2Q Zval]; try (rewrite Qmult_0_l; reflexivity).
  cbn [valid_binary] in Vx. apply andb_prop in Vx as [Cx _].
  pose proof (canonical_facts prec emax m e Cx) as (He & _).
  rewrite (Qpow2_shift e (- emin prec emax)) by lia.
  rewrite Z.opp_involutive.
  replace (e + - emin prec emax)%Z with (e - emin prec emax)%Z by lia.
  rewrite Qmult_assoc. rewrite <- inject_Z_mult.
  destruct s; cbn [cond_Zopp];
    [rewrite Z.mul_opp_l|]; reflexivity.
Qed.

Lemma SF2Q_Zval64 (y : F64.t) :
  F64.valid y = true ->
  SF2Q y == inject_Z (Zval64 y) * 2 ^ (-1074).
Proof. apply (SF2Q_Zval F64.prec F64.emax). Qed.

Lemma SF2Q_Zval32 (x : F32.t) :
  F32.valid x = true ->
  SF2Q x == inject_Z (Zval32 x) * 2 ^ (-149).
Proof. apply (SF2Q_Zval F32.prec F32.emax). Qed.

(** [p > 0.5] on a NumPy [float32] is the comparison of the exact values. *)
Lemma f32_gt_half (p : F32.t) :
  F32.valid p = true -> is_finite p = true ->
  F32.ltb F32.half p = true <-> 1 # 2 < SF2Q p.
Proof.
  intros Vp Fp. unfold F32.ltb.
  rewrite (SFltb_Zval F32.prec F32.emax f32_prec_pos) by (assumption || reflexivity).
  rewrite (SF2Q_Zval32 p Vp).
  assert (E : 1 # 2 == inject_Z (Zval32 F32.half) * 2 ^ (-149)) by (vm_compute; reflexivity).
  rewrite E. rewrite Z.ltb_lt.
  rewrite Qmult_lt_r by reflexivity.
  rewrite <- Zlt_Qlt. reflexivity.
Qed.

Lemma Qabs_scaled (N B : Z) (k : Z) (eps : Q) :
  (Z.abs N <= B)%Z -> inject_Z B * 2 ^ k <= eps ->
  Qabs (inject_Z N * 2 ^ k) <= eps.
Proof.
  intros HN HB. rewrite Qabs_Qmult.
  assert (Hk : 0 <= 2 ^ k) by (apply Qpower_pos; discriminate).
  rewrite (Qabs_pos (2 ^ k)) by assumption.
  apply Qle_trans with (inject_Z B * 2 ^ k); [|assumption].
  apply Qmult_le_compat_r; [|assumption].
  assert (HA : Qabs (inject_Z N) == inject_Z (Z.abs N)).
  { unfold Qabs, inject_Z. reflexivity. }
  rewrite HA. rewrite <- Zle_Qle. assumption.
Qed.

Local Open Scope Z_scope.

Lemma SFeqb_half (p : F32.t) : F32.eqb p F32.half = true -> p = F32.half.
Proof.
  unfold F32.eqb, F32.half, SFeqb.
  destruct p as [s|s| |s m e]; cbn [SFcompare]; try discriminate.
  - destruct s; discriminate.
  - destruct s; [discriminate|]. intros H.
    destruct (Z.compare_spec e (-24)) as [E | He | He]; try discriminate H.
    destruct (Pos.compare_cont Eq m 8388608) eqn:Hc; try discriminate H.
    apply Pos.compare_eq in Hc. rewrite E, Hc. reflexivity.
Qed.

Section PredictionFields.
Context {L : Lib}.

(** [prediction > 0.5] is the same test under both promotions. *)
Lemma gt_half_Zval (p : F32.t) :
  F32.valid p = true -> is_finite p = true ->
  gt_half p = (2 ^ 148 <? Zval32 p).
Proof.
  intros Vp Fp. unfold gt_half. destruct np_promotion.
  - unfold F32.ltb. rewrite (SFltb_Zval F32.prec F32.emax f32_prec_pos)
      by (assumption || reflexivity). reflexivity.
  - destruct (of_f32_spec p Vp Fp) as (Vpp & Fpp & Zpp).
    unfold F64.ltb. rewrite (SFltb_Zval F64.prec F64.emax f64_prec_pos)
      by (assumption || reflexivity).
    rewrite Zpp. change (Zval64 F64.half) with (2 ^ 148 * 2 ^ 925).
    assert (0 < 2 ^ 925) by reflexivity.
    destruct (Z.ltb_spec (2 ^ 148) (Zval32 p)); [apply Z.ltb_lt | apply Z.ltb_ge]; nia.
Qed.

(** Under both promotions [prediction > 0.5] is the IEEE comparison of the
  float32 output with 0.5. *)
Lemma gt_half_ltb (p : F32.t) :
  F32.valid p = true -> gt_half p = F32.ltb F32.half p.
Proof.
  intros Vp. destruct (is_finite p) eqn:Fp.
  - rewrite (gt_half_Zval p Vp Fp). unfold F32.ltb.
    rewrite (SFltb_Zval F32.prec F32.emax f32_prec_pos) by (assumption || reflexivity).
    reflexivity.
  - unfold gt_half. rewrite (of_f32_not_finite p Fp).
    destruct p as [s|s| |s m e]; try discriminate; destruct np_promotion; reflexivity.
Qed.

Lemma gt_half_at_half : gt_half F32.half = false.
Proof. unfold gt_half. destruct np_promotion; reflexivity. Qed.

(** For a finite output, [prediction > 0.5] compares the exact value with
  one half. *)
Lemma gt_half_exact (p : F32.t) :
  F32.valid p = true -> is_finite p = true ->
  gt_half p = true <-> (1 # 2 < SF2Q p)%Q.
Proof.
  intros Vp Fp. rewrite <- (f32_gt_half p Vp Fp).
  rewrite (gt_half_Zval p Vp Fp). unfold F32.ltb.
  rewrite (SFltb_Zval F32.prec F32.emax f32_prec_pos) by (assumption || reflexivity).
  reflexivity.
Qed.

(** [float(1 - prediction)] under both promotions: a binary64 number within
  [2 ^ -24] of the exact difference, on the same side of one half. *)
Lemma float_one_minus_spec (p : F32.t) :
  F32.valid p = true -> is_finite p = true -> 0 <= Zval32 p <= 2 ^ 149 ->
  let pn := float_one_minus p in
  let X := 2 ^ 1074 - Zval64 (F64.of_f32 p) in
  F64.valid pn = true /\ is_finite pn = true /\
  X - 2 ^ 1050 <= Zval64 pn <= X + 2 ^ 1050 /\
  (X < 2 ^ 1073 -> Zval64 pn <= 2 ^ 1073) /\
  (2 ^ 1073 <= X -> 2 ^ 1073 <= Zval64 pn).
Proof.
  intros Vp Fp Hv pn X.
  destruct (of_f32_spec p Vp Fp) as (Vpp & Fpp & Zpp).
  assert (HS : 0 < 2 ^ 925) by reflexivity.
  assert (E1 : 2 ^ 1074 = 2 ^ 149 * 2 ^ 925) by reflexivity.
  assert (E2 : 2 ^ 1073 = 2 ^ 148 * 2 ^ 925) by reflexivity.
  assert (E3 : 2 ^ 1050 = 2 ^ 125 * 2 ^ 925) by reflexivity.
  unfold pn, X, float_one_minus. destruct np_promotion.
  - destruct (f32_sub_one_spec p Vp Fp Hv) as (Vr & Fr & HA & HB & HC).
    destruct (of_f32_spec _ Vr Fr) as (Vpn & Fpn & Zpn).
    rewrite Zpn, Zpp, E1, E2, E3.
    set (v := Zval32 p) in *. set (zr := Zval32 (F32.sub F32.one p)) in *.
    split; [assumption|]. split; [assumption|].
    split; [nia|]. split; intros H.
    + assert (zr <= 2 ^ 148) by (apply HB; nia). nia.
    + assert (2 ^ 148 <= zr) by (apply HC; nia). nia.
  - assert (Hx : 0 <= Zval64 (F64.of_f32 p) <= 2 ^ 1074) by (rewrite Zpp, E1; nia).
    destruct (f64_sub_one_spec _ Vpp Fpp Hx) as (Vr & Fr & HA & HB & HC).
    split; [assumption|]. split; [assumption|].
    assert (2 ^ 1021 <= 2 ^ 1050) by (apply Z.pow_le_mono_r; lia).
    split; [lia|]. split; assumption.
Qed.

(** The fields [make_prediction] derives from a model output [p] in [0, 1]. *)
Lemma prediction_fields_spec (p : F32.t) :
  F32.valid p = true ->
  F32.leb F32.zero p = true -> F32.leb p F32.one = true ->
  let pn := float_one_minus p in
  let pp := F64.of_f32 p in
  let conf := if gt_half p then pp else pn in
  (Qabs (SF2Q pn + SF2Q pp - 1) <= 1 # 1000000)%Q /\
  conf = F64.max pn pp /\
  F64.leb F64.half conf = true /\
  is_finite pn = true /\ is_finite pp = true /\ is_finite conf = true.
Proof.
  intros Vp H0 H1 pn pp conf.
  destruct (f32_unit_interval p Vp H0 H1) as (Fp & Hv).
  destruct (float_one_minus_spec p Vp Fp Hv) as (Vpn & Fpn & HA & HB & HC).
  destruct (of_f32_spec p Vp Fp) as (Vpp & Fpp & Zpp).
  fold pn in Vpn, Fpn, HA, HB, HC. fold pp in Vpp, Fpp, Zpp, HA, HB, HC.
  set (v := Zval32 p) in *. set (zn := Zval64 pn) in *.
  assert (HS : 0 < 2 ^ 925) by reflexivity.
  assert (E1 : 2 ^ 1074 = 2 ^ 149 * 2 ^ 925) by reflexivity.
  assert (E2 : 2 ^ 1073 = 2 ^ 148 * 2 ^ 925) by reflexivity.
  assert (Hhalf : Zval64 F64.half = 2 ^ 1073) by reflexivity.
  assert (Hlt : gt_half p = (2 ^ 148 <? v)) by (apply gt_half_Zval; assumption).
  assert (Hmax : F64.ltb pn pp = (zn <? Zval64 pp)).
  { unfold F64.ltb. rewrite (SFltb_Zval F64.prec F64.emax f64_prec_pos) by assumption.
    reflexivity. }
  assert (Hconf : conf = F64.max pn pp /\ F64.leb F64.half conf = true /\ is_finite conf = true).
  { unfold conf, F64.max. rewrite Hlt, Hmax.
    destruct (Z.ltb_spec (2 ^ 148) v) as [Hgt | Hle].
    - assert (Hn : zn <= 2 ^ 1073) by (apply HB; rewrite Zpp; nia).
      replace (zn <? Zval64 pp) with true by (symmetry; apply Z.ltb_lt; rewrite Zpp; nia).
      split; [reflexivity|]. split; [|assumption].
      unfold F64.leb. rewrite (SFleb_Zval F64.prec F64.emax f64_prec_pos)
        by (assumption || reflexivity).
      apply Z.leb_le. rewrite Hhalf, Zpp. nia.
    - assert (Hn : 2 ^ 1073 <= zn) by (apply HC; rewrite Zpp; nia).
      replace (zn <? Zval64 pp) with false by (symmetry; apply Z.ltb_ge; rewrite Zpp; nia).
      split; [reflexivity|]. split; [|assumption].
      unfold F64.leb. rewrite (SFleb_Zval F64.prec F64.emax f64_prec_pos)
        by (assumption || reflexivity).
      apply Z.leb_le. rewrite Hhalf. exact Hn. }
  split; [|tauto].
  assert (Hsum : (SF2Q pn + SF2Q pp - 1 ==
                  inject_Z (zn + Zval64 pp - 2 ^ 1074) * 2 ^ (-1074))%Q).
  { rewrite (SF2Q_Zval64 pn Vpn), (SF2Q_Zval64 pp Vpp). fold zn.
    assert (E : (1 == inject_Z (2 ^ 1074) * 2 ^ (-1074))%Q) by (vm_compute; reflexivity).
    rewrite E at 1.
    unfold Z.sub. rewrite !inject_Z_plus, inject_Z_opp. ring. }
  rewrite Hsum. apply Qabs_scaled with (B := 2 ^ 1050).
  - apply Z.abs_le. lia.
  - vm_compute. discriminate.
Qed.
End PredictionFields.

(** ** Arrays and [preprocess_image] *)

Section NdInduction.
Context {A : Type} (P : ndarray A -> Prop).
Hypothesis P_scalar : forall x, P (Scalar x).
Hypothesis P_arr : forall items, Forall P items -> P (Arr items).

Fixpoint ndarray_nested_ind (a : ndarray A) : P a :=
  match a with
  | Scalar x => P_scalar x
  | Arr items =>
      P_arr items
        ((fix all (l : list (ndarray A)) : Forall P l :=
            match l with
            | [] => Forall_nil P
            | x :: rest => Forall_cons x (ndarray_nested_ind x) (all rest)
            end) items)
  end.
End NdInduction.


Lemma nd_map_nd_map {A B C : Type} (f : A -> B) (g : B -> C) (a : ndarray A) :
  nd_map g (nd_map f a) = nd_map (fun x => g (f x)) a.
Proof.
  induction a as [x | items IH] using ndarray_nested_ind; cbn [nd_map].
  - reflexivity.
  - f_equal. rewrite map_map. apply map_ext_Forall. exact IH.
Qed.


Lemma pixel_scaled_range (b : Byte.byte) :
  let v := F32.div (@float32_of_uint8 b) F32.c255 in
  F32.valid v = true /\ F32.leb F32.zero v = true /\ F32.leb v F32.one = true.
Proof. destruct b; vm_compute; repeat split. Qed.

Section Preprocess.
Context {L : Lib}.



End Preprocess.

(** ** The handlers *)

Section Handlers.
Context {L : Lib}.

Lemma make_prediction_run (arr : ndarray F32.t) (st : state) (m : Model) (p : F32.t) :
  g_model st = Some m -> model_predict m arr = inr p ->
  make_prediction arr st =
  (Return (result_of p (g_model_name st) (clock st)),
   mkState (g_model st) (g_model_name st) (clock st) (EvModelPredict :: trace st)).
Proof.
  intros Hm Hp. destruct st as [gm gn ck tr]. cbn [g_model] in Hm. subst gm.
  run. cbn [g_model g_model_name clock trace]. rewrite Hp. reflexivity.
Qed.

Lemma make_prediction_no_model (arr : ndarray F32.t) (st : state) :
  g_model st = None ->
  make_prediction arr st =
  (Raise (HTTPException 503 "Modelo no disponible. Verifica carpeta 'models/'"), st).
Proof. intros Hm. run. rewrite Hm. reflexivity. Qed.

Lemma predict_not_image (file : UploadFile) (st : state) (ct : string) :
  content_type file = Some ct -> String.prefix "image/" ct = false ->
  predict file st =
  (Raise (HTTPException 400 ("Archivo debe ser imagen. Recibido: " ++ ct)), st).
Proof. intros Hct Hp. run. rewrite Hct, Hp. reflexivity. Qed.

Lemma predict_no_content_type (file : UploadFile) (st : state) :
  content_type file = None ->
  predict file st =
  (processing_failure "'NoneType' object has no attribute 'startswith'",
   mkState (g_model st) (g_model_name st) (clock st)
     (EvLog ERROR (MsgError "'NoneType' object has no attribute 'startswith'") :: trace st)).
Proof. intros Hct. run. rewrite Hct. reflexivity. Qed.

Lemma predict_too_large (file : UploadFile) (st : state) (ct : string) :
  content_type file = Some ct -> String.prefix "image/" ct = true ->
  Z.of_nat (List.length (contents file)) > MAX_BYTES ->
  predict file st = (Raise (HTTPException 413 "Imagen muy grande. Máximo: 10 MB"), st).
Proof.
  intros Hct Hp Hlen. run. rewrite Hct, Hp.
  replace (Z.of_nat (List.length (contents file)) >? MAX_BYTES) with true
    by (symmetry; apply Z.gtb_lt; lia).
  reflexivity.
Qed.

Lemma predict_classify (file : UploadFile) (st : state) (ct : string) :
  content_type file = Some ct -> String.prefix "image/" ct = true ->
  Z.of_nat (List.length (contents file)) <= MAX_BYTES ->
  fst (predict file st) = classify (g_model st) (g_model_name st) (clock st) (contents file) /\
  same_globals (snd (predict file st)) st.
Proof.
  intros Hct Hp Hlen. run. rewrite Hct, Hp.
  assert (Hg : (Z.of_nat (List.length (contents file)) >? MAX_BYTES) = false)
    by (rewrite Z.gtb_ltb; apply Z.ltb_ge; lia).
  rewrite Hg.
  unfold classify, processing_failure, same_globals. cbv beta iota delta [negb].
  destruct (Image_open (contents file)) as [msg | image]; [split; [reflexivity | split; reflexivity]|].
  cbn [g_model g_model_name clock trace].
  destruct (g_model st) as [m|]; [|split; [reflexivity | split; reflexivity]].
  destruct (model_predict m (preprocess_image image)) as [msg | p];
    [split; [reflexivity | split; reflexivity]|].
  cbn [g_model g_model_name clock trace].
  fold (result_of p (g_model_name st) (clock st)).
  cbn [r_prediction r_confidence r_prob_normal r_prob_pneumonia].
  fold (json_compliant (result_of p (g_model_name st) (clock st))).
  destruct (json_compliant _); split; try reflexivity; split; reflexivity.
Qed.

Lemma predict_base64_missing (data : dict) (st : state) :
  dict_get data "image" = None ->
  predict_base64 data st =
  (Raise (HTTPException 400
            ("Campo " ++ dquote ++ "image" ++ dquote ++ " requerido con string base64")),
   st).
Proof. intros Hget. run. rewrite Hget. reflexivity. Qed.

Lemma predict_base64_undecodable (data : dict) (st : state) (v : json) (e : string) :
  dict_get data "image" = Some v -> py_b64decode v = inl e ->
  predict_base64 data st =
  (Raise (HTTPException 400 ("Error decodificando base64: " ++ e)), st).
Proof. intros Hget Hdec. run. rewrite Hget, Hdec. reflexivity. Qed.

Lemma predict_base64_classify (data : dict) (st : state) (v : json) (raw : bytes) :
  dict_get data "image" = Some v -> py_b64decode v = inr raw ->
  fst (predict_base64 data st) = classify (g_model st) (g_model_name st) (clock st) raw /\
  same_globals (snd (predict_base64 data st)) st.
Proof.
  intros Hget Hdec. run. rewrite Hget, Hdec.
  unfold classify, processing_failure, same_globals.
  destruct (Image_open raw) as [msg | image]; [split; [reflexivity | split; reflexivity]|].
  cbn [g_model g_model_name clock trace].
  destruct (g_model st) as [m|]; [|split; [reflexivity | split; reflexivity]].
  destruct (model_predict m (preprocess_image image)) as [msg | p];
    [split; [reflexivity | split; reflexivity]|].
  cbn [g_model g_model_name clock trace].
  fold (result_of p (g_model_name st) (clock st)).
  cbn [r_prediction r_confidence r_prob_normal r_prob_pneumonia].
  fold (json_compliant (result_of p (g_model_name st) (clock st))).
  destruct (json_compliant _); split; try reflexivity; split; reflexivity.
Qed.

Lemma same_globals_refl (st : state) : same_globals st st.
Proof. split; reflexivity. Qed.

(** No handler assigns the globals. *)
Lemma predict_globals (file : UploadFile) (st : state) :
  same_globals (snd (predict file st)) st.
Proof.
  destruct (content_type file) as [ct|] eqn:Hct.
  - destruct (String.prefix "image/" ct) eqn:Hp.
    + destruct (Z_le_gt_dec (Z.of_nat (List.length (contents file))) MAX_BYTES) as [Hle | Hgt].
      * apply (predict_classify file st ct Hct Hp Hle).
      * rewrite (predict_too_large file st ct Hct Hp Hgt). apply same_globals_refl.
    + rewrite (predict_not_image file st ct Hct Hp). apply same_globals_refl.
  - rewrite (predict_no_content_type file st Hct). split; reflexivity.
Qed.

Lemma predict_base64_globals (data : dict) (st : state) :
  same_globals (snd (predict_base64 data st)) st.
Proof.
  destruct (dict_get data "image") as [v|] eqn:Hget.
  - destruct (py_b64decode v) as [e | raw] eqn:Hdec.
    + rewrite (predict_base64_undecodable data st v e Hget Hdec). apply same_globals_refl.
    + apply (predict_base64_classify data st v raw Hget Hdec).
  - rewrite (predict_base64_missing data st Hget). apply same_globals_refl.
Qed.

Lemma health_check_run (st : state) :
  health_check st =
  (Return (mkHealth (if is_some (g_model st) then "healthy" else "degraded")
             (is_some (g_model st))
             (if is_some (g_model st) then g_model_name st else Some "None")
             (clock st)
             (if is_some (g_model st) then "API funcionando correctamente"
              else "API sin modelo cargado")),
   st).
Proof. reflexivity. Qed.

(** The answers of [classify]. *)
Lemma classify_status (model : option Model) (name : option string) (now : string)
    (raw : bytes) :
  status_of (classify model name now raw) = 200 \/
  status_of (classify model name now raw) = 500 \/
  status_of (classify model name now raw) = 503.
Proof.
  unfold classify, processing_failure.
  destruct (Image_open raw); [cbn; auto|].
  destruct model; [|cbn; auto].
  destruct (model_predict _ _); [cbn; auto|].
  destruct (json_compliant _); cbn; auto.
Qed.


(** [classify] does not read the clock, except for the timestamp. *)
Lemma classify_same_fields (model : option Model) (name : option string)
    (now1 now2 : string) (raw : bytes) :
  same_fields (classify model name now1 raw) (classify model name now2 raw).
Proof.
  unfold classify, processing_failure.
  destruct (Image_open raw); [reflexivity|].
  destruct model; [|reflexivity].
  destruct (model_predict _ _) as [msg | p]; [reflexivity|].
  change (json_compliant (result_of p name now1))
    with (json_compliant (result_of p name now2)).
  destruct (json_compliant _); cbn; auto.
Qed.
Lemma status_of_classify_not (model : option Model) (name : option string) (now : string)
    (raw : bytes) (code : Z) :
  code <> 200 -> code <> 500 -> code <> 503 ->
  status_of (classify model name now raw) <> code.
Proof.
  intros. destruct (classify_status model name now raw) as [E | [E | E]]; rewrite E; auto.
Qed.

Lemma predict_status_400 (file : UploadFile) (st : state) :
  status_of (fst (predict file st)) = 400 <->
  exists ct, content_type file = Some ct /\ String.prefix "image/" ct = false.
Proof.
  destruct (content_type file) as [ct|] eqn:Hct.
  - destruct (String.prefix "image/" ct) eqn:Hp.
    + split; [|intros (ct' & E & Hp'); injection E as <-; congruence].
      destruct (Z_le_gt_dec (Z.of_nat (List.length (contents file))) MAX_BYTES) as [Hle | Hgt].
      * destruct (predict_classify file st ct Hct Hp Hle) as [-> _].
        intros E. exfalso. revert E. apply status_of_classify_not; discriminate.
      * rewrite (predict_too_large file st ct Hct Hp Hgt). discriminate.
    + rewrite (predict_not_image file st ct Hct Hp).
      split; [exists ct; auto | reflexivity].
  - rewrite (predict_no_content_type file st Hct).
    split; [discriminate | intros (ct & E & _); discriminate].
Qed.

Lemma predict_base64_never_413 (data : dict) (st : state) :
  status_of (fst (predict_base64 data st)) <> 413.
Proof.
  destruct (dict_get data "image") as [v|] eqn:Hget.
  - destruct (py_b64decode v) as [e | raw] eqn:Hdec.
    + rewrite (predict_base64_undecodable data st v e Hget Hdec). discriminate.
    + destruct (predict_base64_classify data st v raw Hget Hdec) as [-> _].
      apply status_of_classify_not; discriminate.
  - rewrite (predict_base64_missing data st Hget). discriminate.
Qed.

Lemma same_fields_refl (o : outcome prediction_result) : same_fields o o.
Proof. destruct o; cbn; auto. Qed.

(** The answer of [/predict] depends on the globals and the request only. *)
Lemma predict_same_fields (file : UploadFile) (st1 st2 : state) :
  same_globals st1 st2 ->
  same_fields (fst (predict file st1)) (fst (predict file st2)).
Proof.
  intros [Hm Hn].
  destruct (content_type file) as [ct|] eqn:Hct.
  - destruct (String.prefix "image/" ct) eqn:Hp.
    + destruct (Z_le_gt_dec (Z.of_nat (List.length (contents file))) MAX_BYTES) as [Hle | Hgt].
      * destruct (predict_classify file st1 ct Hct Hp Hle) as [-> _].
        destruct (predict_classify file st2 ct Hct Hp Hle) as [-> _].
        rewrite Hm, Hn. apply classify_same_fields.
      * rewrite !(predict_too_large file _ ct Hct Hp Hgt). reflexivity.
    + rewrite !(predict_not_image file _ ct Hct Hp). reflexivity.
  - rewrite !(predict_no_content_type file _ Hct). reflexivity.
Qed.

Lemma predict_base64_same_fields (data : dict) (st1 st2 : state) :
  same_globals st1 st2 ->
  same_fields (fst (predict_base64 data st1)) (fst (predict_base64 data st2)).
Proof.
  intros [Hm Hn].
  destruct (dict_get data "image") as [v|] eqn:Hget.
  - destruct (py_b64decode v) as [e | raw] eqn:Hdec.
    + rewrite !(predict_base64_undecodable data _ v e Hget Hdec). reflexivity.
    + destruct (predict_base64_classify data st1 v raw Hget Hdec) as [-> _].
      destruct (predict_base64_classify data st2 v raw Hget Hdec) as [-> _].
      rewrite Hm, Hn. apply classify_same_fields.
  - rewrite !(predict_base64_missing data _ Hget). reflexivity.
Qed.
End Handlers.

Lemma oversized_length : Z.of_nat (List.length oversized) = MAX_BYTES + 1.
Proof.
  unfold oversized. rewrite repeat_length. apply Z2Nat.id. discriminate.
Qed.

(** ** Start-up *)

Section StartupLemmas.
Context {L : Lib}.

Lemma load_first_run (candidates : list (string * string)) : forall st : state,
  exists tr,
    fst (load_first candidates st) = Return tt /\
    trace (snd (load_first candidates st)) = (tr ++ trace st)%list /\
    clock (snd (load_first candidates st)) = clock st /\
    rev (probes tr) = map candidate_path (attempted candidates) /\
    rev (loads tr) = map candidate_path (filter existing (attempted candidates)) /\
    match first_loadable candidates with
    | Some (m, name) =>
        g_model (snd (load_first candidates st)) = Some m /\
        g_model_name (snd (load_first candidates st)) = Some name
    | None =>
        g_model (snd (load_first candidates st)) = g_model st /\
        g_model_name (snd (load_first candidates st)) = g_model_name st
    end.
Proof.
  induction candidates as [|[filename name] rest IH]; intros st.
  - exists []. cbn. repeat split.
  - cbn [load_first first_loadable attempted fst snd].
    unfold loadable. cbn [fst snd].
    cbv beta iota zeta delta [bind emit ret set_model logger_info logger_error].
    cbn [g_model g_model_name clock trace].
    destruct (path_exists (model_path filename)) eqn:Hex; cbn [andb]; cbv beta iota;
      cbn [g_model g_model_name clock trace].
    + destruct (load_model (model_path filename)) as [e | m] eqn:Hload; cbv beta iota;
        cbn [g_model g_model_name clock trace].
      * (* the file exists and does not load: continue *)
        match goal with |- context [load_first rest ?s] => destruct (IH s) as (tr & H1 & H2 & H3 & H4 & H5 & H6) end.
        cbn [g_model g_model_name clock trace] in H2, H3, H6.
        exists (tr ++ [EvLog ERROR (MsgModelLoadError name e);
                       EvLoadModel (model_path filename);
                       EvPathExists (model_path filename)])%list.
        split; [exact H1|]. split; [rewrite H2, <- app_assoc; reflexivity|].
        split; [exact H3|].
        unfold probes, loads in *. rewrite !flat_map_app, !rev_app_distr.
        cbn [flat_map app rev filter map fst]. unfold existing at 1, candidate_path at 1 3. cbn [fst].
        rewrite Hex. cbn [map fst]. rewrite H4, H5.
        split; [reflexivity|]. split; [reflexivity|]. exact H6.
      * (* loaded: break *)
        exists [EvLog INFO (MsgModelLoaded name);
                EvLoadModel (model_path filename);
                EvPathExists (model_path filename)].
        cbn [fst snd g_model g_model_name clock trace filter map probes loads flat_map app rev].
        unfold existing, candidate_path. cbn [fst]. rewrite Hex. repeat split.
    + (* no such file: next candidate *)
      match goal with |- context [load_first rest ?s] => destruct (IH s) as (tr & H1 & H2 & H3 & H4 & H5 & H6) end.
      cbn [g_model g_model_name clock trace] in H2, H3, H6.
      exists (tr ++ [EvPathExists (model_path filename)])%list.
      split; [exact H1|]. split; [rewrite H2, <- app_assoc; reflexivity|].
      split; [exact H3|].
      unfold probes, loads in *. rewrite !flat_map_app, !rev_app_distr.
      cbn [flat_map app rev filter map fst]. unfold existing at 1, candidate_path at 1. cbn [fst].
      rewrite Hex. rewrite H4, H5.
      split; [reflexivity|]. split; [reflexivity|]. exact H6.
Qed.

Lemma unloadable_iff (c : string * string) : unloadable c <-> loadable c = false.
Proof.
  unfold unloadable, loadable.
  destruct (path_exists (model_path (fst c))); cbn [andb].
  - destruct (load_model (model_path (fst c))) as [e | m].
    + split; [reflexivity | right; exists e; reflexivity].
    + split; [intros [H | [e H]]; discriminate | discriminate].
  - split; [reflexivity | left; reflexivity].
Qed.

Lemma first_loadable_some (candidates : list (string * string)) (m : Model) (name : string) :
  first_loadable candidates = Some (m, name) ->
  exists before f after,
    candidates = (before ++ (f, name) :: after)%list /\
    Forall unloadable before /\
    path_exists (model_path f) = true /\ load_model (model_path f) = inr m /\
    attempted candidates = (before ++ [(f, name)])%list.
Proof.
  induction candidates as [|[f n] rest IH]; cbn [first_loadable attempted fst snd]; [discriminate|].
  intros H. destruct (loadable (f, n)) eqn:Hl.
  - unfold loadable in Hl. cbn [fst] in Hl.
    destruct (path_exists (model_path f)) eqn:Hex; [|discriminate].
    destruct (load_model (model_path f)) as [e | m'] eqn:Hload; [discriminate|].
    injection H as -> ->.
    exists [], f, rest. repeat split; auto.
  - assert (Hrest : first_loadable rest = Some (m, name)).
    { unfold loadable in Hl. cbn [fst] in Hl.
      destruct (path_exists (model_path f)); [|exact H].
      destruct (load_model (model_path f)); [exact H | discriminate]. }
    destruct (IH Hrest) as (before & f' & after & -> & Hb & Hex & Hload & Hatt).
    exists ((f, n) :: before), f', after. rewrite Hatt.
    repeat split; auto.
    constructor; [apply unloadable_iff; exact Hl | exact Hb].
Qed.

Lemma first_loadable_none (candidates : list (string * string)) :
  first_loadable candidates = None ->
  Forall unloadable candidates /\ attempted candidates = candidates.
Proof.
  induction candidates as [|[f n] rest IH]; cbn [first_loadable attempted fst snd].
  - split; [constructor | reflexivity].
  - intros H. assert (Hl : loadable (f, n) = false /\ first_loadable rest = None).
    { unfold loadable. cbn [fst].
      destruct (path_exists (model_path f)); [|split; [reflexivity | exact H]].
      destruct (load_model (model_path f)); [split; [reflexivity | exact H] | discriminate]. }
    destruct Hl as [Hl Hrest]. rewrite Hl. destruct (IH Hrest) as [Hall Hatt].
    rewrite Hatt. split; [|reflexivity].
    constructor; [apply unloadable_iff; exact Hl | exact Hall].
Qed.

Lemma first_loadable_all_unloadable (candidates : list (string * string)) :
  Forall unloadable candidates -> first_loadable candidates = None.
Proof.
  induction 1 as [|[f n] rest Hc _ IH]; cbn [first_loadable fst snd]; [reflexivity|].
  apply unloadable_iff in Hc. unfold loadable in Hc. cbn [fst] in Hc.
  destruct (path_exists (model_path f)); [|exact IH].
  destruct (load_model (model_path f)); [exact IH | discriminate].
Qed.

Lemma append_inv_head (s a b : string) : s ++ a = s ++ b -> a = b.
Proof.
  induction s as [|c s IH]; cbn [String.append]; [auto|].
  intros H. injection H as H. auto.
Qed.

Lemma candidate_path_inj (c c' : string * string) :
  candidate_path c = candidate_path c' -> fst c = fst c'.
Proof.
  unfold candidate_path, model_path. intros H.
  apply append_inv_head in H. apply append_inv_head in H. exact H.
Qed.

Lemma NoDup_app_disjoint {A : Type} (l1 l2 : list A) (a : A) :
  NoDup (l1 ++ l2) -> In a l1 -> In a l2 -> False.
Proof.
  induction l1 as [|x l1 IH]; cbn [app In]; [tauto|].
  intros ND [-> | Hin] H2; inversion ND as [|? ? Hx ND']; subst.
  - apply Hx, in_or_app. right. exact H2.
  - exact (IH ND' Hin H2).
Qed.

Lemma later_not_attempted (before after : list (string * string)) (c c' : string * string) :
  NoDup (map fst (before ++ c :: after)) -> In c' after ->
  ~ In (candidate_path c') (map candidate_path (before ++ [c])).
Proof.
  intros ND Hin Hp. apply in_map_iff in Hp as (c'' & Heq & Hin'').
  apply candidate_path_inj in Heq.
  replace (before ++ c :: after)%list with ((before ++ [c]) ++ after)%list in ND
    by (rewrite <- app_assoc; reflexivity).
  rewrite map_app in ND.
  apply (NoDup_app_disjoint _ _ (fst c') ND).
  - rewrite <- Heq. apply in_map. exact Hin''.
  - apply in_map. exact Hin.
Qed.

Lemma model_priority_NoDup : NoDup (map fst model_priority).
Proof.
  cbn. repeat constructor; cbn; intuition discriminate.
Qed.

Lemma startup_run (now : string) :
  let st1 := snd (load_first model_priority (initial_state now)) in
  exists ev,
    snd (startup (initial_state now)) =
    mkState (g_model st1) (g_model_name st1) (clock st1) (EvLog (fst ev) (snd ev) :: trace st1).
Proof.
  intros st1. unfold startup, bind.
  destruct (load_first_run model_priority (initial_state now)) as (tr & H1 & _).
  fold st1. destruct (load_first model_priority (initial_state now)) as [o s] eqn:E.
  cbn [fst snd] in *. subst o st1.
  unfold get_model. destruct (g_model s) eqn:Hm.
  - exists (INFO, MsgApiReady (g_model_name s)). cbn. rewrite Hm. reflexivity.
  - exists (ERROR, MsgNoModel). cbn. rewrite Hm. reflexivity.
Qed.
End StartupLemmas.



(** * The claims *)

Section Claims.
Context {L : Lib}.

(** C1: the predicted label is PNEUMONIA exactly when the model output [p]
  satisfies [p > 0.5]; it is NORMAL otherwise, in particular at
  [p == 0.5].  For a finite output the test is the comparison of the exact
  value with one half, whichever way NumPy promotes the operands. *)
Theorem C1_pneumonia_iff_above_half
    (st : state) (m : Model) (img_array : ndarray F32.t) (p : F32.t) :
  g_model st = Some m -> model_predict m img_array = inr p ->
  exists r st',
    make_prediction img_array st = (Return r, st') /\
    (r_prediction r = "PNEUMONIA" <-> gt_half p = true) /\
    (r_prediction r = "NORMAL" <-> gt_half p = false) /\
    (F32.eqb p F32.half = true -> r_prediction r = "NORMAL") /\
    (F32.valid p = true ->
     (r_prediction r = "PNEUMONIA" <-> F32.ltb F32.half p = true)) /\
    (F32.valid p = true -> is_finite p = true ->
     (r_prediction r = "PNEUMONIA" <-> (1 # 2 < SF2Q p)%Q)).
Proof.
  intros Hm Hp. rewrite (make_prediction_run img_array st m p Hm Hp).
  eexists. eexists. split; [reflexivity|].
  unfold result_of. cbn [r_prediction].
  assert (Hlab : (if gt_half p then "PNEUMONIA" else "NORMAL") = "PNEUMONIA"
                 <-> gt_half p = true).
  { destruct (gt_half p); split; (reflexivity || discriminate). }
  split; [exact Hlab|]. split; [|split; [|split]].
  - destruct (gt_half p); split; (reflexivity || discriminate).
  - intros He. rewrite (SFeqb_half p He), gt_half_at_half. reflexivity.
  - intros Vp. rewrite Hlab, (gt_half_ltb p Vp). reflexivity.
  - intros Vp Fp. rewrite Hlab. apply gt_half_exact; assumption.
Qed.

(** C2: for a model output [p] in [0, 1], the NORMAL probability is
  [float(1 - p)] and the PNEUMONIA probability is [float(p)], which has the
  value of [p]; their exact values sum to 1 within 1e-6 (the subtraction
  rounds, in float32 or in float64); the confidence is Python's [max] of
  the two and is at least 0.5. *)
Theorem C2_probabilities_and_confidence
    (st : state) (m : Model) (img_array : ndarray F32.t) (p : F32.t) :
  g_model st = Some m -> model_predict m img_array = inr p ->
  F32.valid p = true ->
  F32.leb F32.zero p = true -> F32.leb p F32.one = true ->
  exists r st',
    make_prediction img_array st = (Return r, st') /\
    r_prob_normal r = float_one_minus p /\
    r_prob_pneumonia r = F64.of_f32 p /\
    (SF2Q (r_prob_pneumonia r) == SF2Q p)%Q /\
    (Qabs (SF2Q (r_prob_normal r) + SF2Q (r_prob_pneumonia r) - 1) <= 1 # 1000000)%Q /\
    r_confidence r = F64.max (r_prob_normal r) (r_prob_pneumonia r) /\
    F64.leb F64.half (r_confidence r) = true.
Proof.
  intros Hm Hp Vp H0 H1. rewrite (make_prediction_run img_array st m p Hm Hp).
  eexists. eexists. split; [reflexivity|].
  unfold result_of. cbn [r_prob_normal r_prob_pneumonia r_confidence].
  destruct (prediction_fields_spec p Vp H0 H1) as (Hsum & Hconf & Hhalf & _).
  split; [reflexivity|]. split; [reflexivity|]. split; [|tauto].
  destruct (f32_unit_interval p Vp H0 H1) as (Fp & _).
  destruct (of_f32_spec p Vp Fp) as (Vpp & _ & Zpp).
  rewrite (SF2Q_Zval64 _ Vpp), (SF2Q_Zval32 p Vp), Zpp.
  rewrite inject_Z_mult, <- Qmult_assoc.
  apply Qmult_comp; [reflexivity|]. vm_compute. reflexivity.
Qed.


(** C4 (amended): when the "image" field decodes as base64 and the bytes
  are not an image, [/predict_base64] answers 500 with the decoder's
  message (the generic [except] clause), not 400. *)
Theorem C4_undecodable_image_is_500
    (data : dict) (st : state) (v : json) (raw : bytes) (msg : string) :
  dict_get data "image" = Some v -> py_b64decode v = inr raw ->
  Image_open raw = inl msg ->
  fst (predict_base64 data st) =
    Raise (HTTPException 500 ("Error procesando imagen: " ++ msg)) /\
  status_of (fst (predict_base64 data st)) = 500.
Proof.
  intros Hget Hdec Hopen.
  destruct (predict_base64_classify data st v raw Hget Hdec) as [-> _].
  unfold classify. rewrite Hopen. split; reflexivity.
Qed.

(** C5 (amended): [/predict] rejects a declared content type that is not
  an image type with 400; it rejects a payload over 10 MiB with 413 when
  the content type is an image type.  In both cases nothing else has
  happened: the state, and so the trace, is the one before the request,
  and [Image.open] was not called. *)
Theorem C5_rejected_before_decoding (file : UploadFile) (st : state) (ct : string) :
  content_type file = Some ct ->
  (String.prefix "image/" ct = false ->
   predict file st =
     (Raise (HTTPException 400 ("Archivo debe ser imagen. Recibido: " ++ ct)), st)) /\
  (String.prefix "image/" ct = true ->
   Z.of_nat (List.length (contents file)) > MAX_BYTES ->
   predict file st =
     (Raise (HTTPException 413 "Imagen muy grande. Máximo: 10 MB"), st)).
Proof.
  intros Hct. split.
  - intros Hp. apply predict_not_image; assumption.
  - intros Hp Hlen. apply (predict_too_large file st ct); assumption.
Qed.



(** C8 (amended): for image bytes of at most 10 MiB uploaded with an image
  content type, [/predict] and [/predict_base64] on the base64 text of the
  same bytes give the same prediction, confidence and probabilities, or
  the same error.  On either endpoint, two runs of one request in states
  with the same globals agree in the same way, whatever the clock and the
  trace; and no request changes the globals. *)
Theorem C8_same_answer_no_state
    (st1 st2 : state) (file : UploadFile) (data : dict) (ct : string) :
  same_globals st1 st2 ->
  content_type file = Some ct -> String.prefix "image/" ct = true ->
  Z.of_nat (List.length (contents file)) <= MAX_BYTES ->
  dict_get data "image" = Some (JString (b64encode (contents file))) ->
  b64decode (b64encode (contents file)) = inr (contents file) ->
  same_fields (fst (predict file st1)) (fst (predict_base64 data st2)) /\
  (forall file', same_fields (fst (predict file' st1)) (fst (predict file' st2))) /\
  (forall data', same_fields (fst (predict_base64 data' st1))
                             (fst (predict_base64 data' st2))) /\
  (forall file' st, same_globals (snd (predict file' st)) st) /\
  (forall data' st, same_globals (snd (predict_base64 data' st)) st) /\
  (forall st, snd (health_check st) = st).
Proof.
  intros Hg Hct Hp Hle Hget Hdec.
  split; [|split; [|split; [|split; [|split]]]].
  - destruct (predict_classify file st1 ct Hct Hp Hle) as [-> _].
    destruct (predict_base64_classify data st2 _ (contents file) Hget Hdec) as [-> _].
    destruct Hg as [-> ->]. apply classify_same_fields.
  - intros file'. apply predict_same_fields. exact Hg.
  - intros data'. apply predict_base64_same_fields. exact Hg.
  - intros file' st. apply predict_globals.
  - intros data' st. apply predict_base64_globals.
  - intros st. reflexivity.
Qed.

(** C9: at start-up the candidates of [model_priority] are tried in order.
  Either some candidate is the first that exists and loads: it becomes the
  model, its name the reported name, every candidate before it was probed
  (and loaded when it exists), and no candidate after it was probed or
  loaded.  Or no candidate exists and loads, and the model stays [None].
  The model is [None] exactly in the second case. *)
Theorem C9_first_loadable_candidate (now : string) :
  let st' := snd (startup (initial_state now)) in
  ((exists before f name after m,
      model_priority = (before ++ (f, name) :: after)%list /\
      Forall unloadable before /\
      path_exists (model_path f) = true /\ load_model (model_path f) = inr m /\
      g_model st' = Some m /\ g_model_name st' = Some name /\
      probed st' = map candidate_path (before ++ [(f, name)]) /\
      loaded st' = (map candidate_path (filter existing before) ++ [model_path f])%list /\
      (forall c, In c after ->
         ~ In (candidate_path c) (probed st') /\ ~ In (candidate_path c) (loaded st')))
   \/
   (Forall unloadable model_priority /\
    g_model st' = None /\ g_model_name st' = None /\
    probed st' = map candidate_path model_priority /\
    loaded st' = map candidate_path (filter existing model_priority))) /\
  (g_model st' = None <-> Forall unloadable model_priority).
Proof.
  intros st'.
  destruct (startup_run now) as (ev & Hrun). cbv zeta in Hrun. fold st' in Hrun.
  destruct (load_first_run model_priority (initial_state now))
    as (tr & _ & Htr & _ & Hprobes & Hloads & Hglob).
  set (st1 := snd (load_first model_priority (initial_state now))) in *.
  cbn [initial_state trace] in Htr. rewrite app_nil_r in Htr.
  assert (Hp : probed st' = map candidate_path (attempted model_priority)).
  { unfold probed. rewrite Hrun. cbn [trace]. rewrite Htr. exact Hprobes. }
  assert (Hl : loaded st' = map candidate_path (filter existing (attempted model_priority))).
  { unfold loaded. rewrite Hrun. cbn [trace]. rewrite Htr. exact Hloads. }
  assert (Hgm : g_model st' = g_model st1) by (rewrite Hrun; reflexivity).
  assert (Hgn : g_model_name st' = g_model_name st1) by (rewrite Hrun; reflexivity).
  destruct (first_loadable model_priority) as [[m name]|] eqn:Hfirst.
  - destruct Hglob as [Hm Hn].
    destruct (first_loadable_some _ m name Hfirst)
      as (before & f & after & Hsplit & Hb & Hex & Hload & Hatt).
    assert (Hfilter : filter existing (before ++ [(f, name)])
                      = (filter existing before ++ [(f, name)])%list).
    { rewrite filter_app. cbn [filter]. unfold existing at 2. cbn [fst].
      rewrite Hex. reflexivity. }
    split.
    + left. exists before, f, name, after, m.
      rewrite Hp, Hl, Hatt, Hfilter, Hgm, Hgn, Hm, Hn.
      repeat split; auto.
      * rewrite map_app. reflexivity.
      * apply (later_not_attempted before after (f, name) c); [|assumption].
        rewrite <- Hsplit. apply model_priority_NoDup.
      * intros Hin.
        apply (later_not_attempted before after (f, name) c);
          [rewrite <- Hsplit; apply model_priority_NoDup | assumption |].
        rewrite <- Hfilter in Hin.
        apply in_map_iff in Hin as (c' & Hc' & Hin).
        apply in_map_iff. exists c'. split; [exact Hc'|].
        apply filter_In in Hin. tauto.
    + rewrite Hgm, Hm. split; [discriminate|].
      intros Hall. rewrite (first_loadable_all_unloadable _ Hall) in Hfirst. discriminate.
  - destruct Hglob as [Hm Hn]. cbn [initial_state g_model g_model_name] in Hm, Hn.
    destruct (first_loadable_none _ Hfirst) as [Hall Hatt].
    split.
    + right. rewrite Hp, Hl, Hatt, Hgm, Hgn, Hm, Hn. repeat split; auto.
    + rewrite Hgm, Hm. tauto.
Qed.

(** C10: an upload with no declared content type makes the content-type
  test itself fail ([None] has no [startswith]); the failure is caught by
  the handler and answered 500, not 400.  The answer is 400 only for a
  declared content type that does not start with "image/". *)
Theorem C10_missing_content_type_is_500 (file : UploadFile) (st : state) :
  (content_type file = None ->
   fst (predict file st) =
     Raise (HTTPException 500
              "Error procesando imagen: 'NoneType' object has no attribute 'startswith'")) /\
  (status_of (fst (predict file st)) = 400 <->
   exists ct, content_type file = Some ct /\ String.prefix "image/" ct = false).
Proof.
  split.
  - intros Hct. rewrite (predict_no_content_type file st Hct). reflexivity.
  - apply predict_status_400.
Qed.
End Claims.

(** ** The theorems at concrete requests *)

(** The oversized payload is over the limit, without building it. *)
Lemma oversized_png_length : Z.of_nat (List.length oversized_png) > MAX_BYTES.
Proof.
  unfold oversized_png. rewrite length_app, Nat2Z.inj_add, oversized_length.
  cbn [List.length png_signature]. lia.
Qed.

(** C1 at the instance: a model that answers 0.75 gives PNEUMONIA. *)
Lemma C1_witness :
  g_model demo_state = Some demo_model /\
  @model_predict demo_lib demo_model (Scalar F32.zero) = inr demo_model /\
  exists r st',
    @make_prediction demo_lib (Scalar F32.zero) demo_state = (Return r, st') /\
    r_prediction r = "PNEUMONIA".
Proof.
  split; [reflexivity|]. split; [reflexivity|].
  destruct (@C1_pneumonia_iff_above_half demo_lib demo_state demo_model
              (Scalar F32.zero) demo_model eq_refl eq_refl)
    as (r & st' & Hrun & Hlab & _).
  exists r, st'. split; [exact Hrun|]. apply Hlab. reflexivity.
Defined.

(** C2 at the instance: the output 0.75 lies in [0, 1]. *)
Lemma C2_witness :
  F32.valid demo_model = true /\
  F32.leb F32.zero demo_model = true /\ F32.leb demo_model F32.one = true /\
  exists r st',
    @make_prediction demo_lib (Scalar F32.zero) demo_state = (Return r, st') /\
    r_confidence r = F64.max (r_prob_normal r) (r_prob_pneumonia r) /\
    F64.leb F64.half (r_confidence r) = true.
Proof.
  split; [reflexivity|]. split; [reflexivity|]. split; [reflexivity|].
  destruct (@C2_probabilities_and_confidence demo_lib demo_state demo_model
              (Scalar F32.zero) demo_model eq_refl eq_refl eq_refl eq_refl eq_refl)
    as (r & st' & Hrun & _ & _ & _ & _ & Hmax & Hhalf).
  exists r, st'. auto.
Defined.

(** The text "aGVsbG8=" is the base64 of "hello", which is no image: the
  answer is 500, where the claim says 400. *)
Lemma C4_counterexample :
  @py_b64decode demo_lib (JString "aGVsbG8=") = inr (bytes_of_string "hello") /\
  @Image_open demo_lib (bytes_of_string "hello") = inl "cannot identify image file" /\
  status_of (fst (@predict_base64 demo_lib [("image", JString "aGVsbG8=")] demo_state)) = 500.
Proof. repeat split. Qed.

(** C4 at the same request. *)
Lemma C4_witness :
  fst (@predict_base64 demo_lib [("image", JString "aGVsbG8=")] demo_state) =
  Raise (HTTPException 500 "Error procesando imagen: cannot identify image file").
Proof.
  apply (@C4_undecodable_image_is_500 demo_lib [("image", JString "aGVsbG8=")] demo_state
           (JString "aGVsbG8=") (bytes_of_string "hello") "cannot identify image file");
    reflexivity.
Defined.

(** An upload over 10 MiB declared text/plain is answered 400, where the
  claim says 413. *)
Lemma C5_counterexample :
  Z.of_nat (List.length (contents oversized_text_upload)) > MAX_BYTES /\
  status_of (fst (@predict demo_lib oversized_text_upload demo_state)) = 400.
Proof.
  split; [exact oversized_png_length|].
  rewrite (@predict_not_image demo_lib oversized_text_upload demo_state "text/plain"
             eq_refl eq_refl).
  reflexivity.
Qed.

(** C5 at a text upload and at an oversized PNG upload. *)
Lemma C5_witness :
  @predict demo_lib text_upload demo_state =
    (Raise (HTTPException 400 "Archivo debe ser imagen. Recibido: text/plain"), demo_state) /\
  @predict demo_lib oversized_upload demo_state =
    (Raise (HTTPException 413 "Imagen muy grande. Máximo: 10 MB"), demo_state).
Proof.
  split.
  - apply (proj1 (@C5_rejected_before_decoding demo_lib text_upload demo_state
                    "text/plain" eq_refl)).
    reflexivity.
  - apply (proj2 (@C5_rejected_before_decoding demo_lib oversized_upload demo_state
                    "image/png" eq_refl)).
    + reflexivity.
    + exact oversized_png_length.
Defined.




(** An image over 10 MiB: [/predict] answers 413, and [/predict_base64]
  never does, whatever its body.  And a PNG uploaded as
  application/octet-stream is answered 400 by [/predict], while its base64
  text is classified by [/predict_base64]. *)
Lemma C8_counterexample :
  (@Image_open demo_lib oversized_png = inr (mkImage "L" (2%nat, 2%nat) tt) /\
   status_of (fst (@predict demo_lib oversized_upload demo_state)) = 413 /\
   status_of (fst (@predict_base64 demo_lib
                     [("image", JString (@b64encode demo_lib oversized_png))] demo_state))
     <> 413) /\
  (@b64encode demo_lib demo_png = "iVBORw0KGgo=" /\
   status_of (fst (@predict demo_lib octet_upload demo_state)) = 400 /\
   status_of (fst (@predict_base64 demo_lib [("image", JString "iVBORw0KGgo=")] demo_state))
     = 200).
Proof.
  split; split; [reflexivity | | reflexivity | ]; split.
  - rewrite (@predict_too_large demo_lib oversized_upload demo_state "image/png"
               eq_refl eq_refl oversized_png_length).
    reflexivity.
  - apply predict_base64_never_413.
  - reflexivity.
  - destruct (@predict_base64_classify demo_lib [("image", JString "iVBORw0KGgo=")]
                demo_state (JString "iVBORw0KGgo=") demo_png eq_refl eq_refl) as [-> _].
    reflexivity.
Qed.

(** C8 at the instance: the same PNG bytes through both endpoints, at
  different times and after different traces. *)
Lemma C8_witness :
  same_fields
    (fst (@predict demo_lib png_upload demo_state))
    (fst (@predict_base64 demo_lib [("image", JString "iVBORw0KGgo=")]
            (mkState (Some demo_model) (Some "VGG16 Best") "2024-05-02T08:30:00"
               [EvLog INFO (MsgApiReady (Some "VGG16 Best"))]))).
Proof.
  apply (@C8_same_answer_no_state demo_lib demo_state _ png_upload
           [("image", JString "iVBORw0KGgo=")] "image/png").
  - split; reflexivity.
  - reflexivity.
  - reflexivity.
  - discriminate.
  - reflexivity.
  - reflexivity.
Defined.

(** C10 at an upload whose part declares no content type. *)
Lemma C10_witness :
  fst (@predict demo_lib untyped_upload demo_state) =
  Raise (HTTPException 500
           "Error procesando imagen: 'NoneType' object has no attribute 'startswith'").
Proof.
  apply (proj1 (@C10_missing_content_type_is_500 demo_lib untyped_upload demo_state)).
  reflexivity.
Defined.

(** Start-up of the instance: the first candidate exists and fails to load,
  the second loads, the third is never looked at. *)
Example startup_demo :
  let st' := snd (@startup demo_lib (initial_state "2024-05-01T10:00:00")) in
  g_model st' = Some demo_model /\ g_model_name st' = Some "VGG16 Best" /\
  probed st' = ["/srv/api/models/vgg16_finetuned.h5"; "/srv/api/models/vgg16_best.h5"] /\
  loaded st' = ["/srv/api/models/vgg16_finetuned.h5"; "/srv/api/models/vgg16_best.h5"].
Proof. repeat split. Qed.

(** One model output, two NumPy versions: [1 - 2^-30] rounds to 1 in
  float32 and is exact in float64. *)
Example promotion_demo :
  let p := S754_finite false 8388608 (-53) in
  @float_one_minus demo_lib p = F64.one /\
  @float_one_minus (with_promotion demo_lib Legacy) p
    = S754_finite false 9007199246352384 (-53).
Proof. split; reflexivity. Qed.

(** The mid-gray pixel 128 becomes the float32 nearest to 128/255. *)
Example pixel_demo :
  F32.div (float32_of_uint8 Byte.x80) F32.c255 = S754_finite false 8421505 (-24).
Proof. reflexivity. Qed.

(** * Further lemmas on the module *)

(** ** The range of [1 - x] *)

Section SubOneRange.
Variables prec emax : Z.
Hypothesis prec_pos : 0 < prec.
Hypothesis emax_big : 2 < emax.
Variable one_m : positive.
Hypothesis one_m_spec : Zpos one_m = 2 ^ (prec - 1).

Local Abbreviation emin := (emin prec emax).
Local Abbreviation one := (S754_finite false one_m (1 - prec)).

(** For [x] in [0, 1] the rounded difference [1 - x] is in [0, 1] again:
  rounding to nearest never leaves the interval, whose ends are numbers of
  the format. *)
Lemma sub_one_range (x : spec_float) :
  valid_binary prec emax x = true -> is_finite x = true ->
  0 <= Zval prec emax x <= 2 ^ (- emin) ->
  0 <= Zval prec emax (SFsub prec emax one x) <= 2 ^ (- emin).
Proof.
  intros Vx Fx Hx. pose proof (emin_lt prec emax emax_big one_m) as Hemin.
  assert (H1pos : 0 < 2 ^ (- emin)) by (apply Z.pow_pos_nonneg; lia).
  destruct x as [s| | |s m e]; try discriminate.
  - (* 1 - 0 = 1 *)
    assert (Hr : SFsub prec emax one (S754_zero s) = one) by (destruct s; reflexivity).
    rewrite Hr, (Zval_one prec emax prec_pos emax_big one_m one_m_spec). lia.
  - cbn [valid_binary] in Vx. apply andb_prop in Vx as [Cx Bx].
    pose proof (canonical_facts prec emax m e Cx) as (He & Hd & Hn).
    pose proof (digits2_pos_bounds m) as [Dlo Dhi].
    set (d := Zpos (digits2_pos m)) in *.
    assert (HP : 0 < 2 ^ (e - emin)) by (apply Z.pow_pos_nonneg; lia).
    cbn [Zval] in Hx.
    destruct s; cbn [cond_Zopp] in Hx; [nia|].
    assert (Hmp : Zpos m < 2 ^ prec).
    { assert (2 ^ d <= 2 ^ prec) by (apply Z.pow_le_mono_r; lia). lia. }
    assert (He1 : e <= 1 - prec).
    { destruct (Z_le_gt_dec e (1 - prec)); [assumption|].
      assert (Hpe : 2 ^ (2 - prec - emin) <= 2 ^ (e - emin)) by (apply Z.pow_le_mono_r; lia).
      rewrite Hn in Dlo by lia.
      assert (Hprod : 2 ^ (prec - 1) * 2 ^ (2 - prec - emin) = 2 * 2 ^ (- emin)).
      { rewrite <- Z.pow_add_r by lia.
        replace (prec - 1 + (2 - prec - emin)) with (Z.succ (- emin)) by lia.
        apply Z.pow_succ_r. lia. }
      assert (0 < 2 ^ (prec - 1)) by (apply Z.pow_pos_nonneg; lia).
      assert (2 ^ (prec - 1) * 2 ^ (2 - prec - emin) <= Zpos m * 2 ^ (e - emin)) by nia.
      lia. }
    destruct (Z.eq_dec e (1 - prec)) as [Ee | Hne].
    + (* x = 1 *)
      rewrite Hn in Dlo by lia.
      assert (Hm : m = one_m).
      { assert (Hone : 2 ^ (- emin) = 2 ^ (prec - 1) * 2 ^ (e - emin)).
        { rewrite <- Z.pow_add_r by lia. f_equal. lia. }
        rewrite Hone in Hx. assert (Zpos m <= 2 ^ (prec - 1)) by nia. lia. }
      assert (Hr : SFsub prec emax one (S754_finite false m e) = S754_zero false).
      { unfold SFsub. cbv zeta. rewrite Hm, Ee, Z.min_id. unfold shl_align.
        replace (1 - prec - (1 - prec)) with 0 by lia. cbn [fst cond_Zopp].
        replace (Zpos one_m - Zpos one_m) with 0 by lia. reflexivity. }
      rewrite Hr. cbn [Zval]. lia.
    + assert (He2 : e <= - prec) by lia.
      unfold SFsub. cbv zeta. rewrite Z.min_r by lia.
      unfold shl_align. replace (e - e) with 0 by lia.
      destruct (e - (1 - prec)) as [|k|k] eqn:Hk; try lia.
      cbn [fst cond_Zopp].
      assert (HA : Zpos (Pos.iter xO one_m k) = 2 ^ (- e)).
      { rewrite iter_xO_spec, one_m_spec.
        rewrite <- Z.pow_add_r by lia. f_equal. lia. }
      assert (Hpe : 2 ^ prec <= 2 ^ (- e)) by (apply Z.pow_le_mono_r; lia).
      destruct (Zpos (Pos.iter xO one_m k) - Zpos m) as [|M|M] eqn:HM; try lia.
      cbn [binary_normalize].
      destruct (binary_round_correct prec emax prec_pos false M e He)
        as (m' & Hbr & _ & Hres).
      pose proof (digits2_pos_bounds M) as [DMlo DMhi].
      set (dM := Zpos (digits2_pos M)) in *.
      set (E0 := SpecFloat.fexp prec emax (dM + e)) in *.
      assert (HdM : dM <= - e).
      { destruct (Z_le_gt_dec dM (- e)); [assumption|].
        assert (2 ^ (- e) <= 2 ^ (dM - 1)) by (apply Z.pow_le_mono_r; lia). lia. }
      assert (HE0 : emin <= E0 <= - prec).
      { unfold E0, SpecFloat.fexp. lia. }
      set (U := 2 ^ (E0 - emin)) in *.
      assert (HU : 0 < U) by (apply Z.pow_pos_nonneg; lia).
      assert (HV : Zpos M * 2 ^ (e - emin) = 2 ^ (- emin) - Zpos m * 2 ^ (e - emin)).
      { rewrite <- HM, HA, Z.mul_sub_distr_r. rewrite <- Z.pow_add_r by lia.
        f_equal. f_equal. lia. }
      rewrite HV in Hbr.
      assert (HG : 2 ^ (- emin) = 2 ^ (- E0) * U).
      { unfold U. rewrite <- Z.pow_add_r by lia. f_equal. lia. }
      assert (Hval : Zval prec emax (binary_round prec emax false M e) = m' * U).
      { destruct Hres as [[-> ->] | (mr & er & -> & Cr & Her & Hv)].
        - reflexivity.
        - unfold mk.
          replace (er <=? emax - prec) with true by (symmetry; apply Z.leb_le; lia).
          cbn [Zval cond_Zopp]. exact Hv. }
      rewrite Hval.
      set (V := 2 ^ (- emin) - Zpos m * 2 ^ (e - emin)) in *.
      assert (HVpos : 0 < V) by lia.
      assert (HVlt : V < 2 ^ (- E0) * U) by (rewrite <- HG; unfold V; nia).
      destruct (grid_bounds V U m' (2 ^ (- E0)) U HU (Z.le_refl U) Hbr) as (_ & Hup & _).
      assert (0 <= V / U) by (apply Z.div_pos; lia).
      split; [nia|]. rewrite HG. apply Hup. exact HVlt.
Qed.
End SubOneRange.

Lemma f32_sub_one_range (p : F32.t) :
  F32.valid p = true -> is_finite p = true -> 0 <= Zval32 p <= 2 ^ 149 ->
  0 <= Zval32 (F32.sub F32.one p) <= 2 ^ 149.
Proof.
  exact (sub_one_range F32.prec F32.emax f32_prec_pos eq_refl 8388608 eq_refl p).
Qed.

Lemma f64_sub_one_range (x : F64.t) :
  F64.valid x = true -> is_finite x = true -> 0 <= Zval64 x <= 2 ^ 1074 ->
  0 <= Zval64 (F64.sub F64.one x) <= 2 ^ 1074.
Proof.
  exact (sub_one_range F64.prec F64.emax f64_prec_pos eq_refl 4503599627370496 eq_refl x).
Qed.

(** ** The requests, event by event *)

Section HandlerRuns.
Context {L : Lib}.

Lemma predict_handled (file : UploadFile) (st : state) : handled st (predict file st).
Proof.
  destruct (content_type file) as [ct|] eqn:Hct.
  - destruct (String.prefix "image/" ct) eqn:Hp.
    + destruct (Z_le_gt_dec (Z.of_nat (List.length (contents file))) MAX_BYTES) as [Hle | Hgt].
      * assert (Hg : (Z.of_nat (List.length (contents file)) >? MAX_BYTES) = false)
          by (rewrite Z.gtb_ltb; apply Z.ltb_ge; lia).
        assert (E : predict file st =
                    (classify (g_model st) (g_model_name st) (clock st) (contents file),
                     mkState (g_model st) (g_model_name st) (clock st)
                       (classify_events (MsgImage (filename file)) (g_model st)
                          (g_model_name st) (clock st) (contents file) ++ trace st)%list)).
        { run. rewrite Hct, Hp, Hg.
          unfold classify, classify_events, processing_failure. cbv beta iota delta [negb].
          destruct (Image_open (contents file)) as [msg | image]; [reflexivity|].
          cbn [g_model g_model_name clock trace].
          destruct st as [[m|] gn ck tr]; cbn [g_model g_model_name clock trace];
            [|reflexivity].
          destruct (model_predict m (preprocess_image image)) as [msg | p]; [reflexivity|].
          cbn [g_model g_model_name clock trace].
          fold (result_of p gn ck).
          cbn [r_prediction r_confidence r_prob_normal r_prob_pneumonia].
          fold (json_compliant (result_of p gn ck)).
          cbv zeta.
          destruct (json_compliant (result_of p gn ck)); reflexivity. }
        rewrite E. apply handled_classified.
      * rewrite (predict_too_large file st ct Hct Hp Hgt). apply handled_rejected. auto.
    + rewrite (predict_not_image file st ct Hct Hp). apply handled_rejected. auto.
  - rewrite (predict_no_content_type file st Hct). apply handled_failed.
Qed.

Lemma predict_base64_handled (data : dict) (st : state) :
  handled st (predict_base64 data st).
Proof.
  destruct (dict_get data "image") as [v|] eqn:Hget.
  - destruct (py_b64decode v) as [e | raw] eqn:Hdec.
    + rewrite (predict_base64_undecodable data st v e Hget Hdec).
      apply handled_rejected. auto.
    + assert (E : predict_base64 data st =
                  (classify (g_model st) (g_model_name st) (clock st) raw,
                   mkState (g_model st) (g_model_name st) (clock st)
                     (classify_events MsgImageBase64 (g_model st)
                        (g_model_name st) (clock st) raw ++ trace st)%list)).
      { run. rewrite Hget, Hdec.
        unfold classify, classify_events, processing_failure.
        destruct (Image_open raw) as [msg | image]; [reflexivity|].
        cbn [g_model g_model_name clock trace].
        destruct st as [[m|] gn ck tr]; cbn [g_model g_model_name clock trace];
          [|reflexivity].
        destruct (model_predict m (preprocess_image image)) as [msg | p]; [reflexivity|].
        cbn [g_model g_model_name clock trace].
        fold (result_of p gn ck).
        cbn [r_prediction r_confidence r_prob_normal r_prob_pneumonia].
        fold (json_compliant (result_of p gn ck)).
        cbv zeta.
        destruct (json_compliant (result_of p gn ck)); reflexivity. }
      rewrite E. apply handled_classified.
  - rewrite (predict_base64_missing data st Hget). apply handled_rejected. auto.
Qed.


Lemma handled_error_discipline (st : state) (r : outcome prediction_result * state) :
  handled st r -> error_discipline st r.
Proof.
  intros [code detail Hcode | msg | opened raw]; unfold error_discipline; cbn [fst snd trace].
  - exists []. split; [reflexivity|].
    destruct Hcode as [-> | ->]; reflexivity.
  - exists [EvLog ERROR (MsgError msg)]. split; [reflexivity|].
    cbn. exists msg. repeat split.
  - eexists. split; [reflexivity|].
    unfold classify, classify_events, processing_failure.
    destruct (Image_open raw) as [msg | image].
    + cbn. exists msg. repeat split.
    + destruct (g_model st) as [m|].
      * destruct (model_predict m (preprocess_image image)) as [msg | p].
        -- cbn. exists msg. repeat split.
        -- cbv zeta. destruct (json_compliant _); cbn; [reflexivity|].
           eexists. repeat split.
      * reflexivity.
Qed.
End HandlerRuns.

(** ** The answers of the two prediction endpoints *)

Section Answers.
Context {L : Lib}.

Lemma classify_200_iff (model : option Model) (name : option string) (now : string)
    (raw : bytes) :
  status_of (classify model name now raw) = 200 <->
  exists image m p,
    Image_open raw = inr image /\ model = Some m /\
    model_predict m (preprocess_image image) = inr p /\
    json_compliant (result_of p name now) = true /\
    classify model name now raw = Return (result_of p name now).
Proof.
  unfold classify, processing_failure.
  destruct (Image_open raw) as [msg | image].
  - split; [discriminate | intros (? & ? & ? & H & _); discriminate].
  - destruct model as [m|].
    + destruct (model_predict m (preprocess_image image)) as [msg | p] eqn:Hp.
      * split; [discriminate | intros (? & ? & ? & H1 & H2 & H3 & _)].
        injection H1 as <-. injection H2 as <-. congruence.
      * destruct (json_compliant (result_of p name now)) eqn:Hj.
        -- split; [|reflexivity]. intros _. exists image, m, p. repeat split; assumption.
        -- split; [discriminate | intros (? & ? & ? & H1 & H2 & H3 & H4 & _)].
           injection H1 as <-. injection H2 as <-. congruence.
    + split; [discriminate | intros (? & ? & ? & _ & H & _); discriminate].
Qed.


(** The test [len(contents) > 10 * 1024 * 1024], in bytes. *)
Lemma MAX_BYTES_value : MAX_BYTES = 10485760.
Proof. reflexivity. Qed.
End Answers.

(** ** The fields of the answer as numbers of [0, 1] *)

Section FieldRanges.
Context {L : Lib}.

Lemma float_one_minus_range (p : F32.t) :
  F32.valid p = true -> is_finite p = true -> 0 <= Zval32 p <= 2 ^ 149 ->
  0 <= Zval64 (float_one_minus p) <= 2 ^ 1074.
Proof.
  intros Vp Fp Hv.
  destruct (of_f32_spec p Vp Fp) as (Vpp & Fpp & Zpp).
  assert (HS : 0 < 2 ^ 925) by reflexivity.
  assert (E1 : 2 ^ 1074 = 2 ^ 149 * 2 ^ 925) by reflexivity.
  unfold float_one_minus. destruct np_promotion.
  - destruct (f32_sub_one_spec p Vp Fp Hv) as (Vr & Fr & _).
    pose proof (f32_sub_one_range p Vp Fp Hv) as Hr.
    destruct (of_f32_spec _ Vr Fr) as (_ & _ & ->). rewrite E1. nia.
  - apply f64_sub_one_range; [assumption | assumption |]. rewrite Zpp, E1. nia.
Qed.

Lemma in_unit_interval_Zval (x : F64.t) :
  F64.valid x = true -> is_finite x = true ->
  in_unit_interval x = (0 <=? Zval64 x) && (Zval64 x <=? 2 ^ 1074).
Proof.
  intros Vx Fx. unfold in_unit_interval, F64.leb.
  rewrite !(SFleb_Zval F64.prec F64.emax f64_prec_pos) by (assumption || reflexivity).
  reflexivity.
Qed.

(** A model output in [0, 1] gives three fields in [0, 1]. *)
Lemma prediction_fields_range (p : F32.t) :
  F32.valid p = true ->
  F32.leb F32.zero p = true -> F32.leb p F32.one = true ->
  in_unit_interval (F64.of_f32 p) = true /\
  in_unit_interval (float_one_minus p) = true.
Proof.
  intros Vp H0 H1.
  destruct (f32_unit_interval p Vp H0 H1) as (Fp & Hv).
  destruct (float_one_minus_spec p Vp Fp Hv) as (Vpn & Fpn & _).
  destruct (of_f32_spec p Vp Fp) as (Vpp & Fpp & Zpp).
  pose proof (float_one_minus_range p Vp Fp Hv) as Hn.
  assert (HS : 0 < 2 ^ 925) by reflexivity.
  assert (E1 : 2 ^ 1074 = 2 ^ 149 * 2 ^ 925) by reflexivity.
  rewrite !in_unit_interval_Zval by assumption.
  split; apply andb_true_intro; split; apply Z.leb_le; lia.
Qed.

(** A model output above 1, finite or not. *)
Lemma above_one_fields (p : F32.t) :
  F32.valid p = true -> F32.ltb F32.one p = true ->
  gt_half p = true /\ F64.ltb F64.one (F64.of_f32 p) = true /\
  F64.leb (F64.of_f32 p) F64.one = false.
Proof.
  intros Vp H1. destruct (is_finite p) eqn:Fp.
  - destruct (of_f32_spec p Vp Fp) as (Vpp & Fpp & Zpp).
    unfold F32.ltb in H1.
    rewrite (SFltb_Zval F32.prec F32.emax f32_prec_pos) in H1 by (assumption || reflexivity).
    apply Z.ltb_lt in H1. rewrite Zval32_one in H1.
    assert (HS : 0 < 2 ^ 925) by reflexivity.
    assert (E1 : 2 ^ 1074 = 2 ^ 149 * 2 ^ 925) by reflexivity.
    assert (E2 : 2 ^ 148 < 2 ^ 149) by reflexivity.
    split; [|split].
    + rewrite (gt_half_Zval p Vp Fp). apply Z.ltb_lt. lia.
    + unfold F64.ltb.
      rewrite (SFltb_Zval F64.prec F64.emax f64_prec_pos) by (assumption || reflexivity).
      apply Z.ltb_lt. change (Zval64 F64.one) with (2 ^ 1074). rewrite Zpp, E1. nia.
    + unfold F64.leb.
      rewrite (SFleb_Zval F64.prec F64.emax f64_prec_pos) by (assumption || reflexivity).
      apply Z.leb_gt. change (Zval64 F64.one) with (2 ^ 1074). rewrite Zpp, E1. nia.
  - rewrite (gt_half_ltb p Vp), (of_f32_not_finite p Fp).
    destruct p as [s|[|]| |s m e]; try discriminate; repeat split; reflexivity.
Qed.
End FieldRanges.

(** ** The pixels of the preprocessed array *)

Lemma nth_error_map_seq {A : Type} (f : nat -> A) (n i : nat) :
  (i < n)%nat -> nth_error (map f (seq 0 n)) i = Some (f i).
Proof.
  intros Hi. rewrite nth_error_map.
  rewrite (nth_error_nth' (seq 0 n) 0%nat) by (rewrite length_seq; exact Hi).
  rewrite seq_nth by exact Hi. reflexivity.
Qed.

Lemma scaled_Zval_step :
  forallb (fun n => scaled_Zval n <? scaled_Zval (S n)) (seq 0 255) = true.
Proof. vm_compute. reflexivity. Qed.

Lemma scaled_Zval_increasing (j i : nat) :
  (i < j)%nat -> (j <= 255)%nat -> scaled_Zval i < scaled_Zval j.
Proof.
  induction j as [|j IH]; intros Hij Hj; [lia|].
  assert (Hstep : scaled_Zval j < scaled_Zval (S j)).
  { apply Z.ltb_lt.
    apply (proj1 (forallb_forall _ _) scaled_Zval_step j).
    apply in_seq. lia. }
  destruct (Nat.eq_dec i j) as [-> | Hne]; [exact Hstep|].
  assert (scaled_Zval i < scaled_Zval j) by (apply IH; lia). lia.
Qed.

Lemma scaled_Zval_byte (b : Byte.byte) :
  scaled_Zval (N.to_nat (Byte.to_N b)) = Zval32 (F32.div (float32_of_uint8 b) F32.c255).
Proof.
  unfold scaled_Zval, byte_of_N. rewrite Nnat.N2Nat.id, Byte.of_to_N. reflexivity.
Qed.

(** ** The log of start-up *)

Section StartupLog.
Context {L : Lib}.

Lemma load_first_logs (candidates : list (string * string)) : forall st : state,
  exists tr,
    load_first candidates st =
      (Return tt, mkState (g_model (snd (load_first candidates st)))
                    (g_model_name (snd (load_first candidates st)))
                    (clock st) (tr ++ trace st)%list) /\
    rev (load_error_logs tr) = load_failures (attempted candidates) /\
    (is_some (g_model st) = is_some (g_model_name st) ->
     is_some (g_model (snd (load_first candidates st)))
     = is_some (g_model_name (snd (load_first candidates st)))) /\
    (forall name,
       g_model_name (snd (load_first candidates st)) = Some name ->
       g_model_name st = Some name \/
       In name (map snd candidates) /\ In (EvLog INFO (MsgModelLoaded name)) tr).
Proof.
  induction candidates as [|[filename name] rest IH]; intros st.
  - exists []. destruct st. cbn. repeat split; auto.
  - cbn [load_first attempted load_failures flat_map fst snd map].
    unfold loadable, existing, candidate_path. cbn [fst snd].
    cbv beta iota zeta delta [bind emit ret set_model logger_info logger_error].
    cbn [g_model g_model_name clock trace].
    destruct (path_exists (model_path filename)) eqn:Hex; cbn [andb]; cbv beta iota;
      cbn [g_model g_model_name clock trace].
    + destruct (load_model (model_path filename)) as [e | m] eqn:Hload; cbv beta iota;
        cbn [g_model g_model_name clock trace].
      * match goal with |- context [load_first rest ?s] =>
          destruct (IH s) as (tr & H1 & H2 & H3 & H4) end.
        cbn [g_model g_model_name clock trace] in H1, H3, H4.
        exists (tr ++ [EvLog ERROR (MsgModelLoadError name e);
                       EvLoadModel (model_path filename);
                       EvPathExists (model_path filename)])%list.
        split; [rewrite H1 at 1; cbn [snd g_model g_model_name];
                rewrite <- app_assoc; reflexivity|].
        split.
        { unfold load_error_logs in *. rewrite flat_map_app, rev_app_distr.
          cbn [flat_map app rev]. rewrite H2. reflexivity. }
        split; [exact H3|].
        intros n Hn. destruct (H4 n Hn) as [Hst | [Hin Hlog]]; [left; exact Hst|].
        right. split; [right; exact Hin | apply in_or_app; left; exact Hlog].
      * exists [EvLog INFO (MsgModelLoaded name);
                EvLoadModel (model_path filename);
                EvPathExists (model_path filename)].
        cbn [fst snd g_model g_model_name clock trace load_error_logs flat_map app rev
             is_some].
        split; [reflexivity|]. split; [reflexivity|]. split; [reflexivity|].
        intros n Hn. injection Hn as <-. right. split; [left; reflexivity|].
        left. reflexivity.
    + match goal with |- context [load_first rest ?s] =>
        destruct (IH s) as (tr & H1 & H2 & H3 & H4) end.
      cbn [g_model g_model_name clock trace] in H1, H3, H4.
      exists (tr ++ [EvPathExists (model_path filename)])%list.
      split; [rewrite H1 at 1; cbn [snd g_model g_model_name];
              rewrite <- app_assoc; reflexivity|].
      split.
      { unfold load_error_logs in *. rewrite flat_map_app, rev_app_distr.
        cbn [flat_map app rev]. rewrite H2. reflexivity. }
      split; [exact H3|].
      intros n Hn. destruct (H4 n Hn) as [Hst | [Hin Hlog]]; [left; exact Hst|].
      right. split; [right; exact Hin | apply in_or_app; left; exact Hlog].
Qed.

(** The whole of start-up from the initial state. *)
Lemma startup_full (now : string) :
  let st1 := snd (load_first model_priority (initial_state now)) in
  startup (initial_state now) =
  (Return tt,
   mkState (g_model st1) (g_model_name st1) now
     ((match g_model st1 with
       | None => EvLog ERROR MsgNoModel
       | Some _ => EvLog INFO (MsgApiReady (g_model_name st1))
       end) :: trace st1)).
Proof.
  intros st1. destruct (load_first_logs model_priority (initial_state now)) as (tr & H1 & _).
  unfold startup, bind. subst st1.
  destruct (load_first model_priority (initial_state now)) as [o s] eqn:E.
  cbn [snd] in *. injection H1 as Ho Hs. subst o.
  assert (Hck : clock s = now) by (rewrite Hs; reflexivity).
  unfold get_model, get_model_name, logger_info, logger_error, emit.
  destruct (g_model s) eqn:Hm; cbn [g_model g_model_name clock trace]; rewrite Hck, ?Hm;
    reflexivity.
Qed.

Lemma first_loadable_Exists (candidates : list (string * string)) :
  first_loadable candidates <> None <-> Exists (fun c => loadable c = true) candidates.
Proof.
  split.
  - destruct (first_loadable candidates) as [[m name]|] eqn:E; [intros _ | congruence].
    destruct (first_loadable_some _ m name E) as (before & f & after & -> & _ & Hex & Hl & _).
    apply Exists_exists. exists (f, name). split; [apply in_or_app; right; left; reflexivity|].
    unfold loadable. cbn [fst]. rewrite Hex, Hl. reflexivity.
  - intros HE Hnone. apply first_loadable_none in Hnone as [Hall _].
    apply Exists_exists in HE as (c & Hin & Hc).
    rewrite Forall_forall in Hall. specialize (Hall c Hin).
    apply unloadable_iff in Hall. congruence.
Qed.
End StartupLog.

(** * Further properties of the module *)

Section Extras.
Context {L : Lib}.

(** X1: [/predict] answers 413 exactly when the declared content type is
  an image type and the payload has more than 10485760 bytes; a payload of
  exactly 10 MiB is not refused for its size. *)
Theorem predict_413_iff (file : UploadFile) (st : state) :
  status_of (fst (predict file st)) = 413 <->
  exists ct, content_type file = Some ct /\ String.prefix "image/" ct = true /\
             10485760 < Z.of_nat (List.length (contents file)).
Proof.
  rewrite <- MAX_BYTES_value.
  destruct (content_type file) as [ct|] eqn:Hct.
  - destruct (String.prefix "image/" ct) eqn:Hp.
    + destruct (Z_le_gt_dec (Z.of_nat (List.length (contents file))) MAX_BYTES) as [Hle | Hgt].
      * destruct (predict_classify file st ct Hct Hp Hle) as [-> _].
        split.
        -- intros E. exfalso. revert E. apply status_of_classify_not; discriminate.
        -- intros (ct' & _ & _ & Hlt). lia.
      * rewrite (predict_too_large file st ct Hct Hp Hgt).
        split; [|reflexivity]. intros _. exists ct.
        split; [reflexivity|]. split; [exact Hp | lia].
    + rewrite (predict_not_image file st ct Hct Hp).
      split; [discriminate | intros (ct' & E & Hp' & _); injection E as <-; congruence].
  - rewrite (predict_no_content_type file st Hct).
    split; [discriminate | intros (ct & E & _); discriminate].
Qed.

(** X2: [/predict] answers 200 exactly when every step succeeds: an image
  content type, at most 10 MiB, bytes that [Image.open] accepts, a loaded
  model whose [predict] returns, and finite numbers to render.  The body is
  then built from the model output on the preprocessed image, with the
  name of the loaded model and the time of the request. *)
Theorem predict_200_iff (file : UploadFile) (st : state) :
  status_of (fst (predict file st)) = 200 <->
  exists ct image m p,
    content_type file = Some ct /\ String.prefix "image/" ct = true /\
    Z.of_nat (List.length (contents file)) <= MAX_BYTES /\
    Image_open (contents file) = inr image /\
    g_model st = Some m /\
    model_predict m (preprocess_image image) = inr p /\
    json_compliant (result_of p (g_model_name st) (clock st)) = true /\
    fst (predict file st) = Return (result_of p (g_model_name st) (clock st)) /\
    r_model_used (result_of p (g_model_name st) (clock st)) = g_model_name st /\
    r_timestamp (result_of p (g_model_name st) (clock st)) = clock st.
Proof.
  destruct (content_type file) as [ct|] eqn:Hct.
  - destruct (String.prefix "image/" ct) eqn:Hp.
    + destruct (Z_le_gt_dec (Z.of_nat (List.length (contents file))) MAX_BYTES) as [Hle | Hgt].
      * destruct (predict_classify file st ct Hct Hp Hle) as [-> _].
        rewrite classify_200_iff. split.
        -- intros (image & m & p & H1 & H2 & H3 & H4 & H5).
           exists ct, image, m, p. repeat split; assumption.
        -- intros (ct' & image & m & p & _ & _ & _ & H1 & H2 & H3 & H4 & H5 & _).
           exists image, m, p. repeat split; assumption.
      * rewrite (predict_too_large file st ct Hct Hp Hgt).
        split; [discriminate|]. intros (ct' & image & m & p & _ & _ & Hle & _). lia.
    + rewrite (predict_not_image file st ct Hct Hp).
      split; [discriminate|]. intros (ct' & image & m & p & E & Hp' & _).
      injection E as <-. congruence.
  - rewrite (predict_no_content_type file st Hct).
    split; [discriminate|]. intros (ct' & image & m & p & E & _). discriminate.
Qed.

(** X3: [/predict_base64] answers 200 exactly when the "image" field is
  present, [base64.b64decode] accepts it, [Image.open] accepts the decoded
  bytes, a model is loaded, its [predict] returns, and the numbers are
  finite.  There is no condition on the size of the payload. *)
Theorem predict_base64_200_iff (data : dict) (st : state) :
  status_of (fst (predict_base64 data st)) = 200 <->
  exists v raw image m p,
    dict_get data "image" = Some v /\ py_b64decode v = inr raw /\
    Image_open raw = inr image /\
    g_model st = Some m /\
    model_predict m (preprocess_image image) = inr p /\
    json_compliant (result_of p (g_model_name st) (clock st)) = true /\
    fst (predict_base64 data st) = Return (result_of p (g_model_name st) (clock st)).
Proof.
  destruct (dict_get data "image") as [v|] eqn:Hget.
  - destruct (py_b64decode v) as [e | raw] eqn:Hdec.
    + rewrite (predict_base64_undecodable data st v e Hget Hdec).
      split; [discriminate|]. intros (v' & raw & image & m & p & E & Hd & _).
      injection E as <-. congruence.
    + destruct (predict_base64_classify data st v raw Hget Hdec) as [-> _].
      rewrite classify_200_iff. split.
      * intros (image & m & p & H1 & H2 & H3 & H4 & H5).
        exists v, raw, image, m, p. repeat split; assumption.
      * intros (v' & raw' & image & m & p & E & Hd & H1 & H2 & H3 & H4 & H5).
        injection E as <-. rewrite Hdec in Hd. injection Hd as <-.
        exists image, m, p. repeat split; assumption.
  - rewrite (predict_base64_missing data st Hget).
    split; [discriminate|]. intros (v' & raw & image & m & p & E & _). discriminate.
Qed.




(** X7: how failures are reported.  On both endpoints no exception other
  than [HTTPException] leaves the handler; every answer 500 has the detail
  "Error procesando imagen: " followed by the message of the exception
  caught, and that message is the last line logged, at level ERROR; the
  answers 200, 400, 413 and 503 log no error. *)
Theorem handlers_error_reports (st : state) :
  (forall file, error_discipline st (predict file st)) /\
  (forall data, error_discipline st (predict_base64 data st)).
Proof.
  split; intros x; apply handled_error_discipline;
    [apply predict_handled | apply predict_base64_handled].
Qed.
End Extras.

Section ExtrasNumbers.
Context {L : Lib}.

(** X8: the numbers of the body are checked when it is rendered.  For an
  accepted upload whose image opens and whose model returns [p]: if [p] is
  NaN or infinite the answer is 500, not a body with such a number; if [p]
  is in [0, 1] the answer is 200. *)
Theorem predict_renders_finite_numbers
    (file : UploadFile) (st : state) (ct : string) (image : Image Raster)
    (m : Model) (p : F32.t) :
  content_type file = Some ct -> String.prefix "image/" ct = true ->
  Z.of_nat (List.length (contents file)) <= MAX_BYTES ->
  Image_open (contents file) = inr image ->
  g_model st = Some m -> model_predict m (preprocess_image image) = inr p ->
  (is_finite p = false -> status_of (fst (predict file st)) = 500) /\
  (F32.valid p = true -> F32.leb F32.zero p = true -> F32.leb p F32.one = true ->
   status_of (fst (predict file st)) = 200).
Proof.
  intros Hct Hp Hle Hopen Hm Hpred.
  destruct (predict_classify file st ct Hct Hp Hle) as [-> _].
  unfold classify. rewrite Hopen, Hm, Hpred. split.
  - intros Fp.
    assert (Hj : json_compliant (result_of p (g_model_name st) (clock st)) = false).
    { unfold json_compliant, result_of. cbn [r_confidence r_prob_normal r_prob_pneumonia].
      rewrite (of_f32_not_finite p Fp), Fp. apply andb_false_r. }
    rewrite Hj. reflexivity.
  - intros Vp H0 H1.
    destruct (prediction_fields_spec p Vp H0 H1) as (_ & _ & _ & Fn & Fpp & Fc).
    assert (Hj : json_compliant (result_of p (g_model_name st) (clock st)) = true).
    { unfold json_compliant, result_of. cbn [r_confidence r_prob_normal r_prob_pneumonia].
      cbv zeta in Fn, Fpp, Fc. rewrite Fn, Fpp, Fc. reflexivity. }
    rewrite Hj. reflexivity.
Qed.

(** X9: for a model output in [0, 1] the confidence and the two
  probabilities that [make_prediction] returns are all in [0, 1], as
  Python compares floats ([0 <= x <= 1]), however the subtraction
  [1 - prediction] rounds. *)
Theorem make_prediction_unit_interval
    (st : state) (m : Model) (img_array : ndarray F32.t) (p : F32.t) :
  g_model st = Some m -> model_predict m img_array = inr p ->
  F32.valid p = true ->
  F32.leb F32.zero p = true -> F32.leb p F32.one = true ->
  exists r st',
    make_prediction img_array st = (Return r, st') /\
    in_unit_interval (r_confidence r) = true /\
    in_unit_interval (r_prob_normal r) = true /\
    in_unit_interval (r_prob_pneumonia r) = true.
Proof.
  intros Hm Hp Vp H0 H1. rewrite (make_prediction_run img_array st m p Hm Hp).
  eexists. eexists. split; [reflexivity|].
  unfold result_of. cbn [r_prob_normal r_prob_pneumonia r_confidence].
  destruct (prediction_fields_range p Vp H0 H1) as (Hpp & Hpn).
  split; [destruct (gt_half p); assumption|]. split; assumption.
Qed.

(** X10: nothing clamps the confidence.  For a model output above 1 the
  label is PNEUMONIA and the confidence is the output itself, a number
  above 1 and so outside [0, 1]. *)
Theorem confidence_not_clamped
    (st : state) (m : Model) (img_array : ndarray F32.t) (p : F32.t) :
  g_model st = Some m -> model_predict m img_array = inr p ->
  F32.valid p = true -> F32.ltb F32.one p = true ->
  exists r st',
    make_prediction img_array st = (Return r, st') /\
    r_prediction r = "PNEUMONIA" /\
    r_confidence r = F64.of_f32 p /\
    F64.ltb F64.one (r_confidence r) = true /\
    in_unit_interval (r_confidence r) = false.
Proof.
  intros Hm Hp Vp H1. rewrite (make_prediction_run img_array st m p Hm Hp).
  eexists. eexists. split; [reflexivity|].
  unfold result_of. cbn [r_prediction r_confidence].
  destruct (above_one_fields p Vp H1) as (-> & Hlt & Hle).
  split; [reflexivity|]. split; [reflexivity|]. split; [exact Hlt|].
  unfold in_unit_interval. rewrite Hle. apply andb_false_r.
Qed.
End ExtrasNumbers.

Section ExtrasPixels.
Context {L : Lib}.

(** X11: where each pixel goes.  Entry [0][y][x][c] of the preprocessed
  array, for a row [y < 224], a column [x < 224] and a band [c < 3], is the
  value of band [c] of the pixel in column [x] and row [y] of the image,
  converted to RGB unless its mode is RGB already and then resized to
  224 x 224, as a float32 divided by 255. *)
Theorem preprocess_image_pixel (image : Image Raster) (y x c : nat) :
  (y < 224)%nat -> (x < 224)%nat -> (c < 3)%nat ->
  nd_index (preprocess_image image) [0; y; x; c]%nat =
  Some (Scalar
          (F32.div
             (float32_of_uint8
                (raster_band
                   (raster_resize (size image) (224, 224)%nat
                      (if String.eqb (mode image) "RGB" then im image
                       else raster_convert (mode image) "RGB" (im image)))
                   x y c))
             F32.c255)).
Proof.
  intros Hy Hx Hc.
  unfold preprocess_image, expand_dims0, astype_float32.
  rewrite nd_map_nd_map.
  assert (Hmode : mode (Image_resize
                          (if negb (String.eqb (mode image) "RGB")
                           then Image_convert image "RGB" else image) IMG_SIZE) = "RGB").
  { cbn [Image_resize mode].
    destruct (String.eqb (mode image) "RGB") eqn:E; cbn [negb].
    - apply String.eqb_eq. exact E.
    - reflexivity. }
  unfold np_array. rewrite Hmode.
  change (getbands "RGB") with 3%nat.
  cbn [Image_resize size IMG_SIZE Nat.eqb].
  cbn [nd_index nth_error nd_map]. rewrite !map_map.
  rewrite (nth_error_map_seq _ 224 y Hy). cbn [nd_index nd_map]. rewrite !map_map.
  rewrite (nth_error_map_seq _ 224 x Hx). cbn [nd_index nd_map]. rewrite !map_map.
  rewrite (nth_error_map_seq _ 3 c Hc). cbn [nd_index nd_map im].
  destruct (String.eqb (mode image) "RGB"); reflexivity.
Qed.
End ExtrasPixels.

(** X12: the normalisation keeps the order of the pixel values: a larger
  byte gives a strictly larger float32, so distinct byte values stay
  distinct after the division by 255. *)
Theorem normalisation_strictly_increasing (b1 b2 : Byte.byte) :
  (Byte.to_N b1 < Byte.to_N b2)%N ->
  F32.ltb (F32.div (float32_of_uint8 b1) F32.c255)
          (F32.div (float32_of_uint8 b2) F32.c255) = true.
Proof.
  intros Hlt.
  destruct (pixel_scaled_range b1) as (V1 & L1 & U1).
  destruct (pixel_scaled_range b2) as (V2 & L2 & U2).
  destruct (f32_unit_interval _ V1 L1 U1) as (F1 & _).
  destruct (f32_unit_interval _ V2 L2 U2) as (F2 & _).
  unfold F32.ltb.
  rewrite (SFltb_Zval F32.prec F32.emax f32_prec_pos) by assumption.
  apply Z.ltb_lt. rewrite <- !scaled_Zval_byte.
  pose proof (Byte.to_N_bounded b2).
  apply scaled_Zval_increasing; lia.
Qed.

Section ExtrasStartup.
Context {L : Lib}.


(** X14: after start-up, [GET /health] and [GET /] tell which model
  serves.  If some candidate exists and loads, [/health] is "healthy" with
  the name of the first such candidate and [/] names the same model; if
  none does, [/health] is "degraded" with the name "None" while [/] says
  "No disponible".  [/] reports the status "online" in both cases, and
  neither endpoint changes the state or causes an event. *)
Theorem health_and_root_after_startup (now : string) :
  let st := snd (startup (initial_state now)) in
  exists h r,
    health_check st = (Return h, st) /\ root st = (Return r, st) /\
    ro_status r = "online" /\
    match first_loadable model_priority with
    | Some (_, name) =>
        h_status h = "healthy" /\ h_model_loaded h = true /\
        h_model_name h = Some name /\ ro_model r = Some name
    | None =>
        h_status h = "degraded" /\ h_model_loaded h = false /\
        h_model_name h = Some "None" /\ ro_model r = Some "No disponible"
    end /\
    (h_model_loaded h = true <->
     Exists (fun c => loadable c = true) model_priority).
Proof.
  intros st. eexists. eexists.
  split; [apply health_check_run|]. split; [reflexivity|].
  cbn [ro_status ro_model h_status h_model_loaded h_model_name fst snd].
  split; [reflexivity|].
  assert (Hm : g_model st = g_model (snd (load_first model_priority (initial_state now))) /\
               g_model_name st
               = g_model_name (snd (load_first model_priority (initial_state now)))).
  { unfold st. rewrite (startup_full now). split; reflexivity. }
  destruct Hm as [Hm Hn].
  destruct (load_first_run model_priority (initial_state now)) as (tr & _ & _ & _ & _ & _ & Hg).
  rewrite <- first_loadable_Exists.
  unfold get_model, get_model_name. cbn [fst].
  destruct (first_loadable model_priority) as [[m name]|].
  - destruct Hg as [Hgm Hgn]. rewrite Hm, Hn, Hgm, Hgn. cbn [is_some].
    repeat split; auto; discriminate.
  - destruct Hg as [Hgm Hgn]. cbn [initial_state g_model g_model_name] in Hgm, Hgn.
    rewrite Hm, Hgm. cbn [is_some].
    repeat split; auto; try discriminate.
Qed.
End ExtrasStartup.

(** ** The further properties at concrete requests *)

(** X8 at the instance: the same PNG upload with a model that answers NaN
  and with one that answers 0.75. *)
Lemma predict_renders_finite_numbers_witness :
  status_of (fst (@predict demo_lib png_upload demo_nan_state)) = 500 /\
  status_of (fst (@predict demo_lib png_upload demo_state)) = 200.
Proof.
  split.
  - apply (proj1 (@predict_renders_finite_numbers demo_lib png_upload demo_nan_state
                    "image/png" (mkImage "L" (2%nat, 2%nat) tt) S754_nan S754_nan
                    eq_refl eq_refl ltac:(discriminate) eq_refl eq_refl eq_refl)).
    reflexivity.
  - apply (proj2 (@predict_renders_finite_numbers demo_lib png_upload demo_state
                    "image/png" (mkImage "L" (2%nat, 2%nat) tt) demo_model demo_model
                    eq_refl eq_refl ltac:(discriminate) eq_refl eq_refl eq_refl));
      reflexivity.
Defined.

(** X9 at the instance: the output 0.75. *)
Lemma make_prediction_unit_interval_witness :
  F32.valid demo_model = true /\
  F32.leb F32.zero demo_model = true /\ F32.leb demo_model F32.one = true /\
  exists r st',
    @make_prediction demo_lib (Scalar F32.zero) demo_state = (Return r, st') /\
    in_unit_interval (r_confidence r) = true /\
    in_unit_interval (r_prob_normal r) = true /\
    in_unit_interval (r_prob_pneumonia r) = true.
Proof.
  split; [reflexivity|]. split; [reflexivity|]. split; [reflexivity|].
  exact (@make_prediction_unit_interval demo_lib demo_state demo_model
           (Scalar F32.zero) demo_model eq_refl eq_refl eq_refl eq_refl eq_refl).
Defined.

(** X10 at the instance: a model that answers 1.5. *)
Lemma confidence_not_clamped_witness :
  F32.ltb F32.one (S754_finite false 12582912 (-23)) = true /\
  exists r st',
    @make_prediction demo_lib (Scalar F32.zero) demo_overshoot_state = (Return r, st') /\
    r_prediction r = "PNEUMONIA" /\
    in_unit_interval (r_confidence r) = false.
Proof.
  split; [reflexivity|].
  destruct (@confidence_not_clamped demo_lib demo_overshoot_state
              (S754_finite false 12582912 (-23)) (Scalar F32.zero)
              (S754_finite false 12582912 (-23)) eq_refl eq_refl eq_refl eq_refl)
    as (r & st' & Hrun & Hlab & _ & _ & Hout).
  exists r, st'. auto.
Defined.

(** X11 at the instance, whose images are mid-gray everywhere: the last
  row, column 10, the blue band. *)
Lemma preprocess_image_pixel_witness :
  nd_index (@preprocess_image demo_lib (mkImage "L" (2%nat, 2%nat) tt)) [0; 223; 10; 2]%nat
  = Some (Scalar (F32.div (float32_of_uint8 Byte.x80) F32.c255)).
Proof.
  apply (@preprocess_image_pixel demo_lib (mkImage "L" (2%nat, 2%nat) tt) 223 10 2); lia.
Defined.

(** X12 at black and white. *)
Lemma normalisation_strictly_increasing_witness :
  F32.ltb (F32.div (float32_of_uint8 Byte.x00) F32.c255)
          (F32.div (float32_of_uint8 Byte.xff) F32.c255) = true.
Proof. apply normalisation_strictly_increasing. reflexivity. Defined.

(** * The test client: lemmas and properties *)

Ltac crun :=
  cbv beta iota zeta delta
    [cbind creturn throw ctry print print_test response_json except_Exception
     percent value_get in_range_0_1 open_rb request get_health post_predict
     post_predict_base64 expect_400 status_code content].

Section ClientRuns.
Context {L : Lib} {E : ClientEnv}.
Local Open Scope client_scope.

Lemma status_code_to_response {A : Type} (to_body : A -> pydict) (o : outcome A) :
  status_code (to_response to_body o) = status_of o.
Proof. destruct o as [a | [code detail | cls msg]]; reflexivity. Qed.

Lemma test_health_up (w : world) :
  net = Up ->
  fst (test_health w) = Done (is_some (g_model (server w))) /\
  server (snd (test_health w)) = server w.
Proof.
  intros Hnet. unfold test_health. crun. rewrite Hnet. cbv beta iota.
  cbn [server console sent].
  rewrite (health_check_run (server w)). cbv beta iota.
  unfold to_response. cbv beta iota.
  destruct (g_model (server w)); split; reflexivity.
Qed.

Lemma test_health_down (w : world) (c : bool) (msg : string) :
  net = Down c msg ->
  fst (test_health w) = Done false /\ server (snd (test_health w)) = server w.
Proof.
  intros Hnet. unfold test_health. crun. rewrite Hnet.
  destruct c; split; reflexivity.
Qed.

Lemma test_predict_file_up (w : world) (image_path : string) :
  net = Up ->
  fst (test_predict_file image_path w) =
    Done match file_upload image_path with
         | Some file => is_return (fst (predict file (server w)))
         | None => false
         end /\
  server (snd (test_predict_file image_path w)) =
    match file_upload image_path with
    | Some file => snd (predict file (server w))
    | None => server w
    end.
Proof.
  intros Hnet. unfold test_predict_file, file_upload. crun.
  destruct (file_exists image_path); cbv beta iota delta [negb];
    [|split; reflexivity].
  destruct (file_read image_path) as [msg | raw]; cbv beta iota; [split; reflexivity|].
  rewrite Hnet. cbv beta iota. cbn [server console sent].
  destruct (predict _ (server w)) as [[r | [code detail | cls msg]] st'];
    unfold to_response; cbv beta iota; cbn [fst snd is_return].
  - change (200 =? 200) with true. cbv beta iota.
    cbn [py_get prediction_body String.eqb Ascii.eqb Bool.eqb].
    destruct (in_unit_interval (r_confidence r)); split; reflexivity.
  - destruct (code =? 200); split; reflexivity.
  - split; reflexivity.
Qed.

Lemma test_predict_base64_up (w : world) (image_path : string) :
  net = Up ->
  fst (test_predict_base64 image_path w) =
    Done match file_body image_path with
         | Some data => is_return (fst (predict_base64 data (server w)))
         | None => false
         end /\
  server (snd (test_predict_base64 image_path w)) =
    match file_body image_path with
    | Some data => snd (predict_base64 data (server w))
    | None => server w
    end.
Proof.
  intros Hnet. unfold test_predict_base64, file_body. crun.
  destruct (file_exists image_path); cbv beta iota delta [negb];
    [|split; reflexivity].
  destruct (file_read image_path) as [msg | raw]; cbv beta iota; [split; reflexivity|].
  rewrite Hnet. cbv beta iota. cbn [server console sent].
  destruct (predict_base64 _ (server w)) as [[r | [code detail | cls msg]] st'];
    unfold to_response; cbv beta iota; cbn [fst snd is_return].
  - split; reflexivity.
  - destruct (code =? 200); split; reflexivity.
  - split; reflexivity.
Qed.

(** The requests the tests send, whatever the network does. *)
Lemma test_health_sent (w : world) :
  sent (snd (test_health w)) = ("GET", API_URL ++ "/health") :: sent w.
Proof.
  unfold test_health. crun. cbn [server console sent].
  destruct net as [|[|] msg]; [|reflexivity|reflexivity].
  rewrite (health_check_run (server w)). cbv beta iota.
  unfold to_response. cbv beta iota.
  destruct (g_model (server w)); reflexivity.
Qed.


Lemma expect_400_request {A : Type} (method url : string) (handler : M A)
    (to_body : A -> pydict) (n : Z) (w : world) :
  net = Up ->
  exists line,
    expect_400 (request method url handler to_body) n w =
    (Done (if status_of (fst (handler (server w))) =? 400 then n + 1 else n),
     mkWorld (snd (handler (server w))) (line :: console w) ((method, url) :: sent w)).
Proof.
  intros Hnet. crun. rewrite Hnet. cbv beta iota.
  destruct (handler (server w)) as [[a | [code detail | cls msg]] st'];
    unfold to_response; cbv beta iota; cbn [fst snd status_of server console sent].
  - eexists. reflexivity.
  - destruct (code =? 400); eexists; reflexivity.
  - eexists. reflexivity.
Qed.

Lemma expect_400_down {A : Type} (method url : string) (handler : M A)
    (to_body : A -> pydict) (n : Z) (w : world) (c : bool) (msg : string) :
  net = Down c msg ->
  exists line,
    expect_400 (request method url handler to_body) n w =
    (Done n, mkWorld (server w) (line :: console w) ((method, url) :: sent w)).
Proof.
  intros Hnet. crun. rewrite Hnet. destruct c; eexists; reflexivity.
Qed.

Lemma test_invalid_inputs_up (w : world) :
  net = Up ->
  fst (test_invalid_inputs w) = Done (is_inl (b64decode "invalid_base64!!!")) /\
  same_globals (server (snd (test_invalid_inputs w))) (server w) /\
  (is_inl (b64decode "invalid_base64!!!") = true ->
   server (snd (test_invalid_inputs w)) = server w).
Proof.
  intros Hnet. unfold test_invalid_inputs, post_predict, post_predict_base64.
  cbv beta iota zeta delta [cbind creturn print_test print].
  repeat match goal with |- context [expect_400 (request ?me ?u ?h ?b) ?n ?w1] =>
    let l := fresh "l" in
    let E1 := fresh "E" in
    destruct (expect_400_request me u h b n w1 Hnet) as (l & E1);
    rewrite E1; clear E1; cbv beta iota; cbn [server console sent]
  end.
  rewrite (predict_not_image (mkUpload (Some "test.txt") (Some "text/plain")
                                (bytes_of_string "not an image"))
             (server w) "text/plain" eq_refl eq_refl).
  cbn [fst snd status_of].
  rewrite !(predict_base64_missing [("wrong_field", JString "data")] _ eq_refl).
  cbn [fst snd status_of].
  change (400 =? 400) with true. cbv beta iota.
  destruct (b64decode "invalid_base64!!!") as [e | raw] eqn:Hdec; cbn [is_inl].
  - rewrite !(predict_base64_undecodable [("image", JString "invalid_base64!!!")]
                (server w) (JString "invalid_base64!!!") e eq_refl Hdec).
    cbn [fst snd status_of]. change (400 =? 400) with true. cbv beta iota.
    split; [reflexivity|]. split; [apply same_globals_refl | reflexivity].
  - destruct (predict_base64_classify [("image", JString "invalid_base64!!!")]
                (server w) (JString "invalid_base64!!!") raw eq_refl Hdec) as [Ho Hg].
    rewrite Ho.
    assert (Hs : (status_of (classify (g_model (server w)) (g_model_name (server w))
                               (clock (server w)) raw) =? 400) = false).
    { apply Z.eqb_neq. apply status_of_classify_not; discriminate. }
    rewrite Hs. split; [reflexivity|]. split; [exact Hg | discriminate].
Qed.

Lemma test_invalid_inputs_down (w : world) (c : bool) (msg : string) :
  net = Down c msg ->
  fst (test_invalid_inputs w) = Done false /\
  server (snd (test_invalid_inputs w)) = server w.
Proof.
  intros Hnet. unfold test_invalid_inputs, post_predict, post_predict_base64.
  cbv beta iota zeta delta [cbind creturn print_test print].
  repeat match goal with |- context [expect_400 (request ?me ?u ?h ?b) ?n ?w1] =>
    let l := fresh "l" in
    let E1 := fresh "E" in
    destruct (expect_400_down me u h b n w1 c msg Hnet) as (l & E1);
    rewrite E1; clear E1; cbv beta iota; cbn [server console sent]
  end.
  split; reflexivity.
Qed.

Lemma main_unhealthy (w : world) :
  (match net with Up => is_some (g_model (server w)) | Down _ _ => false end) = false ->
  fst (main w) = Thrown (SystemExit 1) /\ server (snd (main w)) = server w /\
  sent (snd (main w)) = ("GET", API_URL ++ "/health") :: sent w.
Proof.
  intros Hbad. unfold main.
  cbv beta iota zeta delta [cbind creturn print_test print throw].
  match goal with |- context [test_health ?w1] =>
    assert (Hh : fst (test_health w1) = Done false /\
                 server (snd (test_health w1)) = server w /\
                 sent (snd (test_health w1)) = ("GET", API_URL ++ "/health") :: sent w);
    [|destruct (test_health w1) as [o w2]]
  end.
  { split; [|split].
    - destruct net as [|c msg] eqn:Hnet.
      + match goal with |- context [test_health ?w1] =>
          destruct (test_health_up w1 Hnet) as [Hf Hs] end.
        cbn [server] in Hf. rewrite Hbad in Hf. exact Hf.
      + match goal with |- context [test_health ?w1] =>
          destruct (test_health_down w1 c msg Hnet) as [Hf Hs] end.
        exact Hf.
    - destruct net as [|c msg] eqn:Hnet.
      + match goal with |- context [test_health ?w1] =>
          destruct (test_health_up w1 Hnet) as [Hf Hs] end.
        exact Hs.
      + match goal with |- context [test_health ?w1] =>
          destruct (test_health_down w1 c msg Hnet) as [Hf Hs] end.
        exact Hs.
    - rewrite test_health_sent. reflexivity. }
  cbn [fst snd] in Hh. destruct Hh as (-> & Hs & Hq).
  cbv beta iota delta [negb]. cbn [fst snd server sent].
  split; [reflexivity|]. split; assumption.
Qed.


Lemma classify_is_return_clock (model : option Model) (name : option string)
    (now1 now2 : string) (raw : bytes) :
  is_return (classify model name now1 raw) = is_return (classify model name now2 raw).
Proof.
  pose proof (classify_same_fields model name now1 now2 raw) as H.
  destruct (classify model name now1 raw), (classify model name now2 raw);
    cbn in *; (reflexivity || contradiction).
Qed.

Lemma same_globals_trans (st1 st2 st3 : state) :
  same_globals st1 st2 -> same_globals st2 st3 -> same_globals st1 st3.
Proof. intros [H1 H2] [H3 H4]. split; congruence. Qed.

Lemma test_predict_file_done (w : world) (image_path : string) :
  net = Up ->
  exists b,
    fst (test_predict_file image_path w) = Done b /\
    same_globals (server (snd (test_predict_file image_path w))) (server w).
Proof.
  intros Hnet. destruct (test_predict_file_up w image_path Hnet) as [Hf Hs].
  eexists. split; [exact Hf|]. rewrite Hs.
  destruct (file_upload image_path); [apply predict_globals | apply same_globals_refl].
Qed.

Lemma test_predict_base64_done (w : world) (image_path : string) :
  net = Up ->
  exists b,
    fst (test_predict_base64 image_path w) = Done b /\
    same_globals (server (snd (test_predict_base64 image_path w))) (server w).
Proof.
  intros Hnet. destruct (test_predict_base64_up w image_path Hnet) as [Hf Hs].
  eexists. split; [exact Hf|]. rewrite Hs.
  destruct (file_body image_path); [apply predict_base64_globals | apply same_globals_refl].
Qed.

Lemma print_results_run (rs : results) : forall w : world,
  exists lines,
    print_results rs w =
    (Done tt, mkWorld (server w) (lines ++ console w)%list (sent w)).
Proof.
  induction rs as [|[test_name result] rest IH]; intros w.
  - exists []. destruct w. reflexivity.
  - cbn [print_results]. cbv beta iota zeta delta [cbind creturn print_test print].
    destruct result as [[|]|];
      match goal with |- context [print_results rest ?w1] =>
        destruct (IH w1) as (lines & ->) end;
      cbn [server console sent];
      eexists (lines ++ [_])%list; rewrite <- app_assoc; reflexivity.
Qed.

Ltac step_invalid Hnet :=
  match goal with |- context [test_invalid_inputs ?w3] =>
    let Hf := fresh "Hf" in
    let Hg := fresh "Hg" in
    let o := fresh "o" in
    let w4 := fresh "w" in
    destruct (test_invalid_inputs_up w3 Hnet) as (Hf & Hg & _);
    destruct (test_invalid_inputs w3) as [o w4];
    cbn [fst snd server console sent] in Hf, Hg; subst o; cbv beta iota; cbn [app]
  end.

Ltac step_summary :=
  match goal with |- context [print_results ?rs ?w5] =>
    let lines := fresh "lines" in
    let E1 := fresh "E" in
    destruct (print_results_run rs w5) as (lines & E1);
    rewrite E1; clear E1; cbv beta iota
  end.

(** The run of [main] against an API that answers with a model loaded:
  [r2] and [r3] are the results of the two prediction tests. *)
Lemma main_healthy (w : world) :
  net = Up -> g_model (server w) <> None ->
  exists r2 r3 : option bool,
    fst (main w) =
      Done (if match r2 with Some false => false | _ => true end
               && match r3 with Some false => false | _ => true end
               && is_inl (b64decode "invalid_base64!!!")
            then 0 else 1) /\
    (file_exists "test_images" = false -> r2 = None /\ r3 = None) /\
    same_globals (server (snd (main w))) (server w).
Proof.
  intros Hnet Hm. unfold main.
  cbv beta iota zeta delta [cbind creturn print_test print throw].
  match goal with |- context [test_health ?w1] =>
    destruct (test_health_up w1 Hnet) as [Hf Hs];
    destruct (test_health w1) as [o w2]
  end.
  cbn [fst snd server] in Hf, Hs. subst o.
  destruct (g_model (server w)) as [m|] eqn:Hgm; [clear Hm | congruence].
  cbn [is_some negb]. cbv beta iota. cbn [app].
  assert (Hg2 : same_globals (server w2) (server w))
    by (rewrite Hs; apply same_globals_refl).
  clear Hs.
  destruct (file_exists "test_images") eqn:Hdir;
    [destruct (path_glob "test_images" "*.jpeg" ++ path_glob "test_images" "*.jpg"
               ++ path_glob "test_images" "*.png")%list as [|test_image others]|];
    cbv beta iota; cbn [server console sent].
  - (* no image in the folder *)
    step_invalid Hnet. step_summary.
    exists None, None.
    destruct (is_inl (b64decode "invalid_base64!!!"));
      (split; [reflexivity|]; split; [discriminate|]);
      cbn; eauto using same_globals_trans.
  - (* the first image *)
    match goal with |- context [test_predict_file test_image ?w3] =>
      destruct (test_predict_file_done w3 test_image Hnet) as (b1 & Hf1 & Hg1);
      destruct (test_predict_file test_image w3) as [o1 w4]
    end.
    cbn [fst snd server console sent] in Hf1, Hg1. subst o1. cbv beta iota.
    match goal with |- context [test_predict_base64 test_image ?w3] =>
      destruct (test_predict_base64_done w3 test_image Hnet) as (b2 & Hf2 & Hg2');
      destruct (test_predict_base64 test_image w3) as [o2 w5]
    end.
    cbn [fst snd server console sent] in Hf2, Hg2'. subst o2. cbv beta iota. cbn [app].
    step_invalid Hnet. step_summary.
    exists (Some b1), (Some b2).
    destruct b1, b2, (is_inl (b64decode "invalid_base64!!!"));
      (split; [reflexivity|]; split; [discriminate|]);
      cbn; eauto using same_globals_trans.
  - (* no folder *)
    step_invalid Hnet. step_summary.
    exists None, None.
    destruct (is_inl (b64decode "invalid_base64!!!"));
      (split; [reflexivity|]; split; [auto|]);
      cbn; eauto using same_globals_trans.
Qed.
End ClientRuns.

Section ExtrasClient.
Context {L : Lib} {E : ClientEnv}.

(** X15: [test_health] returns [True] exactly when the API answers and a
  model is loaded; when the API cannot be reached, or answers without a
  model, it returns [False].  It never raises, sends the one request
  [GET /health] and leaves the server as it was. *)
Theorem test_health_result (w : world) :
  fst (test_health w) =
    Done match net with
         | Up => is_some (g_model (server w))
         | Down _ _ => false
         end /\
  server (snd (test_health w)) = server w /\
  sent (snd (test_health w)) = ("GET", "http://localhost:8000/health") :: sent w.
Proof.
  split; [|split; [|apply test_health_sent]].
  - destruct net as [|c msg] eqn:Hnet.
    + apply test_health_up. exact Hnet.
    + apply (test_health_down w c msg). exact Hnet.
  - destruct net as [|c msg] eqn:Hnet.
    + apply test_health_up. exact Hnet.
    + apply (test_health_down w c msg). exact Hnet.
Qed.

(** X16: the three checks of [test_invalid_inputs].  Against an API that
  answers, the text upload and the body without "image" are always
  answered 400, with or without a model; so the test returns [True]
  exactly when [base64.b64decode] rejects the text "invalid_base64!!!".
  It returns [False] when the API cannot be reached.  The globals of the
  server are not changed, and a run that returns [True] leaves nothing on
  the server: no line logged, no image opened. *)
Theorem test_invalid_inputs_result (w : world) :
  fst (test_invalid_inputs w) =
    Done match net with
         | Up => is_inl (b64decode "invalid_base64!!!")
         | Down _ _ => false
         end /\
  same_globals (server (snd (test_invalid_inputs w))) (server w) /\
  (fst (test_invalid_inputs w) = Done true ->
   server (snd (test_invalid_inputs w)) = server w).
Proof.
  destruct net as [|c msg] eqn:Hnet.
  - destruct (test_invalid_inputs_up w Hnet) as (Hf & Hg & Hs).
    split; [exact Hf|]. split; [exact Hg|].
    rewrite Hf. intros H. injection H as H. exact (Hs H).
  - destruct (test_invalid_inputs_down w c msg Hnet) as (Hf & Hs).
    split; [exact Hf|]. split; [rewrite Hs; apply same_globals_refl|].
    intros _. exact Hs.
Qed.


(** X18: the two prediction tests agree, as [main] runs them: for a file
  of at most 10 MiB whose base64 text decodes back to its bytes,
  [test_predict_base64] run after [test_predict_file] on the same path
  returns the same result. *)
Theorem prediction_tests_agree (w : world) (image_path : string) (raw : bytes) :
  net = Up ->
  file_exists image_path = true -> file_read image_path = inr raw ->
  Z.of_nat (List.length raw) <= MAX_BYTES ->
  b64decode (b64encode raw) = inr raw ->
  fst (test_predict_base64 image_path (snd (test_predict_file image_path w))) =
  fst (test_predict_file image_path w).
Proof.
  intros Hnet Hex Hread Hle Hdec.
  destruct (test_predict_file_up w image_path Hnet) as [Hf Hs].
  destruct (test_predict_base64_up (snd (test_predict_file image_path w)) image_path Hnet)
    as [Hf' _].
  rewrite Hf', Hf, Hs. unfold file_upload, file_body. rewrite Hex, Hread.
  set (file := mkUpload (Some (path_name image_path)) (Some "image/jpeg") raw).
  destruct (predict_classify file (server w) "image/jpeg" eq_refl eq_refl Hle)
    as [Ho [Hgm Hgn]].
  destruct (predict_base64_classify [("image", JString (b64encode raw))]
              (snd (predict file (server w))) (JString (b64encode raw)) raw
              eq_refl Hdec) as [Ho' _].
  rewrite Ho', Ho, Hgm, Hgn. cbn [contents file]. f_equal.
  apply classify_is_return_clock.
Qed.


(** X20: the exit status of the script is 0 or 1.  It is 1, with the
  health request the only one sent and the server left as it was, when
  the API cannot be reached or has no model.
  A status 0 means that the API answered with a model loaded and that the
  three error checks passed.  Skipped prediction tests do not count as
  failures: without the folder [test_images], a healthy API whose decoder
  rejects the invalid text gives status 0. *)
Theorem script_exit_status (w : world) :
  (fst (script w) = 0 \/ fst (script w) = 1) /\
  (fst (script w) = 0 ->
   net = Up /\ g_model (server w) <> None /\
   is_inl (b64decode "invalid_base64!!!") = true) /\
  ((net = Up -> g_model (server w) = None) ->
   fst (script w) = 1 /\ server (snd (script w)) = server w /\
   sent (snd (script w)) = ("GET", "http://localhost:8000/health") :: sent w) /\
  (net = Up -> g_model (server w) <> None ->
   is_inl (b64decode "invalid_base64!!!") = true ->
   file_exists "test_images" = false ->
   fst (script w) = 0).
Proof.
  unfold script.
  destruct (match net with Up => is_some (g_model (server w)) | Down _ _ => false end)
    eqn:Hh.
  - assert (Hnet : net = Up) by (destruct net; [reflexivity | discriminate]).
    assert (Hm : g_model (server w) <> None).
    { rewrite Hnet in Hh. destruct (g_model (server w)); [discriminate | discriminate]. }
    destruct (main_healthy w Hnet Hm) as (r2 & r3 & Hf & Hskip & _).
    destruct (main w) as [o w']. cbn [fst] in Hf. subst o. cbn [fst snd].
    split; [|split; [|split]].
    + destruct (_ && _ && _); auto.
    + intros H0.
      destruct (is_inl (b64decode "invalid_base64!!!")).
      * auto.
      * rewrite andb_false_r in H0. discriminate.
    + intros Hbad. exfalso. apply Hm. exact (Hbad Hnet).
    + intros _ _ Hrej Hdir. destruct (Hskip Hdir) as [-> ->]. rewrite Hrej. reflexivity.
  - destruct (main_unhealthy w Hh) as (Hf & Hs & Hq).
    destruct (main w) as [o w']. cbn [fst snd] in Hf, Hs, Hq. subst o. cbn [fst snd].
    split; [auto|]. split; [discriminate|]. split; [auto|].
    intros Hnet Hm. exfalso. rewrite Hnet in Hh.
    destruct (g_model (server w)); [discriminate | congruence].
Qed.
End ExtrasClient.

(** ** The client on its machine *)


(** X18 at the same file. *)
Lemma prediction_tests_agree_witness :
  fst (@test_predict_base64 demo_lib demo_client "test_images/xray.png"
         (snd (@test_predict_file demo_lib demo_client "test_images/xray.png" demo_world)))
  = fst (@test_predict_file demo_lib demo_client "test_images/xray.png" demo_world).
Proof.
  apply (@prediction_tests_agree demo_lib demo_client demo_world
           "test_images/xray.png" demo_png); try reflexivity.
  discriminate.
Defined.


(** The whole script on three machines: a healthy API, an API without a
  model, and no API at all.  The upload of the healthy run carries the
  name of the file without its folder. *)
Example script_demo :
  fst (@script demo_lib demo_client demo_world) = 0 /\
  fst (@script demo_lib demo_client demo_world_degraded) = 1 /\
  fst (@script demo_lib demo_client_offline demo_world) = 1 /\
  @file_upload demo_client "test_images/xray.png"
  = Some (mkUpload (Some "xray.png") (Some "image/jpeg") demo_png).
Proof. repeat split. Qed.

(** What the healthy run prints, sends and makes the server log: 46 lines
  on the console, the last one the line of success; six requests; one
  line per opened image and per prediction in the log of the server. *)
Example script_demo_output :
  let w' := snd (@script demo_lib demo_client demo_world) in
  List.length (console w') = 46%nat /\
  hd_error (console w')
  = Some [Text Colors.OKGREEN; Text (newline ++ "🎉 TODOS LOS TESTS PASARON");
          Text Colors.ENDC] /\
  rev (sent w')
  = [ ("GET", "http://localhost:8000/health");
      ("POST", "http://localhost:8000/predict");
      ("POST", "http://localhost:8000/predict_base64");
      ("POST", "http://localhost:8000/predict");
      ("POST", "http://localhost:8000/predict_base64");
      ("POST", "http://localhost:8000/predict_base64") ] /\
  log_lines (trace (server w'))
  = [ (INFO, MsgPrediction "PNEUMONIA" (S754_finite false 6755399441055744 (-53)));
      (INFO, MsgImageBase64 (2%nat, 2%nat));
      (INFO, MsgPrediction "PNEUMONIA" (S754_finite false 6755399441055744 (-53)));
      (INFO, MsgImage (Some "xray.png") (2%nat, 2%nat)) ].
Proof. repeat split. Qed.
